(** * Marathon bot: scheduling, delivery, subscription gate, raffle, user store

    A shallow embedding of [scheduler.py], [database.py] and the broadcast
    handler of [bot.py], together with the properties of the delivery
    primitive, the subscription checker, the reminder tick, the fan-out loops,
    the raffle and the user table.

    Conventions.
    - Coroutines become computations in a state-and-trace monad [M]: they read
      and update a [World] (the SQLite tables, the wall clock and the cursors
      of the external oracles) and emit a chronological list of [Event]s
      (transport calls, membership lookups, sleeps, log records).
    - Everything outside the process is an oracle of the environment [Env],
      indexed by the call number: the answer of the transport to the n-th
      send, the answer to the n-th membership lookup, whether the n-th database
      access raises, the n-th random draw.  No assumption is made on them.
    - Durations are in milliseconds: [asyncio.sleep(0.05)] is [EvSleep 50] and
      [asyncio.sleep(s)] for an integer number of seconds is
      [EvSleep (1000 * s)]. *)

From Stdlib Require Import ZArith String List Lia.
From stdpp Require Import base option list gmap strings.

Local Open Scope Z_scope.

(** ** Python values used by the configuration *)

(** A channel id as read from the environment: unset, a string or an
    integer. *)
Inductive PyVal :=
| PyNone
| PyStr (s : string)
| PyInt (z : Z).

(** Python truthiness, as used by [all(...)]. *)
Definition truthy (v : PyVal) : bool :=
  match v with
  | PyNone => false
  | PyStr s => negb (String.eqb s EmptyString)
  | PyInt z => negb (z =? 0)
  end.

(** Truthiness of an optional string ([if not username], [if photo]). *)
Definition truthy_str (o : option string) : bool :=
  match o with
  | None => false
  | Some s => negb (String.eqb s EmptyString)
  end.

(** [range(n)] *)
Definition range (n : Z) : list Z := map Z.of_nat (seq 0 (Z.to_nat n)).

(** ** External collaborators *)

(** What [bot.send_message] / [bot.send_photo] does: return, or raise one of
    the exception classes the callers distinguish. *)
Inductive SendResult :=
| SendOk
| TelegramRetryAfter (retry_after : Z)
| TelegramNetworkError
| TelegramAPIError
| OtherException.

(** [aiogram.enums.ChatMemberStatus] *)
Inductive ChatMemberStatus :=
| CREATOR | ADMINISTRATOR | MEMBER | RESTRICTED | LEFT | KICKED.

(** What [bot.get_chat_member] does: return a member with a status, or
    raise. *)
Inductive LookupResult :=
| LookupOk (status : ChatMemberStatus)
| LookupRaises.

Record Env := {
  send_oracle : nat -> SendResult;
  member_oracle : nat -> PyVal -> Z -> LookupResult;
  db_oracle : nat -> bool;          (* true: the n-th database access raises *)
  rand_oracle : nat -> nat
}.

(** ** The store *)

(** A row of table [users]; [user_id] is the primary key, hence the key of
    the map. *)
Record UserRow := {
  username : option string;
  first_name : option string;
  registered_at : Z;
  subscribed : Z
}.

(** A row of table [raffle_winners]; the autoincremented id is the position
    in the list. *)
Record WinnerRow := {
  raffle_date : Z;
  w_prize_place : Z;
  w_prize_amount : string;
  w_user_id : Z;
  w_username : option string;
  w_first_name : option string
}.

Record World := {
  users : gmap Z UserRow;
  raffle_winners : list WinnerRow;
  clock : Z;            (* CURRENT_TIMESTAMP, in milliseconds *)
  n_send : nat;         (* transport sends made so far *)
  n_lookup : nat;       (* membership lookups made so far *)
  n_db : nat;           (* database accesses made so far *)
  n_rand : nat          (* random draws made so far *)
}.

(** ** Events *)

Inductive Level := DEBUG | INFO | WARNING | ERROR.

Inductive Event :=
| EvSendMessage (chat_id : Z) (text : string)
| EvSendPhoto (chat_id : Z) (photo : string) (caption : string)
| EvGetChatMember (channel_id : PyVal) (user_id : Z)
| EvSleep (ms : Z)
| EvLog (lvl : Level)
| EvReply
| EvReport (success_count error_count total : nat).

(** ** The monad *)

Record Res (A : Type) := mkRes {
  res_val : A;
  res_world : World;
  res_trace : list Event
}.
Arguments mkRes {A} _ _ _.
Arguments res_val {A} _.
Arguments res_world {A} _.
Arguments res_trace {A} _.

Definition M (A : Type) : Type := World -> Res A.

#[global] Instance M_ret : MRet M := fun A a w => mkRes a w [].
#[global] Instance M_bind : MBind M := fun A B k m w =>
  let r := m w in
  let r' := k (res_val r) (res_world r) in
  mkRes (res_val r') (res_world r') (res_trace r ++ res_trace r').

#[global] Instance M_fmap : FMap M := fun A B f m =>
  x ← m; mret (f x).

Definition emit (e : Event) : M unit := fun w => mkRes tt w [e].

Definition log (lvl : Level) : M unit := emit (EvLog lvl).

(** [await asyncio.sleep(...)]: the clock advances. *)
Definition sleep (ms : Z) : M unit := fun w =>
  mkRes tt
    {| users := users w; raffle_winners := raffle_winners w;
       clock := clock w + Z.max 0 ms;
       n_send := n_send w; n_lookup := n_lookup w; n_db := n_db w;
       n_rand := n_rand w |}
    [EvSleep ms].

Definition PACING : Z := 50.

(** Projections of a trace. *)
Definition is_send (e : Event) : bool :=
  match e with EvSendMessage _ _ | EvSendPhoto _ _ _ => true | _ => false end.

Definition recipient (e : Event) : option Z :=
  match e with
  | EvSendMessage c _ | EvSendPhoto c _ _ => Some c
  | _ => None
  end.

Definition sleep_of (e : Event) : option Z :=
  match e with EvSleep ms => Some ms | _ => None end.

Definition attempts (t : list Event) : nat :=
  length (List.filter is_send t).
Definition recipients (t : list Event) : list Z := omap recipient t.
Definition sleeps (t : list Event) : list Z := omap sleep_of t.

(** ** config.py and messages.py, as far as the code reads them *)

(** [(year, month, day, hour, minute)] *)
Definition TimeTuple : Type := Z * Z * Z * Z * Z.

Record datetime := {
  year : Z; month : Z; day : Z; hour : Z; minute : Z;
  second : Z; microsecond : Z
}.

(** An entry of [BROADCASTS]: the label, the ["date"] of each reminder, and
    the remaining keys, which only the message templates read. *)
Record Broadcast := {
  b_day : string;
  day_before_date : TimeTuple;
  hour_before_date : TimeTuple;
  five_min_before_date : TimeTuple;
  after_date : TimeTuple;
  b_details : list (string * string)
}.

Record Config := {
  BROADCASTS : list Broadcast;
  MARATHON_END_DATE : TimeTuple;
  CHANNEL_MAIN_ID : PyVal;
  CHANNEL_OKSANA_ID : PyVal;
  CHANNEL_NATALIA_ID : PyVal;
  CHANNEL_MARIA_ID : PyVal
}.

(** The dictionaries [conduct_raffle] hands to [save_raffle_winners] and to
    [get_raffle_message]. *)
Record WinnerData := {
  prize_place : Z;
  prize_amount : string;
  wd_user_id : Z;
  wd_username : option string;
  wd_first_name : option string
}.

Record Messages := {
  get_day_before_message : Broadcast -> string;
  get_hour_before_message : Broadcast -> string;
  get_after_broadcast_message : Broadcast -> string;
  MESSAGE_MARATHON_END : string;
  get_raffle_message : list WinnerData -> string
}.

Section Program.

Variable env : Env.
Variable cfg : Config.
Variable msgs : Messages.

(** [await bot.send_message(chat_id=..., text=...)] *)
Definition bot_send_message (chat_id : Z) (text : string) : M SendResult :=
  fun w =>
  mkRes (send_oracle env (n_send w))
    {| users := users w; raffle_winners := raffle_winners w; clock := clock w;
       n_send := S (n_send w); n_lookup := n_lookup w; n_db := n_db w;
       n_rand := n_rand w |}
    [EvSendMessage chat_id text].

(** ** scheduler.py: safe_send_message *)

(** The body of [for attempt in range(max_retries)], over the attempt indices
    still to run; falling out of the loop returns [False]. *)
Fixpoint safe_send_loop (max_retries : Z) (chat_id : Z) (text : string)
    (todo : list Z) : M bool :=
  match todo with
  | [] => mret false
  | attempt :: rest =>
      r ← bot_send_message chat_id text;
      match r with
      | SendOk => mret true
      | TelegramRetryAfter retry_after =>
          let wait_time := retry_after in
          log WARNING;;
          sleep (1000 * wait_time);;
          safe_send_loop max_retries chat_id text rest
      | TelegramNetworkError =>
          if attempt <? max_retries - 1 then
            let wait_time := (attempt + 1) * 2 in
            log WARNING;;
            sleep (1000 * wait_time);;
            safe_send_loop max_retries chat_id text rest
          else
            log ERROR;; mret false
      | TelegramAPIError => log ERROR;; mret false
      | OtherException => log ERROR;; mret false
      end
  end.

Definition safe_send_message (chat_id : Z) (text : string) (max_retries : Z)
    : M bool :=
  safe_send_loop max_retries chat_id text (range max_retries).

Definition DEFAULT_MAX_RETRIES : Z := 3.

(** [for x in xs: body(x)] *)
Fixpoint for_each {A : Type} (xs : list A) (body : A -> M unit) : M unit :=
  match xs with
  | [] => mret tt
  | x :: rest => body x;; for_each rest body
  end.

(** The loop every scheduled broadcast runs:
    [for user_id in users: await safe_send_message(bot, user_id, message);
     await asyncio.sleep(0.05)]. *)
Definition send_to_all (user_ids : list Z) (message : string) : M unit :=
  for_each user_ids (fun user_id =>
    safe_send_message user_id message DEFAULT_MAX_RETRIES;;
    sleep PACING).

(** ** database.py *)

(** Entering [async with aiosqlite.connect(DB_PATH)] and running the
    statements of one function: either all of it goes through, or it raises
    before the commit and the tables are as they were. *)
Definition db_raises : M bool := fun w =>
  mkRes (db_oracle env (n_db w))
    {| users := users w; raffle_winners := raffle_winners w; clock := clock w;
       n_send := n_send w; n_lookup := n_lookup w; n_db := S (n_db w);
       n_rand := n_rand w |}
    [].

Definition get_world : M World := fun w => mkRes w w [].

Definition set_users (us : gmap Z UserRow) : M unit := fun w =>
  mkRes tt
    {| users := us; raffle_winners := raffle_winners w; clock := clock w;
       n_send := n_send w; n_lookup := n_lookup w; n_db := n_db w;
       n_rand := n_rand w |}
    [].

Definition set_raffle_winners (ws : list WinnerRow) : M unit := fun w =>
  mkRes tt
    {| users := users w; raffle_winners := ws; clock := clock w;
       n_send := n_send w; n_lookup := n_lookup w; n_db := n_db w;
       n_rand := n_rand w |}
    [].

Definition add_user (user_id : Z) (uname fname : option string) : M unit :=
  raised ← db_raises;
  if raised : bool then log ERROR
  else
    w ← get_world;
    match users w !! user_id with
    | Some row =>
        (* UPDATE users SET username = ?, first_name = ? WHERE user_id = ? *)
        set_users (<[user_id :=
          {| username := uname; first_name := fname;
             registered_at := registered_at row;
             subscribed := subscribed row |}]> (users w))
    | None =>
        (* INSERT INTO users (user_id, username, first_name) *)
        set_users (<[user_id :=
          {| username := uname; first_name := fname;
             registered_at := clock w;
             subscribed := 0 |}]> (users w))
    end;;
    log DEBUG.

(** [UPDATE users SET subscribed = v WHERE user_id = ?] *)
Definition update_subscribed (user_id : Z) (v : Z) (us : gmap Z UserRow)
    : gmap Z UserRow :=
  match us !! user_id with
  | Some row =>
      <[user_id :=
        {| username := username row; first_name := first_name row;
           registered_at := registered_at row; subscribed := v |}]> us
  | None => us
  end.

Definition mark_subscribed (user_id : Z) : M unit :=
  raised ← db_raises;
  if raised : bool then log ERROR
  else
    w ← get_world;
    set_users (update_subscribed user_id 1 (users w));;
    log INFO.

Definition update_user_subscription_status (user_id : Z) (is_subscribed : bool)
    : M unit :=
  raised ← db_raises;
  if raised : bool then log ERROR
  else
    w ← get_world;
    set_users
      (update_subscribed user_id (if is_subscribed then 1 else 0) (users w));;
    log DEBUG.

(** [SELECT user_id FROM users WHERE subscribed = 1]; the rows come in the
    order in which the table enumerates them. *)
Definition select_registered (us : gmap Z UserRow) : list Z :=
  (filter (fun kv => subscribed kv.2 = 1) (map_to_list us)).*1.

Definition get_all_registered_users : M (list Z) :=
  raised ← db_raises;
  if raised : bool then log ERROR;; mret []
  else
    w ← get_world;
    let user_ids := select_registered (users w) in
    log INFO;;
    mret user_ids.

(** The dictionaries built from the rows of the raffle query. *)
Record Participant := {
  p_user_id : Z;
  p_username : option string;
  p_first_name : option string
}.

(** [SELECT user_id, username, first_name FROM users WHERE subscribed = 1
     AND username IS NOT NULL AND username != ''] *)
Definition select_participants (us : gmap Z UserRow) : list Participant :=
  map (fun kv => {| p_user_id := kv.1; p_username := username kv.2;
                    p_first_name := first_name kv.2 |})
    (filter (fun kv => subscribed kv.2 = 1 ∧ truthy_str (username kv.2) = true)
       (map_to_list us)).

Definition get_eligible_raffle_participants : M (list Participant) :=
  raised ← db_raises;
  if raised : bool then log ERROR;; mret []
  else
    w ← get_world;
    let participants := select_participants (users w) in
    log INFO;;
    mret participants.

(** How a call that may let an exception through ends. *)
Inductive Outcome := Returned | Raised.

Definition winner_row (now : Z) (wd : WinnerData) : WinnerRow :=
  {| raffle_date := now; w_prize_place := prize_place wd;
     w_prize_amount := prize_amount wd; w_user_id := wd_user_id wd;
     w_username := wd_username wd; w_first_name := wd_first_name wd |}.

(** The inserts of one call are committed together; on an exception the
    error is logged and re-raised. *)
Definition save_raffle_winners (winners : list WinnerData) : M Outcome :=
  raised ← db_raises;
  if raised : bool then log ERROR;; mret Raised
  else
    w ← get_world;
    set_raffle_winners
      (raffle_winners w ++ map (winner_row (clock w)) winners);;
    log INFO;;
    mret Returned.

(** ** scheduler.py: check_subscription *)

(** [await bot.get_chat_member(channel_id, user_id)] *)
Definition bot_get_chat_member (channel_id : PyVal) (user_id : Z)
    : M LookupResult := fun w =>
  mkRes (member_oracle env (n_lookup w) channel_id user_id)
    {| users := users w; raffle_winners := raffle_winners w; clock := clock w;
       n_send := n_send w; n_lookup := S (n_lookup w); n_db := n_db w;
       n_rand := n_rand w |}
    [EvGetChatMember channel_id user_id].

(** [member.status in [MEMBER, ADMINISTRATOR, CREATOR]] *)
Definition status_is_subscribed (st : ChatMemberStatus) : bool :=
  match st with
  | MEMBER | ADMINISTRATOR | CREATOR => true
  | _ => false
  end.

(** The dictionary [channel_ids], in insertion order. *)
Definition channel_ids : list (string * PyVal) :=
  [("MAIN"%string, CHANNEL_MAIN_ID cfg);
   ("OKSANA"%string, CHANNEL_OKSANA_ID cfg);
   ("NATALIA"%string, CHANNEL_NATALIA_ID cfg);
   ("MARIA"%string, CHANNEL_MARIA_ID cfg)].

(** The loop filling [statuses]. *)
Fixpoint check_channels (user_id : Z) (items : list (string * PyVal))
    : M (list bool) :=
  match items with
  | [] => mret []
  | (channel_name, channel_id) :: rest =>
      r ← bot_get_chat_member channel_id user_id;
      is_subscribed ←
        match r with
        | LookupOk st => mret (status_is_subscribed st)
        | LookupRaises => log ERROR;; mret false
        end;
      statuses ← check_channels user_id rest;
      mret (is_subscribed :: statuses)
  end.

Definition check_subscription (user_id : Z) : M bool :=
  if negb (forallb truthy (channel_ids.*2)) then
    log WARNING;;
    mret true
  else
    statuses ← check_channels user_id channel_ids;
    let result := forallb id statuses in
    mret result.

(** ** scheduler.py: check_and_send_reminders *)

(** The body of [for broadcast in BROADCASTS]. *)
Definition send_due_reminders (user_ids : list Z) (current_time : TimeTuple)
    (broadcast : Broadcast) : M unit :=
  (if bool_decide (current_time = day_before_date broadcast) then
     let message := get_day_before_message msgs broadcast in
     log INFO;;
     send_to_all user_ids message
   else mret tt);;
  (if bool_decide (current_time = hour_before_date broadcast) then
     let message := get_hour_before_message msgs broadcast in
     log INFO;;
     send_to_all user_ids message
   else mret tt);;
  (if bool_decide (current_time = after_date broadcast) then
     let message := get_after_broadcast_message msgs broadcast in
     log INFO;;
     send_to_all user_ids message
   else mret tt).

(** [now] is the value [datetime.now()] returned. *)
Definition check_and_send_reminders (now : datetime) : M unit :=
  let current_time : TimeTuple :=
    (year now, month now, day now, hour now, minute now) in
  user_ids ← get_all_registered_users;
  match user_ids with
  | [] => log DEBUG
  | _ =>
      log INFO;;
      for_each (BROADCASTS cfg) (send_due_reminders user_ids current_time);;
      (if bool_decide (current_time = MARATHON_END_DATE cfg) then
         log INFO;;
         send_to_all user_ids (MESSAGE_MARATHON_END msgs)
       else mret tt)
  end.

(** ** The random source *)

(** [random] draws below a bound; any value below the bound can come out. *)
Definition randbelow (n : nat) : M nat := fun w =>
  mkRes (rand_oracle env (n_rand w) `mod` n)%nat
    {| users := users w; raffle_winners := raffle_winners w; clock := clock w;
       n_send := n_send w; n_lookup := n_lookup w; n_db := n_db w;
       n_rand := S (n_rand w) |}
    [].

(** [random.sample]: [k] times, a position of the pool still in play is
    drawn, its element is taken and the last element in play moves into its
    place.  [pool] is the part still in play. *)
Fixpoint sample_loop {A : Type} (k : nat) (pool : list A) : M (list A) :=
  match k with
  | O => mret []
  | S k' =>
      j ← randbelow (length pool);
      match pool !! j, last pool with
      | Some x, Some y =>
          rest ← sample_loop k' (removelast (<[j := y]> pool));
          mret (x :: rest)
      | _, _ => mret []
      end
  end.

(** [random.sample(population, k)]; [None] is the [ValueError] for a sample
    larger than the population. *)
Definition random_sample {A : Type} (population : list A) (k : nat)
    : M (option (list A)) :=
  if (length population <? k)%nat then mret None
  else Some <$> sample_loop k population.

(** [x[i], x[j] = x[j], x[i]] *)
Definition swap {A : Type} (x : list A) (i j : nat) : list A :=
  match x !! i, x !! j with
  | Some a, Some b => <[j := a]> (<[i := b]> x)
  | _, _ => x
  end.

(** [random.shuffle(x)]:
    [for i in reversed(range(1, len(x))): j = randbelow(i + 1); swap]. *)
Fixpoint shuffle_loop {A : Type} (indices : list nat) (x : list A)
    : M (list A) :=
  match indices with
  | [] => mret x
  | i :: rest =>
      j ← randbelow (i + 1);
      shuffle_loop rest (swap x i j)
  end.

Definition random_shuffle {A : Type} (x : list A) : M (list A) :=
  shuffle_loop (rev (seq 1 (length x - 1))) x.

(** ** scheduler.py: conduct_raffle *)

(** The loop building [eligible_participants]. *)
Fixpoint check_participants (participants : list Participant)
    : M (list Participant) :=
  match participants with
  | [] => mret []
  | participant :: rest =>
      let user_id := p_user_id participant in
      let uname := p_username participant in
      if negb (truthy_str uname) then
        log DEBUG;;
        check_participants rest
      else
        is_subscribed ← check_subscription user_id;
        update_user_subscription_status user_id is_subscribed;;
        (if is_subscribed : bool then mret tt else log DEBUG);;
        eligible ← check_participants rest;
        mret (if is_subscribed : bool then participant :: eligible
              else eligible)
  end.

(** The random choice of the winners. *)
Definition select_winners (eligible_participants : list Participant)
    : M (option (list Participant)) :=
  if (3 <? length eligible_participants)%nat then
    random_sample eligible_participants 3
  else
    let winners := eligible_participants in
    Some <$> random_shuffle winners.

Definition prizes : list (Z * string) :=
  [(1, "10 000 ₽"%string); (2, "5 000 ₽"%string); (3, "3 000 ₽"%string)].

(** [for i in range(num_winners)]: [None] is the [IndexError] of
    [winners[i]] or [prizes[i]]. *)
Fixpoint build_winners_data (winners : list Participant) (indices : list nat)
    : M (option (list WinnerData)) :=
  match indices with
  | [] => mret (Some [])
  | i :: rest =>
      match winners !! i, prizes !! i with
      | Some winner, Some prize =>
          let winner_data :=
            {| prize_place := prize.1; prize_amount := prize.2;
               wd_user_id := p_user_id winner;
               wd_username := p_username winner;
               wd_first_name := p_first_name winner |} in
          log INFO;;
          more ← build_winners_data winners rest;
          mret (cons winner_data <$> more)
      | _, _ => mret None
      end
  end.

(** Winner selection and prize assignment for a non-empty eligible list. *)
Definition draw_winners (eligible_participants : list Participant)
    : M (option (list WinnerData)) :=
  let num_winners := Nat.min (length eligible_participants) 3 in
  selected ← select_winners eligible_participants;
  match selected with
  | None => mret None
  | Some winners => build_winners_data winners (seq 0 num_winners)
  end.

(** Every exception inside is caught by the outer [try] and logged. *)
Definition conduct_raffle : M unit :=
  log INFO;;
  participants ← get_eligible_raffle_participants;
  match participants with
  | [] => log WARNING
  | _ =>
      log INFO;;
      eligible_participants ← check_participants participants;
      log INFO;;
      if (length eligible_participants =? 0)%nat then mret tt
      else
        drawn ← draw_winners eligible_participants;
        match drawn with
        | None => log ERROR
        | Some winners_data =>
            saved ← save_raffle_winners winners_data;
            match saved with
            | Raised => log ERROR
            | Returned =>
                log INFO;;
                let message := get_raffle_message msgs winners_data in
                user_ids ← get_all_registered_users;
                log INFO;;
                send_to_all user_ids message;;
                log INFO
            end
        end
  end.

(** ** bot.py: the administrator's broadcast *)

Record MessageData := {
  md_text : string;
  md_photo : option string
}.

(** [await bot.send_photo(chat_id=..., photo=..., caption=...)] *)
Definition bot_send_photo (chat_id : Z) (photo caption : string)
    : M SendResult := fun w =>
  mkRes (send_oracle env (n_send w))
    {| users := users w; raffle_winners := raffle_winners w; clock := clock w;
       n_send := S (n_send w); n_lookup := n_lookup w; n_db := n_db w;
       n_rand := n_rand w |}
    [EvSendPhoto chat_id photo caption].

(** The sending loop of [confirm_send_callback]; returns
    [(success_count, error_count)]. *)
Fixpoint admin_send_loop (message_data : MessageData) (user_ids : list Z)
    (success_count error_count : nat) : M (nat * nat) :=
  match user_ids with
  | [] => mret (success_count, error_count)
  | user_id :: rest =>
      r ← match md_photo message_data with
          | Some photo =>
              if negb (String.eqb photo EmptyString) then
                bot_send_photo user_id photo (md_text message_data)
              else bot_send_message user_id (md_text message_data)
          | None => bot_send_message user_id (md_text message_data)
          end;
      match r with
      | SendOk =>
          sleep PACING;;
          admin_send_loop message_data rest (S success_count) error_count
      | _ =>
          log ERROR;;
          admin_send_loop message_data rest success_count (S error_count)
      end
  end.

(** Messages, edits and callback answers in the administrator's own chat
    ([callback.answer], [safe_edit_message], [callback.message.answer]); the
    final report carries the counters. *)
Definition reply : M unit := emit EvReply.

Definition report (success_count error_count total : nat) : M unit :=
  emit (EvReport success_count error_count total).

(** [message_data] is [data.get("message_data")]. *)
Definition confirm_send_callback (message_data : option MessageData)
    : M unit :=
  match message_data with
  | None => reply
  | Some md =>
      reply;;
      reply;;
      user_ids ← get_all_registered_users;
      match user_ids with
      | [] => reply
      | _ =>
          counts ← admin_send_loop md user_ids 0 0;
          report counts.1 counts.2 (length user_ids);;
          reply
      end
  end.

End Program.

(** * The rest of the program *)

Section More.

Variable env : Env.
Variable cfg : Config.
Variable msgs : Messages.

(** ** database.py: is_registered *)

(** [SELECT subscribed FROM users WHERE user_id = ?], then
    [row is not None and row[0] == 1].  There is no [try] here: [None] is the
    exception leaving the function. *)
Definition is_registered (user_id : Z) : M (option bool) :=
  raised ← db_raises env;
  if raised : bool then mret None
  else
    w ← get_world;
    let row := users w !! user_id in
    mret (Some (match row with
                | Some r => subscribed r =? 1
                | None => false
                end)).

(** ** scheduler.py: scheduler_loop *)

Definition TICK_PERIOD : Z := 60000.

(** [while True: try: await check_and_send_reminders(bot) except Exception:
    log; await asyncio.sleep(60)], for the iterations in which
    [datetime.now()] returns the values of [nows].  Nothing in the tick
    raises, so the [except] branch is not taken. *)
Definition scheduler_loop (nows : list datetime) : M unit :=
  for_each nows (fun now =>
    check_and_send_reminders env cfg msgs now;;
    sleep TICK_PERIOD).

(** ** bot.py: check_subscription *)

(** The copy of the checker in bot.py: the same lookups, with debug
    records around them. *)
Fixpoint bot_check_channels (user_id : Z) (items : list (string * PyVal))
    : M (list bool) :=
  match items with
  | [] => mret []
  | (channel_name, channel_id) :: rest =>
      log DEBUG;;
      r ← bot_get_chat_member env channel_id user_id;
      is_subscribed ←
        match r with
        | LookupOk st => log DEBUG;; mret (status_is_subscribed st)
        | LookupRaises => log ERROR;; mret false
        end;
      statuses ← bot_check_channels user_id rest;
      mret (is_subscribed :: statuses)
  end.

Definition bot_check_subscription (user_id : Z) : M bool :=
  if negb (forallb truthy ((channel_ids cfg).*2)) then
    log WARNING;;
    mret true
  else
    log DEBUG;;
    statuses ← bot_check_channels user_id (channel_ids cfg);
    let result := forallb id statuses in
    log DEBUG;;
    mret result.

(** ** bot.py: the handlers of the registration flow *)

(** [message.answer], [callback.answer], [callback.message.answer],
    [callback.message.edit_reply_markup]: calls of the platform in the chat
    of the update, which return or raise like any send. *)
Definition ui_call : M SendResult := fun w =>
  mkRes (send_oracle env (n_send w))
    {| users := users w; raffle_winners := raffle_winners w; clock := clock w;
       n_send := S (n_send w); n_lookup := n_lookup w; n_db := n_db w;
       n_rand := n_rand w |}
    [EvReply].

(** [cmd_start]: the user is stored, then greeted; the greeting is tried a
    second time, two seconds later, after a network error. *)
Definition cmd_start (user_id : Z) (uname fname : option string) : M unit :=
  add_user env user_id uname fname;;
  log INFO;;
  r ← ui_call;
  match r with
  | SendOk => mret tt
  | TelegramNetworkError =>
      log WARNING;;
      sleep 2000;;
      r2 ← ui_call;
      match r2 with
      | SendOk => mret tt
      | _ => log ERROR
      end
  | _ => log ERROR
  end.

(** The outer [except Exception] of the two callback handlers:
    [logger.error(...)], then [callback.answer(...)] inside [try/except:
    pass]. *)
Definition handler_failed : M unit :=
  log ERROR;;
  _ ← ui_call;
  mret tt.

(** Two answers in a row inside the outer [try]: the second is skipped when
    the first raises. *)
Definition answer_then_notify : M unit :=
  r1 ← ui_call;
  match r1 with
  | SendOk =>
      r2 ← ui_call;
      match r2 with
      | SendOk => mret tt
      | _ => handler_failed
      end
  | _ => handler_failed
  end.

(** [edit_reply_markup] inside its own [try]. *)
Definition remove_button : M unit :=
  r ← ui_call;
  match r with
  | SendOk => mret tt
  | _ => log DEBUG
  end.

(** [message_text] and [message_caption] are [callback.message.text] and
    [callback.message.caption]. *)
Definition process_participate (user_id : Z)
    (message_text message_caption : option string) : M unit :=
  ok ← bot_check_subscription user_id;
  if ok : bool then
    mark_subscribed env user_id;;
    (if truthy_str message_text then remove_button
     else if truthy_str message_caption then remove_button
     else mret tt);;
    answer_then_notify
  else
    answer_then_notify.

Definition process_check_subscription (user_id : Z) : M unit :=
  ok ← bot_check_subscription user_id;
  if ok : bool then
    mark_subscribed env user_id;;
    answer_then_notify
  else
    r ← ui_call;
    match r with
    | SendOk => mret tt
    | _ => handler_failed
    end.

(** ** bot.py: the administrator's commands and the dialogue of [/send] *)

(** [ADMIN_IDS] of config.py. *)
Variable ADMIN_IDS : list Z.

Inductive SendMessageStates := waiting_for_message | confirm_send.

#[global] Instance SendMessageStates_eq_dec : EqDecision SendMessageStates.
Proof. solve_decision. Defined.

(** The [FSMContext] of one chat and user: the state and the stored
    [message_data].  [state.clear()] resets both. *)
Record FSM := {
  fsm_state : option SendMessageStates;
  fsm_data : option MessageData
}.

Definition fsm_clear : FSM := {| fsm_state := None; fsm_data := None |}.

Definition set_state (s : SendMessageStates) (f : FSM) : FSM :=
  {| fsm_state := Some s; fsm_data := fsm_data f |}.

Definition update_data (md : MessageData) (f : FSM) : FSM :=
  {| fsm_state := fsm_state f; fsm_data := Some md |}.

(** [cmd_stats]: the table is read for administrators only. *)
Definition cmd_stats (from_id : Z) : M unit :=
  match ADMIN_IDS with
  | [] => _ ← ui_call; mret tt
  | _ =>
      if negb (bool_decide (from_id ∈ ADMIN_IDS)) then _ ← ui_call; mret tt
      else
        user_ids ← get_all_registered_users env;
        _ ← ui_call;
        mret tt
  end.

(** [cmd_send]: the state is set after the prompt has been delivered. *)
Definition cmd_send (from_id : Z) (f : FSM) : M FSM :=
  match ADMIN_IDS with
  | [] => _ ← ui_call; mret f
  | _ =>
      if negb (bool_decide (from_id ∈ ADMIN_IDS)) then _ ← ui_call; mret f
      else
        r ← ui_call;
        match r with
        | SendOk => mret (set_state waiting_for_message f)
        | _ => mret f
        end
  end.

(** [cancel_send]: [state.clear()] comes first. *)
Definition cancel_send (f : FSM) : M FSM :=
  _ ← ui_call;
  mret fsm_clear.

(** [a or b] on strings: [o] unless it is [None] or empty. *)
Definition or_str (o : option string) (d : string) : string :=
  match o with
  | Some s => if String.eqb s EmptyString then d else s
  | None => d
  end.

(** [process_message_to_send]: [photo] lists the file ids of
    [message.photo].  The data are stored before the preview is sent, the
    state is set after it. *)
Definition process_message_to_send (message_text message_caption : option string)
    (photo : list string) (f : FSM) : M FSM :=
  let message_data :=
    {| md_text := or_str message_text (or_str message_caption EmptyString);
       md_photo := match photo with [] => None | _ => last photo end |} in
  let f1 := update_data message_data f in
  r ← ui_call;
  match r with
  | SendOk => mret (set_state confirm_send f1)
  | _ => mret f1
  end.

(** [safe_edit_message]: edit the text or the caption; failing that, delete
    the message and send a new one, twice at most.  Nothing raises. *)
Definition safe_edit_message (message_text message_caption : option string)
    : M unit :=
  edited ←
    (if truthy_str message_text || truthy_str message_caption then
       r ← ui_call;
       match r with
       | SendOk => mret true
       | _ => log WARNING;; mret false
       end
     else mret false);
  if edited : bool then mret tt
  else
    r ← ui_call;
    match r with SendOk => mret tt | _ => log DEBUG end;;
    r1 ← ui_call;
    match r1 with
    | SendOk => log INFO
    | _ =>
        log ERROR;;
        r2 ← ui_call;
        match r2 with
        | SendOk => mret tt
        | _ => log ERROR
        end
    end.

(** [cancel_send_callback] *)
Definition cancel_send_callback (message_text message_caption : option string)
    (f : FSM) : M FSM :=
  safe_edit_message message_text message_caption;;
  r ← ui_call;
  match r with
  | SendOk => _ ← ui_call; mret fsm_clear
  | _ => mret fsm_clear
  end.

(** [confirm_send_callback] with its state: the broadcast of the stored
    [message_data], then [state.clear()]. *)
Definition confirm_send_handler (f : FSM) : M FSM :=
  confirm_send_callback env (fsm_data f);;
  mret fsm_clear.

(** ** bot.py: the decorators of the handlers *)

Record Message := {
  msg_chat_id : Z;
  msg_from_id : Z;
  msg_from_username : option string;
  msg_from_first_name : option string;
  msg_command : option string;      (* what the [Command] filter parses *)
  msg_text : option string;
  msg_caption : option string;
  msg_photo : list string
}.

Record CallbackQuery := {
  cb_chat_id : Z;
  cb_from_id : Z;
  cb_data : option string;
  cb_message_text : option string;
  cb_message_caption : option string
}.

Inductive Update :=
  | UMessage (m : Message)
  | UCallback (c : CallbackQuery).

Definition update_from (up : Update) : Z :=
  match up with
  | UMessage m => msg_from_id m
  | UCallback c => cb_from_id c
  end.

(** The key of the [FSMContext] of an update: the chat and the user. *)
Definition update_key (up : Update) : Z * Z :=
  match up with
  | UMessage m => (msg_chat_id m, msg_from_id m)
  | UCallback c => (cb_chat_id c, cb_from_id c)
  end.

(** [MemoryStorage]: a missing entry is the cleared context. *)
Definition Store : Type := gmap (Z * Z) FSM.

Definition get_fsm (st : Store) (k : Z * Z) : FSM := default fsm_clear (st !! k).

Definition CANCEL_BUTTON : string := "❌ Отменить".

(** The handlers whose filters accept the update, in the order of their
    registration, each as the computation of the next store. *)
Definition handlers (up : Update) (st : Store) : list (M Store) :=
  let k := update_key up in
  let f := get_fsm st k in
  let put (m : M FSM) : M Store := f' ← m; mret (<[k := f']> st) in
  let keep (m : M unit) : M Store := m;; mret st in
  let when (b : bool) (h : M Store) : list (M Store) :=
    if b then [h] else [] in
  match up with
  | UMessage m =>
      when (bool_decide (msg_command m = Some "start"%string))
        (keep (cmd_start (msg_from_id m) (msg_from_username m)
                 (msg_from_first_name m))) ++
      when (bool_decide (msg_command m = Some "stats"%string))
        (keep (cmd_stats (msg_from_id m))) ++
      when (bool_decide (msg_command m = Some "send"%string))
        (put (cmd_send (msg_from_id m) f)) ++
      when (bool_decide (fsm_state f = Some waiting_for_message) &&
            bool_decide (msg_text m = Some CANCEL_BUTTON))
        (put (cancel_send f)) ++
      when (bool_decide (fsm_state f = Some waiting_for_message))
        (put (process_message_to_send (msg_text m) (msg_caption m)
                (msg_photo m) f))
  | UCallback c =>
      when (bool_decide (cb_data c = Some "participate"%string))
        (keep (process_participate (cb_from_id c) (cb_message_text c)
                 (cb_message_caption c))) ++
      when (bool_decide (cb_data c = Some "check_subscription"%string))
        (keep (process_check_subscription (cb_from_id c))) ++
      when (bool_decide (fsm_state f = Some confirm_send) &&
            bool_decide (cb_data c = Some "cancel_send"%string))
        (put (cancel_send_callback (cb_message_text c)
                (cb_message_caption c) f)) ++
      when (bool_decide (fsm_state f = Some confirm_send) &&
            bool_decide (cb_data c = Some "confirm_send"%string))
        (put (confirm_send_handler f))
  end.

(** The first accepting handler runs; an update no handler accepts is
    dropped. *)
Definition dispatch (up : Update) (st : Store) : M Store :=
  match handlers up st with
  | h :: _ => h
  | [] => mret st
  end.

(** Updates handled one after the other. *)
Fixpoint run (ups : list Update) (st : Store) : M Store :=
  match ups with
  | [] => mret st
  | up :: rest =>
      st' ← dispatch up st;
      run rest st'
  end.


End More.

(** * Vocabulary of the statements *)

Definition sum_Z (l : list Z) : Z := foldr Z.add 0 l.

(** The delays of linear backoff before attempts [2 .. max_retries], in
    milliseconds. *)
Definition backoff_delays (max_retries : Z) : list Z :=
  map (fun attempt => 1000 * ((attempt + 1) * 2)) (range (max_retries - 1)).

(** The transport answers the next sends with the rate-limit signals
    [waits], in this order. *)
Definition rate_limited_by (env : Env) (waits : list Z) (w : World) : Prop :=
  forall (i : nat) (wt : Z), waits !! i = Some wt ->
    send_oracle env (n_send w + i) = TelegramRetryAfter wt.

(** The membership lookups of a trace, as [(channel_id, user_id)]. *)
Definition lookup_of (e : Event) : option (PyVal * Z) :=
  match e with EvGetChatMember c u => Some (c, u) | _ => None end.

Definition lookups (t : list Event) : list (PyVal * Z) := omap lookup_of t.

Definition log_of (e : Event) : option Level :=
  match e with EvLog lvl => Some lvl | _ => None end.

Definition logs (t : list Event) : list Level := omap log_of t.

(** What one channel contributes to the verdict: subscribed exactly when the
    lookup returned and the status is member, administrator or creator. *)
Definition channel_verdict (r : LookupResult) : bool :=
  match r with
  | LookupOk MEMBER | LookupOk ADMINISTRATOR | LookupOk CREATOR => true
  | _ => false
  end.

(** The answers of the platform to lookups number [n], [n + 1], ... for the
    channels [ids] and the user [user_id]. *)
Fixpoint channel_answers (env : Env) (user_id : Z) (n : nat)
    (ids : list PyVal) : list LookupResult :=
  match ids with
  | [] => []
  | channel_id :: rest =>
      member_oracle env n channel_id user_id ::
      channel_answers env user_id (S n) rest
  end.

Definition required_channels (cfg : Config) : list PyVal :=
  [CHANNEL_MAIN_ID cfg; CHANNEL_OKSANA_ID cfg; CHANNEL_NATALIA_ID cfg;
   CHANNEL_MARIA_ID cfg].

(** A user is registered when the row exists and its flag is 1. *)
Definition registered (us : gmap Z UserRow) (user_id : Z) : Prop :=
  exists row, us !! user_id = Some row /\ subscribed row = 1.

(** The two tables of the database. *)
Definition tables (w : World) : gmap Z UserRow * list WinnerRow :=
  (users w, raffle_winners w).

(** The sends of the trace [t] are a broadcast to the registered users of
    [us]: nobody else is written to, and either nothing is sent at all or
    every registered user is written to. *)
Definition broadcast_to (us : gmap Z UserRow) (t : list Event) : Prop :=
  (forall user_id, user_id ∈ recipients t -> registered us user_id) /\
  (recipients t = [] \/
   forall user_id, registered us user_id -> user_id ∈ recipients t).

(** A computation that writes to no user. *)
Definition silent {A : Type} (m : M A) : Prop :=
  forall w, recipients (res_trace (m w)) = [].

(** A computation leaves the observation [f] of the world as it was. *)
Definition preserves {A B : Type} (f : World -> B) (m : M A) : Prop :=
  forall w, f (res_world (m w)) = f w.

(** The events of one call of [safe_send_message] for [chat_id] and [text]:
    attempts to send this text to this chat, log records, and sleeps other
    than the pacing delay. *)
Definition delivery_event (chat_id : Z) (text : string) (e : Event) : Prop :=
  e = EvSendMessage chat_id text \/
  (exists lvl, e = EvLog lvl) \/
  (exists ms, e = EvSleep ms /\ ms <> PACING).

(** One delivery: between one and [DEFAULT_MAX_RETRIES] attempts. *)
Definition delivery_segment (text : string) (chat_id : Z) (seg : list Event)
    : Prop :=
  Forall (delivery_event chat_id text) seg /\
  (1 <= attempts seg <= Z.to_nat DEFAULT_MAX_RETRIES)%nat.

(** Deliveries, each followed by the pacing delay. *)
Definition paced (segs : list (list Event)) : list Event :=
  concat (map (fun seg => seg ++ [EvSleep PACING]) segs).




Definition is_ok (r : SendResult) : bool :=
  match r with SendOk => true | _ => false end.

(** The eligible set of a raffle run started in [w]: the candidates read
    from the table that pass the live subscription re-check. *)
Definition eligible_of (env : Env) (cfg : Config) (w : World)
    : list Participant :=
  res_val
    ((get_eligible_raffle_participants env ≫= check_participants env cfg) w).


(** The winners table and the clock. *)
Definition winners_and_clock (w : World) : list WinnerRow * Z :=
  (raffle_winners w, clock w).

(** The raffle up to the drawing: the run of the three steps that
    [conduct_raffle] performs before it saves. *)
Definition raffle_draw (env : Env) (cfg : Config)
    : M (option (list WinnerData)) :=
  participants ← get_eligible_raffle_participants env;
  eligible_participants ← check_participants env cfg participants;
  draw_winners env eligible_participants.

(** The reminders of a broadcast entry. *)
Inductive ReminderKind := DayBefore | HourBefore | AfterBroadcast.

Definition reminder_date (k : ReminderKind) (b : Broadcast) : TimeTuple :=
  match k with
  | DayBefore => day_before_date b
  | HourBefore => hour_before_date b
  | AfterBroadcast => after_date b
  end.

Definition reminder_message (msgs : Messages) (k : ReminderKind)
    (b : Broadcast) : string :=
  match k with
  | DayBefore => get_day_before_message msgs b
  | HourBefore => get_hour_before_message msgs b
  | AfterBroadcast => get_after_broadcast_message msgs b
  end.

(** A fan-out of the scheduler: the reminder [k] of the entry at position [i]
    of [BROADCASTS], or the end-of-marathon message. *)
Inductive FanoutJob :=
| Reminder (i : nat) (b : Broadcast) (k : ReminderKind)
| MarathonEnd.

Definition job_message (cfg : Config) (msgs : Messages) (job : FanoutJob)
    : string :=
  match job with
  | Reminder _ b k => reminder_message msgs k b
  | MarathonEnd => MESSAGE_MARATHON_END msgs
  end.

(** The reminders of the entries [bs] (numbered from [i]) whose date is
    [current_time], in calendar order. *)
Fixpoint due_reminders (current_time : TimeTuple) (i : nat)
    (bs : list Broadcast) : list FanoutJob :=
  match bs with
  | [] => []
  | b :: rest =>
      map (Reminder i b)
        (List.filter (fun k => bool_decide (current_time = reminder_date k b))
           [DayBefore; HourBefore; AfterBroadcast])
      ++ due_reminders current_time (S i) rest
  end.

Definition due_jobs (cfg : Config) (current_time : TimeTuple)
    : list FanoutJob :=
  due_reminders current_time 0 (BROADCASTS cfg) ++
  (if bool_decide (current_time = MARATHON_END_DATE cfg) then [MarathonEnd]
   else []).

(** One fan-out: the log record and the loop over the recipients. *)
Definition fan_out_job (env : Env) (cfg : Config) (msgs : Messages)
    (user_ids : list Z) (job : FanoutJob) : M unit :=
  log INFO;;
  send_to_all env user_ids (job_message cfg msgs job).

(** One fan-out per job, in order, to the users registered when the tick
    starts; nothing at all when there are none. *)
Definition fan_out_jobs (env : Env) (cfg : Config) (msgs : Messages)
    (jobs : list FanoutJob) : M unit :=
  user_ids ← get_all_registered_users env;
  match user_ids with
  | [] => log DEBUG
  | _ =>
      log INFO;;
      for_each jobs (fan_out_job env cfg msgs user_ids)
  end.

(** A job is the hour-before reminder of some entry. *)
Definition is_hour_before (job : FanoutJob) : Prop :=
  exists i b, job = Reminder i b HourBefore.

Definition current_time_of (now : datetime) : TimeTuple :=
  (year now, month now, day now, hour now, minute now).

(** ** Concrete environments and worlds for the examples *)

(** The answer of the transport to the first sends of a run. *)
Definition scripted (script : list SendResult) (otherwise : SendResult)
    (n : nat) : SendResult :=
  default otherwise (script !! n).

Definition quiet_env (sends : nat -> SendResult) : Env :=
  {| send_oracle := sends;
     member_oracle := fun _ _ _ => LookupRaises;
     db_oracle := fun _ => false;
     rand_oracle := fun _ => 0%nat |}.

Definition empty_world : World :=
  {| users := ∅; raffle_winners := []; clock := 0; n_send := 0;
     n_lookup := 0; n_db := 0; n_rand := 0 |}.

Definition four_channels : Config :=
  {| BROADCASTS := []; MARATHON_END_DATE := (2025, 1, 1, 0, 0);
     CHANNEL_MAIN_ID := PyInt (-1001); CHANNEL_OKSANA_ID := PyInt (-1002);
     CHANNEL_NATALIA_ID := PyInt (-1003); CHANNEL_MARIA_ID := PyInt (-1004) |}.

(** Three channels report [member], the lookup of the third channel raises. *)
Definition third_lookup_raises : Env :=
  {| send_oracle := fun _ => SendOk;
     member_oracle := fun n _ _ =>
       if (n =? 2)%nat then LookupRaises else LookupOk MEMBER;
     db_oracle := fun _ => false;
     rand_oracle := fun _ => 0%nat |}.

Definition maria_unset : Config :=
  {| BROADCASTS := []; MARATHON_END_DATE := (2025, 1, 1, 0, 0);
     CHANNEL_MAIN_ID := PyInt (-1001); CHANNEL_OKSANA_ID := PyInt (-1002);
     CHANNEL_NATALIA_ID := PyInt (-1003); CHANNEL_MARIA_ID := PyNone |}.

Definition world_of (us : gmap Z UserRow) : World :=
  {| users := us; raffle_winners := []; clock := 1000; n_send := 0;
     n_lookup := 0; n_db := 0; n_rand := 0 |}.

Definition alice : UserRow :=
  {| username := Some "alice"%string; first_name := Some "Alice"%string;
     registered_at := 10; subscribed := 1 |}.

Definition bob : UserRow :=
  {| username := Some "bob"%string; first_name := None;
     registered_at := 20; subscribed := 0 |}.

Definition two_users : gmap Z UserRow := <[1 := alice]> (<[2 := bob]> ∅).



Definition news : MessageData := {| md_text := "news"; md_photo := None |}.

(** Development mode: a channel id is unset, every check passes. *)
Definition bypass_env : Env :=
  {| send_oracle := fun _ => SendOk;
     member_oracle := fun _ _ _ => LookupRaises;
     db_oracle := fun _ => false;
     rand_oracle := fun n => (n + 1)%nat |}.

Definition plain_messages : Messages :=
  {| get_day_before_message := fun b => ("tomorrow: " +:+ b_day b)%string;
     get_hour_before_message := fun b => ("in an hour: " +:+ b_day b)%string;
     get_after_broadcast_message := fun b => ("thanks: " +:+ b_day b)%string;
     MESSAGE_MARATHON_END := "the end"%string;
     get_raffle_message := fun _ => "winners"%string |}.

Definition monday : Broadcast :=
  {| b_day := "mon"; day_before_date := (2025, 3, 2, 19, 0);
     hour_before_date := (2025, 3, 3, 18, 0);
     five_min_before_date := (2025, 3, 3, 18, 55);
     after_date := (2025, 3, 3, 21, 0); b_details := [] |}.

(** Its day-before reminder falls on Monday's hour-before minute. *)
Definition tuesday : Broadcast :=
  {| b_day := "tue"; day_before_date := (2025, 3, 3, 18, 0);
     hour_before_date := (2025, 3, 4, 18, 0);
     five_min_before_date := (2025, 3, 4, 18, 55);
     after_date := (2025, 3, 4, 21, 0); b_details := [] |}.

Definition two_broadcasts : Config :=
  {| BROADCASTS := [monday; tuesday]; MARATHON_END_DATE := (2025, 3, 9, 12, 0);
     CHANNEL_MAIN_ID := PyInt (-1001); CHANNEL_OKSANA_ID := PyInt (-1002);
     CHANNEL_NATALIA_ID := PyInt (-1003); CHANNEL_MARIA_ID := PyInt (-1004) |}.

Definition monday_six_pm : datetime :=
  {| year := 2025; month := 3; day := 3; hour := 18; minute := 0;
     second := 31; microsecond := 250 |}.

(** ** Vocabulary of the further properties *)

(** A failure after which [safe_send_message] goes on to another attempt. *)
Definition retryable (r : SendResult) : bool :=
  match r with
  | TelegramRetryAfter _ | TelegramNetworkError => true
  | _ => false
  end.

(** The sleep that follows the failure [r] of the attempt with index
    [attempt], in milliseconds. *)
Definition retry_delay (attempt : Z) (r : SendResult) : list Z :=
  match r with
  | TelegramRetryAfter retry_after => [1000 * retry_after]
  | TelegramNetworkError => [1000 * ((attempt + 1) * 2)]
  | _ => []
  end.

Fixpoint retry_delays (attempt : Z) (answers : list SendResult) : list Z :=
  match answers with
  | [] => []
  | a :: rest => retry_delay attempt a ++ retry_delays (attempt + 1) rest
  end.

(** The transport answers the next sends with [answers], in this order. *)
Definition answered_by (env : Env) (answers : list SendResult) (w : World)
    : Prop :=
  forall (i : nat) (a : SendResult), answers !! i = Some a ->
    send_oracle env (n_send w + i) = a.

(** Everything of the world that a delivery has no business with. *)
Definition beyond_transport (w : World)
    : gmap Z UserRow * list WinnerRow * nat * nat * nat :=
  (users w, raffle_winners w, n_lookup w, n_db w, n_rand w).



(** The row [row] with its flag set to [v]. *)
Definition with_subscribed (v : Z) (row : UserRow) : UserRow :=
  {| username := username row; first_name := first_name row;
     registered_at := registered_at row; subscribed := v |}.

(** The flag written for a verdict. *)
Definition flag_of (is_subscribed : bool) : Z :=
  if is_subscribed then 1 else 0.

(** The users table [us] has the rows of [us0], with the same names and
    registration times; a flag either is as in [us0] or went from 1 to 0. *)
Definition flags_only_lowered (us0 us : gmap Z UserRow) : Prop :=
  forall x,
    match us0 !! x, us !! x with
    | Some r0, Some r =>
        username r = username r0 /\ first_name r = first_name r0 /\
        registered_at r = registered_at r0 /\
        (subscribed r = subscribed r0 \/
         (subscribed r0 = 1 /\ subscribed r = 0))
    | None, None => True
    | _, _ => False
    end.

(** The timestamp on which a job is due. *)
Definition job_date (cfg : Config) (job : FanoutJob) : TimeTuple :=
  match job with
  | Reminder _ b k => reminder_date k b
  | MarathonEnd => MARATHON_END_DATE cfg
  end.

(** The number of calls in the chat of the update. *)
Definition is_reply (e : Event) : bool :=
  match e with EvReply => true | _ => false end.

Definition replies (t : list Event) : nat := length (List.filter is_reply t).

(** No chat of a user outside [ADMIN_IDS] is inside the dialogue of
    [/send]. *)
Definition only_admins (ADMIN_IDS : list Z) (st : Store) : Prop :=
  forall chat user, user ∉ ADMIN_IDS ->
    fsm_state (get_fsm st (chat, user)) = None.

(** A chat waiting for the confirmation has a message stored. *)
Definition confirm_has_data (st : Store) : Prop :=
  forall k, fsm_state (get_fsm st k) = Some confirm_send ->
    is_Some (fsm_data (get_fsm st k)).

(** The send events of a trace. *)
Definition sends (t : list Event) : list Event := List.filter is_send t.

(** Examples: one administrator (user 7); user 3 tries the whole dialogue. *)
Definition text_message (chat : Z) (command text : option string) : Message :=
  {| msg_chat_id := chat; msg_from_id := chat; msg_from_username := None;
     msg_from_first_name := None; msg_command := command; msg_text := text;
     msg_caption := None; msg_photo := [] |}.

Definition button_press (chat : Z) (data : string) : CallbackQuery :=
  {| cb_chat_id := chat; cb_from_id := chat; cb_data := Some data;
     cb_message_text := Some "preview"%string; cb_message_caption := None |}.

Definition send_dialogue (chat : Z) : list Update :=
  [UMessage (text_message chat (Some "send"%string) (Some "/send"%string));
   UMessage (text_message chat None (Some "news"%string));
   UCallback (button_press chat "confirm_send")].


(** The update cancels the dialogue: the button of the reply keyboard while
    the bot waits for the message, or the inline button of the preview. *)
Definition cancels (up : Update) (st : Store) : Prop :=
  match up with
  | UMessage m =>
      msg_command m = None /\ msg_text m = Some CANCEL_BUTTON /\
      fsm_state (get_fsm st (update_key up)) = Some waiting_for_message
  | UCallback q =>
      cb_data q = Some "cancel_send"%string /\
      fsm_state (get_fsm st (update_key up)) = Some confirm_send
  end.

(** A store in which the administrator 7 has been shown a preview. *)
Definition preview_shown : Store :=
  {[ (7, 7) := {| fsm_state := Some confirm_send; fsm_data := Some news |} ]}.


(** * Properties *)

(** ** Trace bookkeeping *)

Lemma attempts_app (t1 t2 : list Event) :
  attempts (t1 ++ t2) = (attempts t1 + attempts t2)%nat.
Proof. unfold attempts. by rewrite List.filter_app, length_app. Qed.

Lemma sleeps_app (t1 t2 : list Event) :
  sleeps (t1 ++ t2) = sleeps t1 ++ sleeps t2.
Proof. apply omap_app. Qed.

Lemma recipients_app (t1 t2 : list Event) :
  recipients (t1 ++ t2) = recipients t1 ++ recipients t2.
Proof. apply omap_app. Qed.

Lemma bind_run {A B : Type} (m : M A) (k : A -> M B) (w : World) :
  (m ≫= k) w =
  mkRes (res_val (k (res_val (m w)) (res_world (m w))))
        (res_world (k (res_val (m w)) (res_world (m w))))
        (res_trace (m w) ++ res_trace (k (res_val (m w)) (res_world (m w)))).
Proof. reflexivity. Qed.

Lemma ret_run {A : Type} (a : A) (w : World) :
  (mret a : M A) w = mkRes a w [].
Proof. reflexivity. Qed.

Lemma fmap_run {A B : Type} (f : A -> B) (m : M A) (w : World) :
  ((f <$> m) : M B) w = mkRes (f (res_val (m w))) (res_world (m w))
                  (res_trace (m w) ++ []).
Proof. reflexivity. Qed.

(** Run one bind. *)
Ltac mstep1 :=
  rewrite bind_run;
  cbn [res_trace res_val res_world log emit sleep reply report].

(** Run the straight-line prefix of a computation. *)
Ltac mstep :=
  repeat first [rewrite bind_run | rewrite ret_run | rewrite fmap_run];
  cbn [res_trace res_val res_world log emit sleep reply report].

(** ** The delivery primitive *)

Section Delivery.

Variable env : Env.
Variable chat_id : Z.
Variable text : string.
Variable max_retries : Z.

(** One more unit of the budget is spent by every pass through the loop,
    whatever the transport answers. *)
Lemma safe_send_loop_attempts (todo : list Z) (w : World) :
  (attempts (res_trace (safe_send_loop env max_retries chat_id text todo w)) <= length todo)%nat.
Proof.
  revert w. induction todo as [|attempt rest IH]; intros w.
  - cbn. lia.
  - cbn [safe_send_loop]. mstep. cbn [bot_send_message res_trace res_val].
    rewrite attempts_app. change (attempts [EvSendMessage chat_id text]) with 1%nat.
    cbn [length].
    destruct (send_oracle env (n_send w)) as [|ra| | |]; mstep;
      rewrite ?attempts_app.
    + cbn. lia.
    + match goal with |- context [safe_send_loop _ _ _ _ rest ?w'] =>
        specialize (IH w') end.
      cbn in *. lia.
    + destruct (attempt <? max_retries - 1); mstep; rewrite ?attempts_app.
      * match goal with |- context [safe_send_loop _ _ _ _ rest ?w'] =>
          specialize (IH w') end.
        cbn in *. lia.
      * cbn. lia.
    + cbn. lia.
    + cbn. lia.
Qed.

(** The loop under a transport that keeps failing with a network error:
    [n] passes remain, the first with index [a]. *)
Lemma safe_send_loop_network (n a : nat) (w : World) :
  Z.of_nat (a + n) = max_retries ->
  (forall k : nat, (k < n)%nat ->
     send_oracle env (n_send w + k) = TelegramNetworkError) ->
  res_val (safe_send_loop env max_retries chat_id text (map Z.of_nat (seq a n)) w) = false /\
  attempts (res_trace (safe_send_loop env max_retries chat_id text (map Z.of_nat (seq a n)) w)) = n /\
  sleeps (res_trace (safe_send_loop env max_retries chat_id text (map Z.of_nat (seq a n)) w)) =
    map (fun attempt => 1000 * ((attempt + 1) * 2))
      (map Z.of_nat (seq a (n - 1))).
Proof.
  revert a w. induction n as [|n IH]; intros a w Hmax Hnet.
  - cbn. done.
  - cbn [seq map safe_send_loop]. mstep.
    cbn [bot_send_message res_trace res_val res_world].
    rewrite attempts_app, sleeps_app.
    change (attempts [EvSendMessage chat_id text]) with 1%nat.
    change (sleeps [EvSendMessage chat_id text]) with (@nil Z).
    pose proof (Hnet 0%nat ltac:(lia)) as H0.
    rewrite Nat.add_0_r in H0. rewrite H0. clear H0.
    destruct (Z.ltb_spec (Z.of_nat a) (max_retries - 1)) as [Hlt|Hge].
    + mstep. rewrite !attempts_app, !sleeps_app.
      match goal with |- context [safe_send_loop _ _ _ _ _ ?w'] =>
        destruct (IH (S a) w') as (Hv & Ha & Hs) end.
      { lia. }
      { intros k Hk. cbn [n_send]. rewrite <- (Hnet (S k)) by lia.
        f_equal. lia. }
      rewrite Hv, Ha, Hs. split; [done|]. split; [done|].
      destruct n as [|n]; [lia|].
      cbn [sleeps omap sleep_of app]. cbn [Nat.sub seq map].
      rewrite Nat.sub_0_r. done.
    + assert (n = 0)%nat as -> by lia. mstep. cbn. done.
Qed.

Lemma rate_limited_by_tail (wt : Z) (waits : list Z) (w w' : World) :
  rate_limited_by env (wt :: waits) w -> n_send w' = S (n_send w) ->
  rate_limited_by env waits w'.
Proof.
  intros H Hn i x Hi. rewrite Hn. rewrite <- (H (S i) x Hi). f_equal. lia.
Qed.

(** Rate-limited answers followed by an accepted send, within the budget. *)
Lemma safe_send_loop_rate_limited_ok (waits : list Z) (todo : list Z)
    (w : World) :
  rate_limited_by env waits w ->
  (length waits < length todo)%nat ->
  send_oracle env (n_send w + length waits) = SendOk ->
  res_val (safe_send_loop env max_retries chat_id text todo w) = true /\
  attempts (res_trace (safe_send_loop env max_retries chat_id text todo w)) = S (length waits) /\
  sleeps (res_trace (safe_send_loop env max_retries chat_id text todo w)) = map (Z.mul 1000) waits.
Proof.
  revert todo w.
  induction waits as [|wt waits IH]; intros todo w Hrl Hlen Hok;
    (destruct todo as [|attempt rest]; [cbn in Hlen; lia|]);
    cbn [safe_send_loop]; mstep;
    cbn [bot_send_message res_trace res_val res_world];
    rewrite attempts_app, sleeps_app.
  - cbn [length] in Hok. rewrite Nat.add_0_r in Hok. rewrite Hok. done.
  - rewrite <- (Nat.add_0_r (n_send w)), (Hrl 0%nat wt eq_refl).
    mstep. rewrite !attempts_app, !sleeps_app.
    match goal with |- context [safe_send_loop _ _ _ _ _ ?w'] =>
      destruct (IH rest w') as (Hv & Ha & Hs) end.
    + eapply rate_limited_by_tail; [exact Hrl|]. cbn. lia.
    + cbn in Hlen |- *. lia.
    + cbn [n_send length] in Hok |- *. rewrite <- Hok. f_equal. lia.
    + rewrite Hv, Ha, Hs. done.
Qed.

(** Rate-limited answers on every pass of the loop. *)
Lemma safe_send_loop_rate_limited_out (waits : list Z) (todo : list Z)
    (w : World) :
  rate_limited_by env waits w ->
  (length todo <= length waits)%nat ->
  res_val (safe_send_loop env max_retries chat_id text todo w) = false /\
  attempts (res_trace (safe_send_loop env max_retries chat_id text todo w)) = length todo /\
  sleeps (res_trace (safe_send_loop env max_retries chat_id text todo w)) =
    map (Z.mul 1000) (take (length todo) waits).
Proof.
  revert waits w.
  induction todo as [|attempt rest IH]; intros waits w Hrl Hlen.
  - cbn. by rewrite take_0.
  - destruct waits as [|wt waits]; [cbn in Hlen; lia|].
    cbn [safe_send_loop]; mstep.
    cbn [bot_send_message res_trace res_val res_world].
    rewrite attempts_app, sleeps_app.
    rewrite <- (Nat.add_0_r (n_send w)), (Hrl 0%nat wt eq_refl).
    mstep. rewrite !attempts_app, !sleeps_app.
    match goal with |- context [safe_send_loop _ _ _ _ _ ?w'] =>
      destruct (IH waits w') as (Hv & Ha & Hs) end.
    + eapply rate_limited_by_tail; [exact Hrl|]. cbn. lia.
    + cbn in Hlen. lia.
    + rewrite Hv, Ha, Hs. done.
Qed.

End Delivery.

Lemma sum_backoff_delays (n : nat) :
  sum_Z (map (fun attempt => 1000 * ((attempt + 1) * 2))
           (map Z.of_nat (seq 0 n))) =
  1000 * sum_Z (map (fun i => 2 * i) (map Z.succ (map Z.of_nat (seq 0 n)))).
Proof.
  generalize 0%nat. induction n as [|n IH]; intros a; [done|].
  cbn [seq map sum_Z foldr]. fold (sum_Z (map (fun attempt => 1000 * ((attempt + 1) * 2))
           (map Z.of_nat (seq (S a) n)))).
  rewrite IH. unfold sum_Z. lia.
Qed.

(** C5. When every attempt of a call to [safe_send_message] fails with a
    network error, the call makes exactly [max_retries] attempts, sleeps
    [2, 4, ...] seconds ([attempt_index * 2]) between consecutive attempts, so
    that the total delay is the sum of [2 * i] for [i] from 1 to
    [max_retries - 1], and returns failure. *)
Theorem C5_network_errors_exhaust_the_budget
    (env : Env) (chat_id : Z) (text : string) (max_retries : Z) (w : World) :
  0 <= max_retries ->
  (forall k : nat, (k < Z.to_nat max_retries)%nat ->
     send_oracle env (n_send w + k) = TelegramNetworkError) ->
  let r := safe_send_message env chat_id text max_retries w in
  res_val r = false /\
  Z.of_nat (attempts (res_trace r)) = max_retries /\
  sleeps (res_trace r) = backoff_delays max_retries /\
  sum_Z (sleeps (res_trace r)) =
    1000 * sum_Z (map (fun i => 2 * i) (map Z.succ (range (max_retries - 1)))).
Proof.
  intros Hpos Hnet r. subst r. unfold safe_send_message, range.
  destruct (safe_send_loop_network env chat_id text max_retries
              (Z.to_nat max_retries) 0 w) as (Hv & Ha & Hs).
  { cbn. lia. }
  { exact Hnet. }
  rewrite Hv, Ha, Hs. unfold backoff_delays, range.
  replace (Z.to_nat (max_retries - 1)) with (Z.to_nat max_retries - 1)%nat
    by lia.
  repeat split; [lia|]. apply sum_backoff_delays.
Qed.

(** With the default budget of 3: three attempts, sleeps of 2 s and 4 s. *)
Lemma C5_witness :
  let env := quiet_env (fun _ => TelegramNetworkError) in
  let w := empty_world in
  let r := safe_send_message env 7 "hi" DEFAULT_MAX_RETRIES w in
  res_val r = false /\
  Z.of_nat (attempts (res_trace r)) = 3 /\
  sleeps (res_trace r) = [2000; 4000] /\
  sum_Z (sleeps (res_trace r)) = 1000 * (2 * 1 + 2 * 2).
Proof.
  intros env w.
  pose proof (C5_network_errors_exhaust_the_budget env 7 "hi"
                DEFAULT_MAX_RETRIES w) as H.
  destruct H as (Hv & Ha & Hs & Hsum).
  - unfold DEFAULT_MAX_RETRIES. lia.
  - intros k _. reflexivity.
  - exact (conj Hv (conj Ha (conj Hs Hsum))).
Defined.

(** C1, as stated, fails: three rate-limited answers use up the default
    budget of three attempts, and the call returns failure although the
    fourth send would have been accepted. *)
Lemma C1_counterexample :
  let env := quiet_env (scripted [TelegramRetryAfter 5; TelegramRetryAfter 5;
                                  TelegramRetryAfter 5] SendOk) in
  let r := safe_send_message env 7 "hi" DEFAULT_MAX_RETRIES empty_world in
  send_oracle env 3 = SendOk /\
  res_val r = false /\
  attempts (res_trace r) = 3%nat /\
  sleeps (res_trace r) = [5000; 5000; 5000].
Proof. intros env r. vm_compute. done. Qed.

(** C1, amended. A rate-limited answer makes [safe_send_message] sleep exactly
    the mandated duration and go on to the next pass of its loop, which is
    counted like any other: no call makes more than [max_retries] attempts;
    rate-limited answers followed by an accepted send give success as long
    as the accepted send is within the budget; and [max_retries] rate-limited
    answers in a row give failure. *)
Theorem C1_rate_limited_retries_are_counted
    (env : Env) (chat_id : Z) (text : string) (max_retries : Z) (w : World)
    (waits : list Z) :
  rate_limited_by env waits w ->
  let r := safe_send_message env chat_id text max_retries w in
  Z.of_nat (attempts (res_trace r)) <= Z.max 0 max_retries /\
  (Z.of_nat (length waits) < max_retries ->
   send_oracle env (n_send w + length waits) = SendOk ->
   res_val r = true /\
   attempts (res_trace r) = S (length waits) /\
   sleeps (res_trace r) = map (Z.mul 1000) waits) /\
  (0 <= max_retries <= Z.of_nat (length waits) ->
   res_val r = false /\
   Z.of_nat (attempts (res_trace r)) = max_retries /\
   sleeps (res_trace r) =
     map (Z.mul 1000) (take (Z.to_nat max_retries) waits)).
Proof.
  intros Hrl r. subst r. unfold safe_send_message.
  assert (length (range max_retries) = Z.to_nat max_retries) as Hlen.
  { unfold range. by rewrite length_map, length_seq. }
  split; [|split].
  - pose proof (safe_send_loop_attempts env chat_id text max_retries
                  (range max_retries) w) as H.
    rewrite Hlen in H. lia.
  - intros Hlt Hok.
    apply (safe_send_loop_rate_limited_ok env chat_id text max_retries waits);
      [done| rewrite Hlen; lia | done].
  - intros Hge.
    destruct (safe_send_loop_rate_limited_out env chat_id text max_retries
                waits (range max_retries) w) as (Hv & Ha & Hs);
      [done | rewrite Hlen; lia |].
    rewrite Hv, Ha, Hs, Hlen. split; [done|]. split; [lia|done].
Qed.

Lemma C1_witness :
  let env := quiet_env (scripted [TelegramRetryAfter 5; TelegramRetryAfter 9]
                          SendOk) in
  let r := safe_send_message env 7 "hi" DEFAULT_MAX_RETRIES empty_world in
  rate_limited_by env [5; 9] empty_world /\
  res_val r = true /\
  attempts (res_trace r) = 3%nat /\
  sleeps (res_trace r) = [5000; 9000].
Proof.
  intros env r.
  assert (rate_limited_by env [5; 9] empty_world) as Hrl.
  { intros i wt Hi. destruct i as [|[|i]]; cbn in Hi; inversion Hi; done. }
  split; [exact Hrl|].
  pose proof (C1_rate_limited_retries_are_counted env 7 "hi"
                DEFAULT_MAX_RETRIES empty_world [5; 9] Hrl) as (_ & Hok & _).
  apply Hok; [unfold DEFAULT_MAX_RETRIES; cbn; lia | reflexivity].
Defined.

(** ** The subscription checker *)

Lemma lookups_app (t1 t2 : list Event) :
  lookups (t1 ++ t2) = lookups t1 ++ lookups t2.
Proof. apply omap_app. Qed.

Lemma logs_app (t1 t2 : list Event) : logs (t1 ++ t2) = logs t1 ++ logs t2.
Proof. apply omap_app. Qed.

Lemma status_is_subscribed_verdict (st : ChatMemberStatus) :
  status_is_subscribed st = channel_verdict (LookupOk st).
Proof. by destruct st. Qed.

(** The loop over the channels asks about every channel, in order, and a
    lookup that raises contributes [False] without ending the loop. *)
Lemma check_channels_spec (env : Env) (user_id : Z)
    (items : list (string * PyVal)) (w : World) :
  let r := check_channels env user_id items w in
  res_val r =
    map channel_verdict (channel_answers env user_id (n_lookup w) items.*2) /\
  lookups (res_trace r) = map (fun it => (it.2, user_id)) items /\
  attempts (res_trace r) = 0%nat.
Proof.
  cbn zeta. revert w. induction items as [|[name cid] rest IH]; intros w.
  - done.
  - cbn [check_channels]. mstep.
    cbn [bot_get_chat_member res_trace res_val res_world].
    cbn [fmap list_fmap channel_answers map snd].
    destruct (member_oracle env (n_lookup w) cid user_id) as [st|]; mstep;
      rewrite !lookups_app, !attempts_app;
      match goal with |- context [check_channels _ _ rest ?w'] =>
        destruct (IH w') as (Hv & Hl & Ha) end;
      rewrite Hv, Hl, Ha; cbn [n_lookup];
      rewrite ?status_is_subscribed_verdict;
      cbn; rewrite ?app_nil_r; done.
Qed.

(** C6. With all four channel ids configured, [check_subscription] returns
    the conjunction over the four channels of "the lookup returned a status
    among member, administrator, creator"; a lookup that raises counts as not
    subscribed and the remaining channels are still looked up; so one raising
    lookup makes the result false whatever the others report. *)
Theorem C6_subscription_is_conjunction_fail_closed
    (env : Env) (cfg : Config) (user_id : Z) (w : World) :
  forallb truthy (required_channels cfg) = true ->
  let r := check_subscription env cfg user_id w in
  let answers :=
    channel_answers env user_id (n_lookup w) (required_channels cfg) in
  res_val r = forallb channel_verdict answers /\
  lookups (res_trace r) =
    map (fun channel_id => (channel_id, user_id)) (required_channels cfg) /\
  (LookupRaises ∈ answers -> res_val r = false).
Proof.
  intros Hcfg r answers. subst r answers. unfold check_subscription.
  change ((channel_ids cfg).*2) with (required_channels cfg).
  rewrite Hcfg. cbn [negb]. mstep.
  destruct (check_channels_spec env user_id (channel_ids cfg) w)
    as (Hv & Hl & _).
  rewrite app_nil_r, Hv, Hl.
  change ((channel_ids cfg).*2) with (required_channels cfg).
  assert (forall l, forallb id (map channel_verdict l)
                    = forallb channel_verdict l) as Hall.
  { induction l as [|x l IHl]; [done|]. cbn. by rewrite IHl. }
  rewrite Hall. split; [done|]. split; [done|].
  intros Hin. apply not_true_is_false. intros Htrue.
  rewrite forallb_forall in Htrue.
  apply list_elem_of_In in Hin. specialize (Htrue _ Hin). done.
Qed.

Lemma C6_witness :
  let r := check_subscription third_lookup_raises four_channels 42
             empty_world in
  res_val r = false /\
  lookups (res_trace r) =
    [(PyInt (-1001), 42); (PyInt (-1002), 42); (PyInt (-1003), 42);
     (PyInt (-1004), 42)].
Proof.
  intros r.
  destruct (C6_subscription_is_conjunction_fail_closed third_lookup_raises
              four_channels 42 empty_world eq_refl) as (_ & Hl & Hfalse).
  split; [|exact Hl].
  apply Hfalse. cbn. set_solver.
Defined.

(** C7. If one of the four channel ids is unset or empty, [check_subscription]
    returns true, performs no membership lookup and logs one warning. *)
Theorem C7_unset_channel_bypasses_the_check
    (env : Env) (cfg : Config) (user_id : Z) (w : World) :
  (exists channel_id, channel_id ∈ required_channels cfg /\
                      truthy channel_id = false) ->
  let r := check_subscription env cfg user_id w in
  res_val r = true /\
  lookups (res_trace r) = [] /\
  logs (res_trace r) = [WARNING] /\
  res_world r = w.
Proof.
  intros (cid & Hin & Hfalsy) r. subst r. unfold check_subscription.
  change ((channel_ids cfg).*2) with (required_channels cfg).
  assert (forallb truthy (required_channels cfg) = false) as ->.
  { apply not_true_is_false. intros Hall. rewrite forallb_forall in Hall.
    apply list_elem_of_In in Hin. specialize (Hall _ Hin). congruence. }
  cbn [negb]. mstep. done.
Qed.

Lemma C7_witness :
  let r := check_subscription third_lookup_raises maria_unset 42
             empty_world in
  res_val r = true /\ lookups (res_trace r) = [] /\
  logs (res_trace r) = [WARNING] /\ res_world r = empty_world.
Proof.
  intros r.
  apply (C7_unset_channel_bypasses_the_check third_lookup_raises maria_unset
           42 empty_world).
  exists PyNone. split; [cbn; set_solver | reflexivity].
Defined.

(** ** The user table *)

Lemma elem_of_select_registered (us : gmap Z UserRow) (user_id : Z) :
  user_id ∈ select_registered us <-> registered us user_id.
Proof.
  unfold select_registered, registered. rewrite list_elem_of_fmap. split.
  - intros ([k row] & -> & Hin). apply list_elem_of_filter in Hin as [Hsub Hin].
    apply elem_of_map_to_list in Hin. by exists row.
  - intros (row & Hrow & Hsub). exists (user_id, row). split; [done|].
    apply list_elem_of_filter. split; [done|]. by apply elem_of_map_to_list.
Qed.

Lemma NoDup_select_registered (us : gmap Z UserRow) :
  NoDup (select_registered us).
Proof.
  unfold select_registered. apply NoDup_fmap_fst.
  - intros k r1 r2 H1%list_elem_of_filter H2%list_elem_of_filter.
    destruct H1 as [_ H1], H2 as [_ H2].
    apply elem_of_map_to_list in H1, H2. congruence.
  - apply NoDup_filter, NoDup_map_to_list.
Qed.

(** C10. [add_user] on an id that is already in the table rewrites only
    [username] and [first_name] of that row: [subscribed] and [registered_at]
    keep their values, every other row and the winners table are untouched,
    so a registered user stays registered. *)
Theorem C10_add_user_keeps_subscription
    (env : Env) (user_id : Z) (uname fname : option string) (w : World)
    (row : UserRow) :
  users w !! user_id = Some row ->
  let w' := res_world (add_user env user_id uname fname w) in
  (exists row',
     users w' !! user_id = Some row' /\
     subscribed row' = subscribed row /\
     registered_at row' = registered_at row /\
     (db_oracle env (n_db w) = false ->
      username row' = uname /\ first_name row' = fname)) /\
  (forall other, other <> user_id -> users w' !! other = users w !! other) /\
  raffle_winners w' = raffle_winners w /\
  (registered (users w) user_id -> registered (users w') user_id).
Proof.
  intros Hrow w'. subst w'. unfold add_user. mstep.
  cbn [db_raises res_val res_world res_trace].
  destruct (db_oracle env (n_db w)) eqn:Hdb; mstep;
    cbn [get_world res_val res_world res_trace users].
  - split; [exists row; done|]. split; [done|]. split; [done|]. done.
  - rewrite Hrow. cbn [set_users res_world users raffle_winners].
    split; [|split; [|split]].
    + eexists. rewrite lookup_insert_eq. split; [done|]. done.
    + intros other Hne. by rewrite lookup_insert_ne.
    + done.
    + intros (row0 & Hrow0 & Hsub). rewrite Hrow in Hrow0.
      injection Hrow0 as <-. eexists. rewrite lookup_insert_eq.
      split; [done|]. done.
Qed.

Lemma C10_witness :
  let w' := res_world (add_user (quiet_env (fun _ => SendOk)) 1
                         (Some "alice2"%string) None (world_of two_users)) in
  users w' !! 1 =
    Some {| username := Some "alice2"%string; first_name := None;
            registered_at := 10; subscribed := 1 |} /\
  users w' !! 2 = Some bob /\
  registered (users w') 1.
Proof.
  intros w'.
  destruct (C10_add_user_keeps_subscription (quiet_env (fun _ => SendOk)) 1
              (Some "alice2"%string) None (world_of two_users) alice eq_refl)
    as ((row' & Hrow' & Hsub & Hreg & Hnames) & Hother & _ & Hstay).
  destruct (Hnames eq_refl) as [Hu Hf].
  split; [|split].
  - subst w'. rewrite Hrow'. f_equal. destruct row'; cbn in *. congruence.
  - subst w'. rewrite Hother by done. reflexivity.
  - apply Hstay. exists alice. split; reflexivity.
Defined.

(** ** Fan-out *)

Lemma preserves_ret {A B : Type} (f : World -> B) (a : A) :
  preserves f (mret a : M A).
Proof. by intros w. Qed.

Lemma preserves_bind {A B C : Type} (f : World -> C) (m : M A)
    (k : A -> M B) :
  preserves f m -> (forall a, preserves f (k a)) -> preserves f (m ≫= k).
Proof.
  intros Hm Hk w. rewrite bind_run. cbn [res_world]. by rewrite Hk, Hm.
Qed.

Lemma preserves_fmap {A B C : Type} (f : World -> C) (g : A -> B) (m : M A) :
  preserves f m -> preserves f (g <$> m).
Proof. intros Hm w. rewrite fmap_run. cbn [res_world]. by rewrite Hm. Qed.

Lemma preserves_log {B : Type} (f : World -> B) (lvl : Level) :
  preserves f (log lvl).
Proof. by intros w. Qed.

Lemma preserves_for_each {A B : Type} (f : World -> B) (xs : list A)
    (body : A -> M unit) :
  (forall x, preserves f (body x)) -> preserves f (for_each xs body).
Proof.
  intros Hbody. induction xs as [|x xs IH]; cbn [for_each].
  - apply preserves_ret.
  - apply preserves_bind; [apply Hbody | intros _; apply IH].
Qed.

Lemma safe_send_loop_tables (env : Env) (max_retries chat_id : Z)
    (text : string) (todo : list Z) :
  preserves tables (safe_send_loop env max_retries chat_id text todo).
Proof.
  induction todo as [|attempt rest IH]; cbn [safe_send_loop].
  - apply preserves_ret.
  - apply preserves_bind; [by intros w|]. intros r.
    destruct r as [|ra| | |];
      try destruct (attempt <? max_retries - 1);
      repeat first [ apply preserves_ret | exact IH | apply preserves_log
                   | (apply preserves_bind; [|intros _]) | by intros w ].
Qed.

Lemma send_to_all_tables (env : Env) (user_ids : list Z) (message : string) :
  preserves tables (send_to_all env user_ids message).
Proof.
  apply preserves_for_each. intros user_id.
  apply preserves_bind; [apply safe_send_loop_tables | by intros _ w].
Qed.

(** Every event of a delivery is a delivery event. *)
Lemma safe_send_loop_events (env : Env) (max_retries chat_id : Z)
    (text : string) (todo : list Z) (w : World) :
  Forall (delivery_event chat_id text)
    (res_trace (safe_send_loop env max_retries chat_id text todo w)).
Proof.
  assert (forall x, 1000 * x <> PACING) as Hms by (unfold PACING; lia).
  revert w. induction todo as [|attempt rest IH]; intros w;
    cbn [safe_send_loop]; [by constructor|].
  mstep. cbn [bot_send_message res_trace res_val res_world].
  apply Forall_cons. split; [by left|].
  destruct (send_oracle env (n_send w)) as [|ra| | |];
    try destruct (attempt <? max_retries - 1); mstep;
    repeat first
      [ apply Forall_nil_2
      | apply IH
      | (apply Forall_cons; split;
         [first [ by right; left; eexists
                | by right; right; eexists; split; [reflexivity|apply Hms] ]|])
      | progress cbn [app] ].
Qed.

Lemma safe_send_message_segment (env : Env) (chat_id : Z) (text : string)
    (w : World) :
  delivery_segment text chat_id
    (res_trace (safe_send_message env chat_id text DEFAULT_MAX_RETRIES w)).
Proof.
  split; [apply safe_send_loop_events|]. split.
  - unfold safe_send_message.
    change (range DEFAULT_MAX_RETRIES) with [0; 1; 2].
    cbn [safe_send_loop]. mstep.
    cbn [bot_send_message res_trace]. rewrite attempts_app.
    change (attempts [EvSendMessage chat_id text]) with 1%nat. lia.
  - pose proof (safe_send_loop_attempts env chat_id text DEFAULT_MAX_RETRIES
                  (range DEFAULT_MAX_RETRIES) w) as H.
    exact H.
Qed.

(** The scheduler's loop over the recipients: one delivery per recipient, in
    the order of the list, each followed by the pacing delay, whatever its
    outcome. *)
Lemma send_to_all_paced (env : Env) (user_ids : list Z) (message : string)
    (w : World) :
  exists segs,
    res_trace (send_to_all env user_ids message w) = paced segs /\
    Forall2 (delivery_segment message) user_ids segs.
Proof.
  unfold send_to_all. revert w.
  induction user_ids as [|user_id rest IH]; intros w.
  - exists []. split; [done|constructor].
  - cbn [for_each]. mstep.
    match goal with |- context [for_each rest _ ?w'] =>
      destruct (IH w') as (segs & Ht & Hsegs) end.
    exists (res_trace
              (safe_send_message env user_id message DEFAULT_MAX_RETRIES w)
            :: segs).
    split.
    + rewrite Ht. unfold paced. cbn [map concat]. by rewrite <- app_assoc.
    + constructor; [apply safe_send_message_segment | done].
Qed.



(** ** The reminder tick *)

Lemma res_ext {A : Type} (r1 r2 : Res A) :
  res_val r1 = res_val r2 -> res_world r1 = res_world r2 ->
  res_trace r1 = res_trace r2 -> r1 = r2.
Proof. destruct r1, r2. cbn. by intros -> -> ->. Qed.

Lemma unit_eq (a b : unit) : a = b.
Proof. by destruct a, b. Qed.

Lemma for_each_app {A : Type} (l1 l2 : list A) (body : A -> M unit)
    (w : World) :
  for_each (l1 ++ l2) body w = (for_each l1 body;; for_each l2 body) w.
Proof.
  revert w. induction l1 as [|x l1 IH]; intros w.
  - cbn [app for_each]. mstep. by apply res_ext.
  - cbn [app for_each]. mstep. rewrite IH. mstep.
    apply res_ext; cbn [res_val res_world res_trace]; try done.
    by rewrite app_assoc.
Qed.

Section Tick.

Variable env : Env.
Variable cfg : Config.
Variable msgs : Messages.
Variable user_ids : list Z.
Variable current_time : TimeTuple.

Lemma send_due_reminders_jobs (i : nat) (b : Broadcast) (w : World) :
  send_due_reminders env msgs user_ids current_time b w =
  for_each
    (map (Reminder i b)
       (List.filter (fun k => bool_decide (current_time = reminder_date k b))
          [DayBefore; HourBefore; AfterBroadcast]))
    (fan_out_job env cfg msgs user_ids) w.
Proof.
  unfold send_due_reminders, fan_out_job. cbn [List.filter reminder_date].
  destruct (bool_decide (current_time = day_before_date b));
    destruct (bool_decide (current_time = hour_before_date b));
    destruct (bool_decide (current_time = after_date b));
    cbn [map for_each job_message reminder_message]; mstep;
    (apply res_ext; cbn [res_val res_world res_trace];
     [apply unit_eq | done |
      rewrite ?app_nil_r, ?app_nil_l, <- ?app_assoc; done]).
Qed.

Lemma for_each_due_reminders (i : nat) (bs : list Broadcast) (w : World) :
  for_each bs (send_due_reminders env msgs user_ids current_time) w =
  for_each (due_reminders current_time i bs)
    (fan_out_job env cfg msgs user_ids) w.
Proof.
  revert i w. induction bs as [|b bs IH]; intros i w; [done|].
  cbn [for_each due_reminders]. rewrite for_each_app. mstep.
  rewrite <- (send_due_reminders_jobs i b w). by rewrite (IH (S i)).
Qed.

End Tick.

(** The tick is one fan-out per due job. *)
Lemma tick_fan_out_jobs (env : Env) (cfg : Config) (msgs : Messages)
    (now : datetime) (w : World) :
  check_and_send_reminders env cfg msgs now w =
  fan_out_jobs env cfg msgs (due_jobs cfg (current_time_of now)) w.
Proof.
  unfold check_and_send_reminders, fan_out_jobs. mstep.
  fold (current_time_of now).
  destruct (res_val (get_all_registered_users env w)) as [|u us] eqn:Hu;
    [done|].
  mstep. unfold due_jobs. rewrite for_each_app. mstep.
  rewrite (for_each_due_reminders env cfg msgs (u :: us)
             (current_time_of now) 0).
  destruct (bool_decide (current_time_of now = MARATHON_END_DATE cfg));
    cbn [for_each]; unfold fan_out_job; cbn [job_message]; mstep;
    (apply res_ext; cbn [res_val res_world res_trace];
     [apply unit_eq | done | rewrite ?app_nil_r, <- ?app_assoc; done]).
Qed.

(** Close a goal from a membership in an explicit list none of whose
    elements can be the member. *)
Ltac no_member H :=
  repeat (apply elem_of_cons in H as [H|H]; [discriminate H|]);
  by apply elem_of_nil in H.

Lemma elem_of_due_reminders (ct : TimeTuple) (i0 : nat) (bs : list Broadcast)
    (j : nat) (b : Broadcast) (k : ReminderKind) :
  Reminder j b k ∈ due_reminders ct i0 bs ->
  exists n, j = (i0 + n)%nat /\ bs !! n = Some b /\ ct = reminder_date k b.
Proof.
  revert i0. induction bs as [|b0 bs IH]; intros i0 Hin;
    cbn [due_reminders] in Hin.
  - by apply elem_of_nil in Hin.
  - apply elem_of_app in Hin as [Hin|Hin].
    + apply list_elem_of_In, in_map_iff in Hin as (k' & Heq & Hk').
      injection Heq as <- <- <-.
      apply List.filter_In in Hk' as [_ Hk']. apply bool_decide_eq_true in Hk'.
      exists 0%nat. split; [lia|]. done.
    + apply IH in Hin as (n & -> & Hn & Hct).
      exists (S n). split; [lia|]. done.
Qed.

(** If exactly one entry has its hour-before reminder now, the due reminders
    hold exactly one hour-before job, that of this entry. *)
Lemma due_reminders_one_hour_before (ct : TimeTuple) (i0 : nat)
    (bs : list Broadcast) (n : nat) (b : Broadcast) :
  bs !! n = Some b ->
  hour_before_date b = ct ->
  (forall m b', bs !! m = Some b' -> hour_before_date b' = ct -> m = n) ->
  exists pre post,
    due_reminders ct i0 bs = pre ++ Reminder (i0 + n) b HourBefore :: post /\
    Forall (fun job => ~ is_hour_before job) (pre ++ post).
Proof.
  revert i0 n. induction bs as [|b0 bs IH]; intros i0 n Hn Hb Huniq;
    [done|].
  destruct n as [|n].
  - injection Hn as ->. cbn [due_reminders List.filter reminder_date].
    rewrite (bool_decide_eq_true_2 (ct = hour_before_date b)) by done.
    exists (map (Reminder i0 b)
              (List.filter (fun k => bool_decide (ct = reminder_date k b))
                 [DayBefore])),
           (map (Reminder i0 b)
              (List.filter (fun k => bool_decide (ct = reminder_date k b))
                 [AfterBroadcast]) ++ due_reminders ct (S i0) bs).
    split.
    { cbn [List.filter reminder_date]. rewrite Nat.add_0_r.
      destruct (bool_decide (ct = day_before_date b));
        destruct (bool_decide (ct = after_date b)); reflexivity. }
    rewrite Forall_forall. intros job Hjob (j & b' & ->).
    rewrite !elem_of_app in Hjob. destruct Hjob as [Hjob|[Hjob|Hjob]].
    + cbn in Hjob. destruct (bool_decide (ct = day_before_date b));
        cbn in Hjob; no_member Hjob.
    + cbn in Hjob. destruct (bool_decide (ct = after_date b));
        cbn in Hjob; no_member Hjob.
    + apply elem_of_due_reminders in Hjob as (m & _ & Hm & Hct).
      specialize (Huniq (S m) b' Hm (eq_sym Hct)). lia.
  - cbn in Hn.
    assert (hour_before_date b0 <> ct) as Hb0.
    { intros H0. specialize (Huniq 0%nat b0 eq_refl H0). lia. }
    destruct (IH (S i0) n Hn Hb) as (pre & post & Heq & Hnone).
    { intros m b' Hm Hb'. specialize (Huniq (S m) b' Hm Hb'). lia. }
    cbn [due_reminders List.filter reminder_date].
    rewrite (bool_decide_eq_false_2 (ct = hour_before_date b0)) by done.
    exists (map (Reminder i0 b0)
              (List.filter (fun k => bool_decide (ct = reminder_date k b0))
                 [DayBefore; AfterBroadcast]) ++ pre), post.
    split.
    { rewrite Heq. cbn [List.filter reminder_date].
      replace (i0 + S n)%nat with (S i0 + n)%nat by lia.
      destruct (bool_decide (ct = day_before_date b0));
        destruct (bool_decide (ct = after_date b0)); reflexivity. }
    rewrite <- app_assoc. apply Forall_app. split; [|done].
    rewrite Forall_forall. intros job Hjob (j & b' & ->).
    cbn in Hjob. destruct (bool_decide (ct = day_before_date b0));
      destruct (bool_decide (ct = after_date b0)); cbn in Hjob;
      no_member Hjob.
Qed.

(** C2. On a tick whose [current_time] is the hour-before timestamp of
    exactly one entry of [BROADCASTS], the scheduler runs one fan-out per due
    job, each job being one delivery per user registered at the start of the
    tick, in the order of the list, each followed by the pacing delay; among
    these jobs there is exactly one hour-before job, the one of that entry,
    sending that entry's hour-before message; and no job is run for a
    reminder whose timestamp is not [current_time]. *)
Theorem C2_hour_before_tick_fans_out_once
    (env : Env) (cfg : Config) (msgs : Messages) (now : datetime) (w : World)
    (i : nat) (b : Broadcast) :
  BROADCASTS cfg !! i = Some b ->
  hour_before_date b = current_time_of now ->
  (forall j b', BROADCASTS cfg !! j = Some b' ->
     hour_before_date b' = current_time_of now -> j = i) ->
  let jobs := due_jobs cfg (current_time_of now) in
  check_and_send_reminders env cfg msgs now w =
    fan_out_jobs env cfg msgs jobs w /\
  (forall user_ids message w',
     exists segs,
       res_trace (send_to_all env user_ids message w') = paced segs /\
       Forall2 (delivery_segment message) user_ids segs) /\
  (exists pre post,
     jobs = pre ++ Reminder i b HourBefore :: post /\
     Forall (fun job => ~ is_hour_before job) (pre ++ post)) /\
  job_message cfg msgs (Reminder i b HourBefore) =
    get_hour_before_message msgs b /\
  (forall j b' k, BROADCASTS cfg !! j = Some b' ->
     reminder_date k b' <> current_time_of now ->
     Reminder j b' k ∉ jobs).
Proof.
  intros Hi Hb Huniq jobs. subst jobs.
  split; [apply tick_fan_out_jobs|].
  split; [intros; apply send_to_all_paced|]. split; [|split; [done|]].
  - destruct (due_reminders_one_hour_before (current_time_of now) 0
                (BROADCASTS cfg) i b Hi Hb Huniq)
      as (pre & post & Heq & Hnone).
    unfold due_jobs. rewrite Heq. cbn [Nat.add].
    exists pre,
      (post ++ if bool_decide (current_time_of now = MARATHON_END_DATE cfg)
               then [MarathonEnd] else []).
    split; [by rewrite <- app_assoc|].
    rewrite app_assoc. apply Forall_app. split; [done|].
    destruct (bool_decide (current_time_of now = MARATHON_END_DATE cfg));
      [|done].
    apply Forall_singleton. by intros (j & b' & Hj).
  - intros j b' k Hj Hne Hin. unfold due_jobs in Hin.
    apply elem_of_app in Hin as [Hin|Hin].
    + apply elem_of_due_reminders in Hin as (n & _ & _ & Hct). congruence.
    + destruct (bool_decide (current_time_of now = MARATHON_END_DATE cfg));
        no_member Hin.
Qed.

(** Monday 18:00 is Monday's hour-before minute and Tuesday's day-before
    minute: both fan-outs run, to the one registered user, and nothing
    else. *)
Lemma C2_witness :
  recipients
    (res_trace
       (check_and_send_reminders (quiet_env (fun _ => SendOk)) two_broadcasts
          plain_messages monday_six_pm (world_of two_users))) = [1; 1] /\
  due_jobs two_broadcasts (current_time_of monday_six_pm) =
    [Reminder 0 monday HourBefore; Reminder 1 tuesday DayBefore].
Proof.
  destruct (C2_hour_before_tick_fans_out_once (quiet_env (fun _ => SendOk))
              two_broadcasts plain_messages monday_six_pm
              (world_of two_users) 0 monday eq_refl eq_refl)
    as (Hrun & _ & _ & _ & _).
  - intros [|[|j]] b' Hj Hb'; [done| |done].
    injection Hj as <-. discriminate Hb'.
  - rewrite Hrun. split; vm_compute; reflexivity.
Defined.

(** ** Who receives a broadcast *)

Lemma silent_ret {A : Type} (a : A) : silent (mret a : M A).
Proof. by intros w. Qed.

Lemma silent_bind {A B : Type} (m : M A) (k : A -> M B) :
  silent m -> (forall a, silent (k a)) -> silent (m ≫= k).
Proof.
  intros Hm Hk w. rewrite bind_run. cbn [res_trace].
  by rewrite recipients_app, Hm, Hk.
Qed.

Lemma silent_fmap {A B : Type} (g : A -> B) (m : M A) :
  silent m -> silent (g <$> m).
Proof.
  intros Hm w. rewrite fmap_run. cbn [res_trace].
  by rewrite recipients_app, Hm.
Qed.

Lemma silent_log (lvl : Level) : silent (log lvl).
Proof. by intros w. Qed.

(** Goals [silent m] and [preserves f m] for straight-line code. *)
Ltac straight :=
  repeat
    (lazymatch goal with
     | |- silent (mret _) => apply silent_ret
     | |- silent (log _) => apply silent_log
     | |- silent (_ ≫= _) => apply silent_bind; [|intros ?]
     | |- silent (_ <$> _) => apply silent_fmap
     | |- preserves _ (mret _) => apply preserves_ret
     | |- preserves _ (log _) => apply preserves_log
     | |- preserves _ (_ ≫= _) => apply preserves_bind; [|intros ?]
     | |- preserves _ (_ <$> _) => apply preserves_fmap
     | |- _ => first [ assumption | by intros ? ]
     end).

Lemma get_all_registered_users_silent (env : Env) :
  silent (get_all_registered_users env).
Proof.
  unfold get_all_registered_users. straight.
  destruct a; straight.
Qed.

Lemma get_all_registered_users_tables (env : Env) :
  preserves tables (get_all_registered_users env).
Proof.
  unfold get_all_registered_users. straight.
  destruct a; straight.
Qed.

(** The list read from the table: the registered users, or nothing when the
    database raises. *)
Lemma get_all_registered_users_val (env : Env) (w : World) :
  res_val (get_all_registered_users env w) =
  if db_oracle env (n_db w) then [] else select_registered (users w).
Proof.
  unfold get_all_registered_users. mstep.
  cbn [db_raises res_val res_world]. by destruct (db_oracle env (n_db w)).
Qed.

Lemma recipients_delivery_segment (text : string) (chat_id : Z)
    (seg : list Event) (x : Z) :
  delivery_segment text chat_id seg -> x ∈ recipients seg <-> x = chat_id.
Proof.
  intros [Hev [Hmin _]]. split.
  - intros Hx. apply list_elem_of_omap in Hx as (e & He & Hrec).
    rewrite Forall_forall in Hev. specialize (Hev e He).
    destruct Hev as [->|[[lvl ->]|(ms & -> & _)]]; cbn in Hrec; congruence.
  - intros ->. induction Hev as [|e seg He Hev IH]; cbn in Hmin; [lia|].
    unfold recipients. cbn [omap].
    destruct He as [->|[[lvl ->]|(ms & -> & _)]]; cbn [recipient].
    + apply elem_of_cons. by left.
    + apply IH. exact Hmin.
    + apply IH. exact Hmin.
Qed.

Lemma recipients_paced (text : string) (user_ids : list Z)
    (segs : list (list Event)) (x : Z) :
  Forall2 (delivery_segment text) user_ids segs ->
  x ∈ recipients (paced segs) <-> x ∈ user_ids.
Proof.
  induction 1 as [|user_id seg user_ids segs Hseg _ IH].
  - done.
  - unfold paced in *. cbn [map concat]. rewrite !recipients_app.
    change (recipients [EvSleep PACING]) with (@nil Z).
    rewrite app_nil_r, elem_of_app, elem_of_cons, IH.
    by rewrite (recipients_delivery_segment text user_id seg x Hseg).
Qed.

(** The scheduler's loop writes to the users of its list and to nobody
    else. *)
Lemma send_to_all_recipients (env : Env) (user_ids : list Z)
    (message : string) (w : World) (x : Z) :
  x ∈ recipients (res_trace (send_to_all env user_ids message w)) <->
  x ∈ user_ids.
Proof.
  destruct (send_to_all_paced env user_ids message w) as (segs & -> & Hsegs).
  by eapply recipients_paced.
Qed.

Lemma broadcast_to_silent (us : gmap Z UserRow) (t : list Event) :
  recipients t = [] -> broadcast_to us t.
Proof.
  intros Ht. split; [|by left]. rewrite Ht. intros x Hx.
  by apply elem_of_nil in Hx.
Qed.

Lemma broadcast_to_app (us : gmap Z UserRow) (t1 t2 : list Event) :
  broadcast_to us t1 -> broadcast_to us t2 -> broadcast_to us (t1 ++ t2).
Proof.
  intros [H1 H1'] [H2 H2']. split.
  - intros x. rewrite recipients_app, elem_of_app. intros [Hx|Hx]; auto.
  - rewrite recipients_app.
    destruct H1' as [E1|H1']; [|right; intros x Hx; apply elem_of_app; auto].
    destruct H2' as [E2|H2']; [|right; intros x Hx; apply elem_of_app; auto].
    left. by rewrite E1, E2.
Qed.

(** A fan-out over the list read from [us]. *)
Lemma broadcast_to_send_to_all (env : Env) (us : gmap Z UserRow)
    (user_ids : list Z) (message : string) (w : World) :
  user_ids = [] \/ user_ids = select_registered us ->
  broadcast_to us (res_trace (send_to_all env user_ids message w)).
Proof.
  intros [-> | ->].
  - by apply broadcast_to_silent.
  - split; [|right]; intros x Hx.
    + by apply elem_of_select_registered, (send_to_all_recipients env _ message w).
    + by apply (send_to_all_recipients env _ message w),
        elem_of_select_registered.
Qed.

Lemma registered_list_cases (env : Env) (w : World) :
  res_val (get_all_registered_users env w) = [] \/
  res_val (get_all_registered_users env w) = select_registered (users w).
Proof.
  rewrite get_all_registered_users_val.
  destruct (db_oracle env (n_db w)); auto.
Qed.



(** ** The raffle *)






Lemma check_subscription_quiet (env : Env) (cfg : Config) (user_id : Z) :
  silent (check_subscription env cfg user_id) /\
  preserves tables (check_subscription env cfg user_id) /\
  preserves clock (check_subscription env cfg user_id).
Proof.
  unfold check_subscription.
  destruct (negb (forallb truthy (channel_ids cfg).*2));
    [split; [|split]; straight|].
  assert (silent (check_channels env user_id (channel_ids cfg)) /\
          preserves tables (check_channels env user_id (channel_ids cfg)) /\
          preserves clock (check_channels env user_id (channel_ids cfg)))
    as (H1 & H2 & H3).
  { induction (channel_ids cfg) as [|[name cid] rest (IH1 & IH2 & IH3)];
      cbn [check_channels]; [split; [|split]; straight|].
    split; [|split]; straight; try destruct a; straight. }
  split; [|split]; straight.
Qed.

Lemma update_user_subscription_status_quiet (env : Env) (user_id : Z)
    (is_subscribed : bool) :
  silent (update_user_subscription_status env user_id is_subscribed) /\
  preserves winners_and_clock
    (update_user_subscription_status env user_id is_subscribed).
Proof.
  unfold update_user_subscription_status.
  split; straight; destruct a; straight.
Qed.

Lemma preserves_tables_winners {A : Type} (m : M A) :
  preserves tables m -> preserves clock m -> preserves winners_and_clock m.
Proof.
  intros Ht Hc w. unfold winners_and_clock. rewrite Hc.
  specialize (Ht w). unfold tables in Ht. congruence.
Qed.

Lemma check_participants_quiet (env : Env) (cfg : Config)
    (participants : list Participant) :
  silent (check_participants env cfg participants) /\
  preserves winners_and_clock (check_participants env cfg participants).
Proof.
  induction participants as [|p rest [IH1 IH2]]; cbn [check_participants];
    [split; straight|].
  destruct (check_subscription_quiet env cfg (p_user_id p)) as (H1 & H2 & H3).
  pose proof (preserves_tables_winners _ H2 H3) as H4.
  destruct (negb (truthy_str (p_username p))); [split; straight|].
  split; straight;
    try apply update_user_subscription_status_quiet;
    match goal with b : bool |- _ => destruct b end; straight.
Qed.

Lemma get_eligible_raffle_participants_quiet (env : Env) :
  silent (get_eligible_raffle_participants env) /\
  preserves winners_and_clock (get_eligible_raffle_participants env).
Proof.
  unfold get_eligible_raffle_participants.
  split; straight; destruct a; straight.
Qed.

Lemma sample_loop_quiet {A : Type} (env : Env) (k : nat) (pool : list A) :
  silent (sample_loop env k pool) /\
  preserves winners_and_clock (sample_loop env k pool).
Proof.
  revert pool. induction k as [|k IH]; intros pool; cbn [sample_loop];
    [split; straight|].
  split; straight;
    match goal with j : nat |- _ =>
      destruct (pool !! j); [destruct (last pool)|]; straight;
      apply IH end.
Qed.

Lemma shuffle_loop_quiet {A : Type} (env : Env) (indices : list nat)
    (x : list A) :
  silent (shuffle_loop env indices x) /\
  preserves winners_and_clock (shuffle_loop env indices x).
Proof.
  revert x. induction indices as [|i rest IH]; intros x; cbn [shuffle_loop];
    [split; straight|].
  split; straight; apply IH.
Qed.

Lemma select_winners_quiet (env : Env) (eligible : list Participant) :
  silent (select_winners env eligible) /\
  preserves winners_and_clock (select_winners env eligible).
Proof.
  unfold select_winners, random_sample, random_shuffle.
  destruct (3 <? length eligible)%nat;
    [destruct (length eligible <? 3)%nat|];
    split; straight;
    first [apply sample_loop_quiet | apply shuffle_loop_quiet].
Qed.

Lemma build_winners_data_quiet (winners : list Participant)
    (indices : list nat) :
  silent (build_winners_data winners indices) /\
  preserves winners_and_clock (build_winners_data winners indices).
Proof.
  induction indices as [|i rest [IH1 IH2]]; cbn [build_winners_data];
    [split; straight|].
  destruct (winners !! i); [destruct (prizes !! i)|]; split; straight.
Qed.

Lemma draw_winners_quiet (env : Env) (eligible : list Participant) :
  silent (draw_winners env eligible) /\
  preserves winners_and_clock (draw_winners env eligible).
Proof.
  unfold draw_winners.
  split; straight; try apply select_winners_quiet;
    match goal with a : option _ |- _ => destruct a end; straight;
    apply build_winners_data_quiet.
Qed.



Lemma broadcast_to_recipients (us : gmap Z UserRow) (t t' : list Event) :
  recipients t = recipients t' -> broadcast_to us t' -> broadcast_to us t.
Proof. unfold broadcast_to. by intros ->. Qed.

(** The announcement at the end of a raffle: a broadcast to the users
    registered at that moment, which leaves the tables alone. *)
Lemma raffle_announcement (env : Env) (message : string) (w : World) :
  let r := (log INFO;;
            user_ids ← get_all_registered_users env;
            log INFO;;
            send_to_all env user_ids message;;
            log INFO) w in
  tables (res_world r) = tables w /\
  broadcast_to (users w) (res_trace r).
Proof.
  cbn zeta. split.
  - apply (preserves_bind tables); [by intros ?|]. intros _.
    apply (preserves_bind tables);
      [apply get_all_registered_users_tables|]. intros ids.
    apply (preserves_bind tables); [by intros ?|]. intros _.
    apply (preserves_bind tables); [apply send_to_all_tables|]. by intros _ ?.
  - mstep1. apply broadcast_to_app; [by apply broadcast_to_silent|].
    mstep1. apply broadcast_to_app;
      [apply broadcast_to_silent, get_all_registered_users_silent|].
    mstep1. apply broadcast_to_app; [by apply broadcast_to_silent|].
    mstep1. apply broadcast_to_app; [|by apply broadcast_to_silent].
    apply broadcast_to_send_to_all, registered_list_cases.
Qed.

(** How a raffle run ends: either nothing is saved and nobody is written to
    (no eligible participant, or an exception), or the drawn winners are
    appended to the winners table and the announcement is broadcast. *)
Lemma conduct_raffle_cases (env : Env) (cfg : Config) (msgs : Messages)
    (w : World) :
  let r := conduct_raffle env cfg msgs w in
  let d := raffle_draw env cfg w in
  (recipients (res_trace r) = [] /\
   raffle_winners (res_world r) = raffle_winners w /\
   (eligible_of env cfg w = [] \/ res_val d = None \/
    db_oracle env (n_db (res_world d)) = true))
  \/
  (exists data,
     eligible_of env cfg w <> [] /\
     res_val d = Some data /\
     db_oracle env (n_db (res_world d)) = false /\
     raffle_winners (res_world r) =
       raffle_winners w ++ map (winner_row (clock w)) data /\
     broadcast_to (users (res_world r)) (res_trace r)).
Proof.
  intros r d. subst r d. unfold conduct_raffle, raffle_draw, eligible_of.
  mstep1. mstep1. rewrite !(bind_run (get_eligible_raffle_participants env)).
  cbn [res_val res_world res_trace].
  destruct (get_eligible_raffle_participants_quiet env) as [Hs1 Hp1].
  specialize (Hs1 w). specialize (Hp1 w).
  set (r1 := get_eligible_raffle_participants env w) in *.
  destruct (res_val r1) as [|p ps] eqn:Hps.
  - left. cbn [check_participants]. mstep. rewrite !recipients_app, Hs1.
    split; [done|]. split; [|by left].
    unfold winners_and_clock in Hp1. congruence.
  - clear Hps. generalize (p :: ps). intros participants.
    mstep1. rewrite !(bind_run (check_participants env cfg participants)).
    cbn [res_val res_world res_trace].
    destruct (check_participants_quiet env cfg participants) as [Hs2 Hp2].
    specialize (Hs2 (res_world r1)). specialize (Hp2 (res_world r1)).
    set (r2 := check_participants env cfg participants (res_world r1)) in *.
    mstep1.
    destruct (res_val r2) as [|e es] eqn:Hel.
    { left. cbn [length Nat.eqb]. mstep. rewrite !recipients_app, Hs1, Hs2.
      split; [done|]. split; [|by left].
      unfold winners_and_clock in Hp1, Hp2. congruence. }
    cbn [length Nat.eqb].
    rewrite !(bind_run (draw_winners env (e :: es))).
    cbn [res_val res_world res_trace].
    destruct (draw_winners_quiet env (e :: es)) as [Hs3 Hp3].
    specialize (Hs3 (res_world r2)). specialize (Hp3 (res_world r2)).
    set (r3 := draw_winners env (e :: es) (res_world r2)) in *.
    assert (raffle_winners (res_world r3) = raffle_winners w /\
            clock (res_world r3) = clock w) as [Hw Hc].
    { unfold winners_and_clock in Hp1, Hp2, Hp3. split; congruence. }
    destruct (res_val r3) as [data|] eqn:Hdata.
    2:{ left. mstep. rewrite !recipients_app, Hs1, Hs2, Hs3.
        split; [done|]. split; [exact Hw|]. right. by left. }
    unfold save_raffle_winners. mstep1.
    rewrite !(bind_run (db_raises env)).
    cbn [db_raises res_val res_world res_trace].
    destruct (db_oracle env (n_db (res_world r3))) eqn:Hdb.
    { left. mstep. rewrite !recipients_app, Hs1, Hs2, Hs3.
      split; [done|]. split; [exact Hw|]. right. by right. }
    right. exists data. split; [done|]. split; [done|]. split; [done|].
    mstep. cbn [get_world set_raffle_winners res_val res_world res_trace
                raffle_winners clock users n_db n_send n_lookup n_rand].
    match goal with |- context [mbind _ _ ?w4] =>
      destruct (raffle_announcement env (get_raffle_message msgs data) w4)
        as [Ht Hb]; set (w' := w4) in * end.
    pose proof (f_equal fst Ht) as Hu. pose proof (f_equal snd Ht) as Hr.
    unfold tables in Hu, Hr. cbn [fst snd] in Hu, Hr. clear Ht.
    split.
    + rewrite Hr. subst w'. cbn [raffle_winners]. by rewrite Hw, Hc.
    + rewrite Hu. eapply broadcast_to_recipients; [|exact Hb].
      by rewrite !recipients_app, Hs1, Hs2, Hs3.
Qed.



Lemma select_participants_NoDup (us : gmap Z UserRow) :
  NoDup (p_user_id <$> select_participants us).
Proof.
  unfold select_participants.
  change (map ?f ?l) with (f <$> l). rewrite <- list_fmap_compose.
  change (NoDup
    ((filter (fun kv : Z * UserRow =>
                subscribed kv.2 = 1 /\ truthy_str (username kv.2) = true)
        (map_to_list us)).*1)).
  apply NoDup_fmap_fst.
  - intros k r1 r2 H1%list_elem_of_filter H2%list_elem_of_filter.
    destruct H1 as [_ H1], H2 as [_ H2].
    apply elem_of_map_to_list in H1, H2. congruence.
  - apply NoDup_filter, NoDup_map_to_list.
Qed.





(** C4. A raffle run whose eligible set, after the live re-check, is empty
    appends nothing to the winners table and writes to no user. *)
Theorem C4_empty_raffle_saves_and_sends_nothing
    (env : Env) (cfg : Config) (msgs : Messages) (w : World) :
  eligible_of env cfg w = [] ->
  let r := conduct_raffle env cfg msgs w in
  raffle_winners (res_world r) = raffle_winners w /\
  recipients (res_trace r) = [].
Proof.
  intros Hempty r. subst r.
  destruct (conduct_raffle_cases env cfg msgs w)
    as [(Hsil & Hsame & _)|(data & Hne & _)]; [done|].
  by destruct Hne.
Qed.

(** Alice is the only candidate and the lookups of her membership raise. *)
Lemma C4_witness :
  let r := conduct_raffle (quiet_env (fun _ => SendOk)) four_channels
             plain_messages (world_of two_users) in
  raffle_winners (res_world r) = [] /\ recipients (res_trace r) = [].
Proof.
  apply (C4_empty_raffle_saves_and_sends_nothing
           (quiet_env (fun _ => SendOk)) four_channels plain_messages
           (world_of two_users)).
  vm_compute. reflexivity.
Defined.

(** ** The recipients of every broadcast *)






(** * Further properties *)

(** ** More on the delivery primitive *)

Lemma safe_send_loop_script (env : Env) (chat_id : Z) (text : string)
    (max_retries : Z) (answers : list SendResult) (final : SendResult)
    (n a : nat) (w : World) :
  Z.of_nat (a + n) = max_retries ->
  (length answers < n)%nat ->
  answered_by env (answers ++ [final]) w ->
  forallb retryable answers = true ->
  retryable final = false ->
  let r := safe_send_loop env max_retries chat_id text
             (map Z.of_nat (seq a n)) w in
  res_val r = is_ok final /\
  attempts (res_trace r) = S (length answers) /\
  sleeps (res_trace r) = retry_delays (Z.of_nat a) answers.
Proof.
  cbn zeta. revert n a w.
  induction answers as [|x answers IH]; intros n a w Hmax Hlen Hans Hretry Hfin;
    (destruct n as [|n]; [cbn in Hlen; lia|]);
    cbn [seq map safe_send_loop]; mstep;
    cbn [bot_send_message res_trace res_val res_world];
    rewrite attempts_app, sleeps_app;
    change (attempts [EvSendMessage chat_id text]) with 1%nat;
    change (sleeps [EvSendMessage chat_id text]) with (@nil Z).
  - pose proof (Hans 0%nat final eq_refl) as H0.
    rewrite Nat.add_0_r in H0. rewrite H0.
    destruct final; try discriminate Hfin; mstep; done.
  - pose proof (Hans 0%nat x eq_refl) as H0.
    rewrite Nat.add_0_r in H0. rewrite H0.
    cbn [forallb] in Hretry. apply andb_true_iff in Hretry as [Hx Hretry].
    cbn [length] in Hlen.
    assert (forall w', n_send w' = S (n_send w) ->
              answered_by env (answers ++ [final]) w') as Htail.
    { intros w' Hn i y Hi. rewrite Hn.
      rewrite <- (Hans (S i) y Hi). f_equal. lia. }
    destruct x as [|ra| | |]; try discriminate Hx.
    + mstep. rewrite !attempts_app, !sleeps_app.
      match goal with |- context [safe_send_loop _ _ _ _ _ ?w'] =>
        destruct (IH n (S a) w') as (Hv & Ha & Hs) end;
        [lia | lia | by apply Htail | done | done |].
      rewrite Hv, Ha, Hs. cbn [retry_delays retry_delay].
      replace (Z.of_nat (S a)) with (Z.of_nat a + 1) by lia. done.
    + destruct (Z.ltb_spec (Z.of_nat a) (max_retries - 1)) as [_|Hge];
        [|lia].
      mstep. rewrite !attempts_app, !sleeps_app.
      match goal with |- context [safe_send_loop _ _ _ _ _ ?w'] =>
        destruct (IH n (S a) w') as (Hv & Ha & Hs) end;
        [lia | lia | by apply Htail | done | done |].
      rewrite Hv, Ha, Hs. cbn [retry_delays retry_delay].
      replace (Z.of_nat (S a)) with (Z.of_nat a + 1) by lia. done.
Qed.

(** X1. Failures that are retried (rate limit, network error), fewer than
    [max_retries] of them, followed by an answer that is not retried
    (accepted, rejected by the API, any other exception): the call returns
    whether that last answer was an acceptance, after one attempt per answer;
    the sleeps are the mandated wait after a rate limit and [2 * (i + 1)]
    seconds after a network error at the loop index [i], so that rate-limited
    passes move the backoff forward too. *)
Theorem X1_retries_then_outcome
    (env : Env) (chat_id : Z) (text : string) (max_retries : Z) (w : World)
    (answers : list SendResult) (final : SendResult) :
  answered_by env (answers ++ [final]) w ->
  forallb retryable answers = true ->
  retryable final = false ->
  Z.of_nat (length answers) < max_retries ->
  let r := safe_send_message env chat_id text max_retries w in
  res_val r = is_ok final /\
  attempts (res_trace r) = S (length answers) /\
  sleeps (res_trace r) = retry_delays 0 answers.
Proof.
  intros Hans Hretry Hfin Hlen. unfold safe_send_message, range.
  apply (safe_send_loop_script env chat_id text max_retries answers final
           (Z.to_nat max_retries) 0 w); [cbn; lia | lia | done..].
Qed.

(** A rate limit of 7 s, a network error, then a rejection: three attempts,
    sleeps of 7 s and 4 s (not 2 s), failure. *)
Lemma X1_witness :
  let env := quiet_env (scripted [TelegramRetryAfter 7; TelegramNetworkError;
                                  TelegramAPIError] SendOk) in
  let r := safe_send_message env 7 "hi" DEFAULT_MAX_RETRIES empty_world in
  res_val r = false /\ attempts (res_trace r) = 3%nat /\
  sleeps (res_trace r) = [7000; 4000].
Proof.
  intros env r.
  apply (X1_retries_then_outcome env 7 "hi" DEFAULT_MAX_RETRIES empty_world
           [TelegramRetryAfter 7; TelegramNetworkError] TelegramAPIError).
  - intros i a Hi. destruct i as [|[|[|i]]]; cbn in Hi; inversion Hi; done.
  - reflexivity.
  - reflexivity.
  - unfold DEFAULT_MAX_RETRIES. cbn. lia.
Defined.

Lemma safe_send_loop_cursor (env : Env) (chat_id : Z) (text : string)
    (max_retries : Z) (todo : list Z) (w : World) :
  let r := safe_send_loop env max_retries chat_id text todo w in
  n_send (res_world r) = (n_send w + attempts (res_trace r))%nat /\
  beyond_transport (res_world r) = beyond_transport w /\
  clock w <= clock (res_world r) /\
  lookups (res_trace r) = [] /\
  (res_val r = true ->
   exists k, attempts (res_trace r) = S k /\
             send_oracle env (n_send w + k) = SendOk).
Proof.
  cbn zeta. revert w. induction todo as [|attempt rest IH]; intros w.
  - cbn. repeat split; try lia; try done.
  - cbn [safe_send_loop]. mstep.
    cbn [bot_send_message res_trace res_val res_world].
    rewrite attempts_app, lookups_app.
    change (attempts [EvSendMessage chat_id text]) with 1%nat.
    change (lookups [EvSendMessage chat_id text]) with (@nil (PyVal * Z)).
    destruct (send_oracle env (n_send w)) as [|ra| | |] eqn:Hans;
      try destruct (attempt <? max_retries - 1); mstep;
      rewrite ?attempts_app, ?lookups_app;
      try (cbn; repeat split; try lia; try done;
           intros _; exists 0%nat; rewrite Nat.add_0_r; done);
      match goal with |- context [safe_send_loop _ _ _ _ rest ?w'] =>
        destruct (IH w') as (Hn & Hb & Hc & Hl & Hok) end;
      rewrite Hn, Hb, Hl; cbn [n_send clock] in *;
      (split; [cbn; lia|]); (split; [done|]); (split; [lia|]);
      (split; [done|]);
      intros Htrue; destruct (Hok Htrue) as (k & Hk & Hsend);
      exists (S k); rewrite Hk;
      (split; [done|]); rewrite <- Hsend; f_equal; lia.
Qed.

(** X2. [safe_send_message] reports success only for an accepted send: when
    it returns [True], the last of its attempts was accepted by the
    transport.  It uses up exactly one answer of the transport per attempt;
    with a budget of zero or less it returns [False] without calling the
    transport at all.  It touches neither table, performs no membership
    lookup and never turns the clock back. *)
Theorem X2_success_means_accepted
    (env : Env) (chat_id : Z) (text : string) (max_retries : Z) (w : World) :
  let r := safe_send_message env chat_id text max_retries w in
  (res_val r = true ->
   exists k, attempts (res_trace r) = S k /\ Z.of_nat k < max_retries /\
             send_oracle env (n_send w + k) = SendOk) /\
  n_send (res_world r) = (n_send w + attempts (res_trace r))%nat /\
  (max_retries <= 0 -> res_val r = false /\ res_trace r = []) /\
  beyond_transport (res_world r) = beyond_transport w /\
  lookups (res_trace r) = [] /\
  clock w <= clock (res_world r).
Proof.
  intros r. subst r. unfold safe_send_message.
  destruct (safe_send_loop_cursor env chat_id text max_retries
              (range max_retries) w) as (Hn & Hb & Hc & Hl & Hok).
  pose proof (safe_send_loop_attempts env chat_id text max_retries
                (range max_retries) w) as Hle.
  assert (length (range max_retries) = Z.to_nat max_retries) as Hlen.
  { unfold range. by rewrite length_map, length_seq. }
  split; [|split; [done|split; [|done]]].
  - intros Htrue. destruct (Hok Htrue) as (k & Hk & Hsend).
    exists k. split; [done|]. split; [lia|done].
  - intros Hneg. unfold range. replace (Z.to_nat max_retries) with 0%nat by lia.
    done.
Qed.

Lemma X2_witness :
  let env := quiet_env (scripted [TelegramNetworkError] SendOk) in
  let r := safe_send_message env 7 "hi" DEFAULT_MAX_RETRIES empty_world in
  res_val r = true /\
  exists k, attempts (res_trace r) = S k /\ send_oracle env k = SendOk.
Proof.
  intros env r.
  destruct (X2_success_means_accepted env 7 "hi" DEFAULT_MAX_RETRIES
              empty_world) as (Hok & _).
  assert (res_val r = true) as Htrue by reflexivity.
  split; [exact Htrue|].
  destruct (Hok Htrue) as (k & Hk & _ & Hsend). by exists k.
Defined.

(** ** More on the fan-out loops *)


Lemma safe_send_message_frame (env : Env) (chat_id : Z) (text : string)
    (max_retries : Z) (w : World) :
  let r := safe_send_message env chat_id text max_retries w in
  beyond_transport (res_world r) = beyond_transport w /\
  lookups (res_trace r) = [] /\
  clock w <= clock (res_world r).
Proof.
  destruct (safe_send_loop_cursor env chat_id text max_retries
              (range max_retries) w) as (_ & Hb & Hc & Hl & _).
  done.
Qed.

Lemma send_to_all_cost (env : Env) (user_ids : list Z) (message : string)
    (w : World) :
  let r := send_to_all env user_ids message w in
  (length user_ids <= attempts (res_trace r) <= 3 * length user_ids)%nat /\
  clock w + PACING * Z.of_nat (length user_ids) <= clock (res_world r) /\
  lookups (res_trace r) = [] /\
  beyond_transport (res_world r) = beyond_transport w.
Proof.
  cbn zeta. unfold send_to_all. revert w.
  induction user_ids as [|user_id rest IH]; intros w.
  - cbn. repeat split; lia.
  - cbn [for_each]. mstep. rewrite !attempts_app, !lookups_app.
    destruct (safe_send_message_segment env user_id message w)
      as (_ & Hmin & Hmax).
    destruct (safe_send_message_frame env user_id message
                DEFAULT_MAX_RETRIES w) as (Hb & Hl & Hc).
    set (r1 := safe_send_message env user_id message DEFAULT_MAX_RETRIES w)
      in *.
    match goal with |- context [for_each rest _ ?w'] =>
      destruct (IH w') as (Ha & Hclk & Hlk & Hbt) end.
    rewrite Hlk, Hl, Hbt. cbn [clock] in Hclk.
    change (Z.to_nat DEFAULT_MAX_RETRIES) with 3%nat in Hmax.
    change (attempts [EvSleep PACING]) with 0%nat.
    unfold PACING in *. cbn [length].
    split; [lia|]. split; [lia|]. split; [done|]. exact Hb.
Qed.

(** X3. A scheduler fan-out to [n] recipients makes between [n] and [3 n]
    transport calls, lasts at least [n] pacing delays, looks up no
    membership, and leaves both tables and the database, lookup and random
    cursors as they were. *)
Theorem X3_fan_out_cost (env : Env) (user_ids : list Z) (message : string)
    (w : World) :
  let r := send_to_all env user_ids message w in
  (length user_ids <= attempts (res_trace r) <= 3 * length user_ids)%nat /\
  clock w + PACING * Z.of_nat (length user_ids) <= clock (res_world r) /\
  lookups (res_trace r) = [] /\
  beyond_transport (res_world r) = beyond_transport w.
Proof. apply send_to_all_cost. Qed.




(** ** More on the user table *)

Lemma update_subscribed_lookup (user_id : Z) (v : Z) (us : gmap Z UserRow)
    (x : Z) :
  update_subscribed user_id v us !! x =
  if decide (x = user_id) then with_subscribed v <$> us !! user_id
  else us !! x.
Proof.
  unfold update_subscribed. destruct (us !! user_id) as [row|] eqn:Hrow.
  - destruct (decide (x = user_id)) as [->|Hne].
    + by rewrite lookup_insert_eq.
    + by rewrite lookup_insert_ne.
  - destruct (decide (x = user_id)) as [->|Hne]; [by rewrite Hrow|done].
Qed.

Lemma update_user_subscription_status_users (env : Env) (user_id : Z)
    (is_subscribed : bool) (w : World) :
  users (res_world
           (update_user_subscription_status env user_id is_subscribed w)) =
  if db_oracle env (n_db w) then users w
  else update_subscribed user_id (flag_of is_subscribed) (users w).
Proof.
  unfold update_user_subscription_status. mstep.
  cbn [db_raises res_val res_world]. by destruct (db_oracle env (n_db w)).
Qed.

(** X5. [update_user_subscription_status] writes the verdict into the row of
    the user and nowhere else: afterwards the user is registered exactly
    when the verdict was true, name, first name and registration time of the
    row are kept, every other row is as before, no row is created for an
    unknown id, and the winners table is untouched.  When the database
    raises, the users table is as before. *)
Theorem X5_subscription_status_is_written
    (env : Env) (user_id : Z) (is_subscribed : bool) (w : World) :
  let w' := res_world
              (update_user_subscription_status env user_id is_subscribed w) in
  (db_oracle env (n_db w) = false ->
   users w' !! user_id =
     with_subscribed (flag_of is_subscribed) <$> users w !! user_id /\
   (is_Some (users w !! user_id) ->
    (registered (users w') user_id <-> is_subscribed = true))) /\
  (db_oracle env (n_db w) = true -> users w' = users w) /\
  (forall other, other <> user_id -> users w' !! other = users w !! other) /\
  (users w !! user_id = None -> users w' = users w) /\
  raffle_winners w' = raffle_winners w.
Proof.
  intros w'. subst w'.
  rewrite update_user_subscription_status_users.
  split; [|split; [|split; [|split]]].
  - intros ->. rewrite update_subscribed_lookup.
    destruct (decide (user_id = user_id)); [|done]. split; [done|].
    intros [row Hrow]. unfold registered.
    rewrite update_subscribed_lookup.
    destruct (decide (user_id = user_id)); [|done]. rewrite Hrow. cbn.
    split.
    + intros (row' & [= <-] & Hsub). by destruct is_subscribed.
    + intros ->. by eexists.
  - by intros ->.
  - intros other Hne. destruct (db_oracle env (n_db w)); [done|].
    rewrite update_subscribed_lookup. by destruct (decide (other = user_id)).
  - intros Hnone. destruct (db_oracle env (n_db w)); [done|].
    unfold update_subscribed. by rewrite Hnone.
  - unfold update_user_subscription_status. mstep.
    cbn [db_raises res_val res_world]. by destruct (db_oracle env (n_db w)).
Qed.

(** Alice is unregistered by a false verdict; Bob's row is not touched. *)
Lemma X5_witness :
  let w' := res_world
              (update_user_subscription_status (quiet_env (fun _ => SendOk))
                 1 false (world_of two_users)) in
  users w' !! 1 = Some (with_subscribed 0 alice) /\
  ~ registered (users w') 1 /\
  users w' !! 2 = Some bob.
Proof.
  intros w'.
  destruct (X5_subscription_status_is_written (quiet_env (fun _ => SendOk))
              1 false (world_of two_users))
    as (Hok & _ & Hother & _).
  destruct (Hok eq_refl) as [Hrow Hreg].
  split; [exact Hrow|]. split.
  - intros H. apply Hreg in H; [discriminate H|]. by exists alice.
  - exact (Hother 2 ltac:(lia)).
Defined.

Lemma mark_subscribed_users (env : Env) (user_id : Z) (w : World) :
  users (res_world (mark_subscribed env user_id w)) =
  if db_oracle env (n_db w) then users w
  else update_subscribed user_id 1 (users w).
Proof.
  unfold mark_subscribed. mstep.
  cbn [db_raises res_val res_world]. by destruct (db_oracle env (n_db w)).
Qed.

Lemma registered_update_subscribed (user_id : Z) (v : Z)
    (us : gmap Z UserRow) (x : Z) :
  registered (update_subscribed user_id v us) x <->
  (x = user_id /\ is_Some (us !! user_id) /\ v = 1) \/
  (x <> user_id /\ registered us x).
Proof.
  unfold registered. rewrite update_subscribed_lookup.
  destruct (decide (x = user_id)) as [->|Hne].
  - split.
    + intros (row & Hrow & Hsub). left.
      destruct (us !! user_id) as [r|]; [|done].
      injection Hrow as <-. split; [done|]. split; [by eexists|done].
    + intros [(_ & [r Hr] & ->)|[Hne _]]; [|done].
      rewrite Hr. by eexists.
  - split; [by right|]. by intros [[? _]|[_ ?]].
Qed.

(** X6. [mark_subscribed] registers a user who has a row: after it, with the
    database up, the user is in the list that every broadcast reads.  For an
    id without a row it changes nothing: no row is created and the id is
    still absent from that list.  Nobody else's registration changes, and on
    both tables it does what [update_user_subscription_status] does with a
    true verdict. *)
Theorem X6_mark_subscribed_registers_known_users
    (env : Env) (user_id : Z) (w : World) :
  let w' := res_world (mark_subscribed env user_id w) in
  (db_oracle env (n_db w) = false -> is_Some (users w !! user_id) ->
   db_oracle env (n_db w') = false ->
   user_id ∈ res_val (get_all_registered_users env w')) /\
  (users w !! user_id = None ->
   users w' = users w /\
   user_id ∉ res_val (get_all_registered_users env w')) /\
  (forall other, other <> user_id ->
     (registered (users w') other <-> registered (users w) other)) /\
  tables w' =
    tables (res_world (update_user_subscription_status env user_id true w)).
Proof.
  intros w'. subst w'.
  split; [|split; [|split]].
  - intros Hdb Hrow Hdb'. rewrite get_all_registered_users_val, Hdb'.
    apply elem_of_select_registered.
    rewrite mark_subscribed_users, Hdb.
    apply registered_update_subscribed. left. done.
  - intros Hnone.
    assert (users (res_world (mark_subscribed env user_id w)) = users w)
      as Hsame.
    { rewrite mark_subscribed_users.
      destruct (db_oracle env (n_db w)); [done|].
      unfold update_subscribed. by rewrite Hnone. }
    split; [done|].
    rewrite get_all_registered_users_val.
    destruct (db_oracle env _); [apply not_elem_of_nil|].
    rewrite elem_of_select_registered, Hsame.
    intros (row & Hrow & _). congruence.
  - intros other Hne. rewrite mark_subscribed_users.
    destruct (db_oracle env (n_db w)); [done|].
    rewrite registered_update_subscribed. split.
    + by intros [[? _]|[_ ?]].
    + by right.
  - unfold tables. rewrite mark_subscribed_users,
      update_user_subscription_status_users. f_equal.
    unfold mark_subscribed, update_user_subscription_status. mstep.
    cbn [db_raises res_val res_world]. by destruct (db_oracle env (n_db w)).
Qed.

(** Bob (2) has a row and gets registered; 3 has none and does not. *)
Lemma X6_witness :
  let env := quiet_env (fun _ => SendOk) in
  2 ∈ res_val (get_all_registered_users env
                 (res_world (mark_subscribed env 2 (world_of two_users)))) /\
  3 ∉ res_val (get_all_registered_users env
                 (res_world (mark_subscribed env 3 (world_of two_users)))).
Proof.
  intros env. split.
  - destruct (X6_mark_subscribed_registers_known_users env 2
                (world_of two_users)) as (H & _).
    apply H; [reflexivity | by exists bob | reflexivity].
  - destruct (X6_mark_subscribed_registers_known_users env 3
                (world_of two_users)) as (_ & H & _).
    apply H. reflexivity.
Defined.

Lemma add_user_users (env : Env) (user_id : Z) (uname fname : option string)
    (w : World) :
  users (res_world (add_user env user_id uname fname w)) =
  if db_oracle env (n_db w) then users w
  else
    <[user_id :=
        {| username := uname; first_name := fname;
           registered_at :=
             match users w !! user_id with
             | Some row => registered_at row
             | None => clock w
             end;
           subscribed :=
             match users w !! user_id with
             | Some row => subscribed row
             | None => 0
             end |}]> (users w).
Proof.
  unfold add_user. mstep. cbn [db_raises res_val res_world].
  destruct (db_oracle env (n_db w)); mstep; [done|].
  cbn [get_world res_val res_world users clock].
  by destruct (users w !! user_id).
Qed.

Lemma add_user_clock (env : Env) (user_id : Z) (uname fname : option string)
    (w : World) :
  clock (res_world (add_user env user_id uname fname w)) = clock w.
Proof.
  unfold add_user. mstep. cbn [db_raises res_val res_world].
  destruct (db_oracle env (n_db w)); mstep; [done|].
  cbn [get_world res_val res_world users clock].
  by destruct (users w !! user_id).
Qed.

Lemma add_user_registered (env : Env) (user_id : Z)
    (uname fname : option string) (w : World) (x : Z) :
  registered (users (res_world (add_user env user_id uname fname w))) x <->
  registered (users w) x.
Proof.
  rewrite add_user_users.
  destruct (db_oracle env (n_db w)); [done|]. unfold registered.
  destruct (decide (x = user_id)) as [->|Hne].
  - rewrite lookup_insert_eq.
    destruct (users w !! user_id) as [row|] eqn:Hrow; split.
    + intros (r & [= <-] & Hsub). by exists row.
    + intros (r & [= <-] & Hsub). by eexists.
    + intros (r & [= <-] & Hsub). discriminate Hsub.
    + intros (r & Hr & _). discriminate Hr.
  - by rewrite lookup_insert_ne.
Qed.

(** X7. [add_user] never changes who is registered: whatever the id, the
    names and the state of the database, the users with flag 1 are the same
    before and after (a new row starts with flag 0 and the registration time
    of the insert).  Calling it a second time with the same names leaves the
    table as the first call left it. *)
Theorem X7_add_user_keeps_the_registered_set
    (env : Env) (user_id : Z) (uname fname : option string) (w : World) :
  let w1 := res_world (add_user env user_id uname fname w) in
  let w2 := res_world (add_user env user_id uname fname w1) in
  (forall x, registered (users w1) x <-> registered (users w) x) /\
  (db_oracle env (n_db w) = false -> users w !! user_id = None ->
   users w1 !! user_id =
     Some {| username := uname; first_name := fname;
             registered_at := clock w; subscribed := 0 |}) /\
  (db_oracle env (n_db w) = false -> users w2 = users w1).
Proof.
  intros w1 w2. subst w1 w2.
  split; [|split].
  - intros x. apply add_user_registered.
  - intros Hdb Hnone. rewrite add_user_users, Hdb, Hnone.
    by rewrite lookup_insert_eq.
  - intros Hdb.
    set (w1 := res_world (add_user env user_id uname fname w)).
    rewrite (add_user_users env user_id uname fname w1).
    destruct (db_oracle env (n_db w1)); [done|]. subst w1.
    rewrite add_user_users, Hdb, lookup_insert_eq.
    cbn [registered_at subscribed]. by rewrite insert_insert_eq.
Qed.

(** A first /start of user 3, twice. *)
Lemma X7_witness :
  let env := quiet_env (fun _ => SendOk) in
  let w1 := res_world (add_user env 3 None (Some "Dan"%string)
                         (world_of two_users)) in
  users w1 !! 3 =
    Some {| username := None; first_name := Some "Dan"%string;
            registered_at := 1000; subscribed := 0 |} /\
  users (res_world (add_user env 3 None (Some "Dan"%string) w1)) = users w1.
Proof.
  intros env w1.
  destruct (X7_add_user_keeps_the_registered_set env 3 None
              (Some "Dan"%string) (world_of two_users)) as (_ & Hnew & Hidem).
  split; [apply Hnew; reflexivity | apply Hidem; reflexivity].
Defined.

(** X8. [is_registered] and the list read by the broadcasts are two views of
    the same flag: with the database up, [is_registered] returns true
    exactly for the ids of [get_all_registered_users].  They differ when the
    database raises: the list is then empty, while [is_registered], which
    has no [try], lets the exception through.  Neither changes a table. *)
Theorem X8_is_registered_agrees_with_the_list
    (env : Env) (user_id : Z) (w : World) :
  let r := is_registered env user_id w in
  (db_oracle env (n_db w) = false ->
   exists b, res_val r = Some b /\
     (b = true <-> user_id ∈ res_val (get_all_registered_users env w))) /\
  (db_oracle env (n_db w) = true ->
   res_val r = None /\ res_val (get_all_registered_users env w) = []) /\
  tables (res_world r) = tables w.
Proof.
  intros r. subst r. unfold is_registered. mstep.
  cbn [db_raises res_val res_world]. rewrite get_all_registered_users_val.
  destruct (db_oracle env (n_db w)); mstep;
    cbn [get_world res_val res_world users].
  - split; [done|]. split; [done|]. done.
  - split; [|split; [done|done]]. intros _. eexists. split; [reflexivity|].
    rewrite elem_of_select_registered. unfold registered.
    destruct (users w !! user_id) as [row|]; split.
    + intros Hb%Z.eqb_eq. by exists row.
    + intros (r & [= <-] & Hsub). by apply Z.eqb_eq.
    + done.
    + by intros (r & Hr & _).
Qed.

Lemma X8_witness :
  res_val (is_registered (quiet_env (fun _ => SendOk)) 1
             (world_of two_users)) = Some true /\
  res_val (is_registered (quiet_env (fun _ => SendOk)) 2
             (world_of two_users)) = Some false.
Proof.
  destruct (X8_is_registered_agrees_with_the_list
              (quiet_env (fun _ => SendOk)) 1 (world_of two_users))
    as (H1 & _).
  destruct (H1 eq_refl) as (b & Hb & _).
  split; [rewrite Hb; vm_compute in Hb; symmetry; exact Hb | reflexivity].
Defined.

(** ** More on the raffle *)

Lemma elem_of_select_participants (us : gmap Z UserRow) (p : Participant) :
  p ∈ select_participants us <->
  exists row, us !! p_user_id p = Some row /\ subscribed row = 1 /\
              truthy_str (username row) = true /\
              p_username p = username row /\
              p_first_name p = first_name row.
Proof.
  unfold select_participants. change (map ?f ?l) with (f <$> l).
  rewrite list_elem_of_fmap. split.
  - intros ([k row] & -> & Hin).
    apply list_elem_of_filter in Hin as [[Hsub Huser] Hin].
    apply elem_of_map_to_list in Hin. by exists row.
  - intros (row & Hrow & Hsub & Huser & Hu & Hf).
    exists (p_user_id p, row). split.
    + destruct p; cbn in *. by subst.
    + apply list_elem_of_filter. split; [done|].
      by apply elem_of_map_to_list.
Qed.

Lemma get_eligible_raffle_participants_val (env : Env) (w : World) :
  res_val (get_eligible_raffle_participants env w) =
  if db_oracle env (n_db w) then [] else select_participants (users w).
Proof.
  unfold get_eligible_raffle_participants. mstep.
  cbn [db_raises res_val res_world]. by destruct (db_oracle env (n_db w)).
Qed.

Lemma check_subscription_cursor (env : Env) (cfg : Config) (user_id : Z) :
  preserves n_db (check_subscription env cfg user_id).
Proof.
  unfold check_subscription.
  destruct (negb (forallb truthy (channel_ids cfg).*2)); [straight|].
  assert (preserves n_db (check_channels env user_id (channel_ids cfg)))
    as H.
  { induction (channel_ids cfg) as [|[name cid] rest IH];
      cbn [check_channels]; straight; try destruct a; straight. }
  straight.
Qed.

(** With a username on every candidate, the re-check loop writes one status
    per candidate. *)
Lemma check_participants_writes (env : Env) (cfg : Config)
    (participants : list Participant) (w : World) :
  Forall (fun p => truthy_str (p_username p) = true) participants ->
  n_db (res_world (check_participants env cfg participants w)) =
  (n_db w + length participants)%nat.
Proof.
  intros Hall. revert w. induction Hall as [|p rest Hp _ IH]; intros w.
  - cbn. lia.
  - cbn [check_participants]. rewrite Hp. cbn [negb]. mstep.
    rewrite IH. cbn [length].
    pose proof (check_subscription_cursor env cfg (p_user_id p) w) as Hc.
    set (r1 := check_subscription env cfg (p_user_id p) w) in *.
    assert (forall b, n_db (res_world
              (update_user_subscription_status env (p_user_id p) b
                 (res_world r1))) = S (n_db (res_world r1))) as Hup.
    { intros b. unfold update_user_subscription_status. mstep.
      cbn [db_raises res_val res_world].
      by destruct (db_oracle env (n_db (res_world r1))). }
    destruct (res_val r1); mstep; rewrite Hup, Hc; lia.
Qed.

(** X9. The raffle candidates read from the table are exactly the registered
    users with a non-empty username, each once, with the names of their
    rows; the list is empty when the read raises.  Hence the username test
    at the head of the re-check loop never skips a candidate: the loop
    writes the refreshed status of every one of them. *)
Theorem X9_raffle_candidates (env : Env) (cfg : Config) (w : World) :
  let participants := res_val (get_eligible_raffle_participants env w) in
  (forall p, p ∈ participants ->
     registered (users w) (p_user_id p) /\
     truthy_str (p_username p) = true) /\
  NoDup (map p_user_id participants) /\
  (forall p,
     p ∈ participants <->
     db_oracle env (n_db w) = false /\
     exists row, users w !! p_user_id p = Some row /\ subscribed row = 1 /\
                 truthy_str (username row) = true /\
                 p_username p = username row /\
                 p_first_name p = first_name row) /\
  (forall w1,
     n_db (res_world (check_participants env cfg participants w1)) =
     (n_db w1 + length participants)%nat).
Proof.
  intros participants. subst participants.
  rewrite get_eligible_raffle_participants_val.
  assert (forall p,
            p ∈ (if db_oracle env (n_db w) then []
                 else select_participants (users w)) <->
            db_oracle env (n_db w) = false /\
            exists row, users w !! p_user_id p = Some row /\
                        subscribed row = 1 /\
                        truthy_str (username row) = true /\
                        p_username p = username row /\
                        p_first_name p = first_name row) as Hchar.
  { intros p. destruct (db_oracle env (n_db w)).
    - split; [by intros ?%elem_of_nil | by intros [? _]].
    - rewrite elem_of_select_participants. split; [done|by intros [_ ?]]. }
  assert (forall p,
            p ∈ (if db_oracle env (n_db w) then []
                 else select_participants (users w)) ->
            registered (users w) (p_user_id p) /\
            truthy_str (p_username p) = true) as Hreg.
  { intros p (_ & row & Hrow & Hsub & Hname & Hu & _)%Hchar.
    split; [by exists row | by rewrite Hu]. }
  split; [done|]. split; [|split; [done|]].
  - destruct (db_oracle env (n_db w)); [constructor|].
    apply select_participants_NoDup.
  - intros w1. apply check_participants_writes.
    apply Forall_forall. intros p Hp. by apply Hreg.
Qed.



Lemma flags_only_lowered_refl (us : gmap Z UserRow) :
  flags_only_lowered us us.
Proof. intros x. destruct (us !! x); [|done]. repeat split; by left. Qed.

Lemma flags_only_lowered_update (us0 us : gmap Z UserRow) (user_id : Z)
    (b : bool) :
  flags_only_lowered us0 us -> registered us0 user_id ->
  flags_only_lowered us0 (update_subscribed user_id (flag_of b) us).
Proof.
  intros H (r0 & Hr0 & Hsub) x. specialize (H x).
  rewrite update_subscribed_lookup.
  destruct (decide (x = user_id)) as [->|Hne]; [|done].
  rewrite Hr0 in *. destruct (us !! user_id) as [r|]; [|done]. cbn.
  destruct H as (Hu & Hf & Ht & _). repeat (split; [done|]).
  destruct b; cbn; [left|right]; done.
Qed.

Lemma check_participants_flags (env : Env) (cfg : Config)
    (us0 : gmap Z UserRow) (participants : list Participant) (w : World) :
  Forall (fun p => registered us0 (p_user_id p)) participants ->
  flags_only_lowered us0 (users w) ->
  flags_only_lowered us0
    (users (res_world (check_participants env cfg participants w))).
Proof.
  intros Hall. revert w. induction Hall as [|p rest Hp _ IH]; intros w Hw;
    [done|].
  cbn [check_participants].
  destruct (negb (truthy_str (p_username p))); mstep; [by apply IH|].
  destruct (check_subscription_quiet env cfg (p_user_id p)) as (_ & Ht & _).
  specialize (Ht w). apply (f_equal fst) in Ht. cbn [tables fst] in Ht.
  set (r1 := check_subscription env cfg (p_user_id p) w) in *.
  assert (flags_only_lowered us0
            (users (res_world
               (update_user_subscription_status env (p_user_id p)
                  (res_val r1) (res_world r1))))) as Hup.
  { rewrite update_user_subscription_status_users, Ht.
    destruct (db_oracle env _); [done|].
    by apply flags_only_lowered_update. }
  destruct (res_val r1); mstep; by apply IH.
Qed.

Lemma preserves_tables_users {A : Type} (m : M A) :
  preserves tables m -> preserves users m.
Proof. intros H w. specialize (H w). by apply (f_equal fst) in H. Qed.

Lemma sample_loop_users {A : Type} (env : Env) (k : nat) (pool : list A) :
  preserves users (sample_loop env k pool).
Proof.
  revert pool. induction k as [|k IH]; intros pool; cbn [sample_loop];
    [straight|].
  straight.
  match goal with j : nat |- _ =>
    destruct (pool !! j); [destruct (last pool)|]; straight; apply IH end.
Qed.

Lemma shuffle_loop_users {A : Type} (env : Env) (indices : list nat)
    (x : list A) :
  preserves users (shuffle_loop env indices x).
Proof.
  revert x. induction indices as [|i rest IH]; intros x; cbn [shuffle_loop];
    straight; apply IH.
Qed.

Lemma draw_winners_users (env : Env) (eligible : list Participant) :
  preserves users (draw_winners env eligible).
Proof.
  unfold draw_winners. straight.
  - unfold select_winners, random_sample, random_shuffle.
    destruct (3 <? length eligible)%nat;
      [destruct (length eligible <? 3)%nat|]; straight;
      first [apply sample_loop_users | apply shuffle_loop_users].
  - match goal with a : option _ |- _ => destruct a as [winners|] end;
      straight.
    induction (seq 0 (length eligible `min` 3)) as [|i rest IH];
      cbn [build_winners_data]; straight.
    destruct (winners !! i); [destruct (prizes !! i)|]; straight.
Qed.

Lemma save_raffle_winners_users (env : Env) (data : list WinnerData) :
  preserves users (save_raffle_winners env data).
Proof.
  unfold save_raffle_winners. straight. destruct a; straight.
Qed.

(** After the re-check loop a raffle run does not write to the users
    table. *)
Lemma conduct_raffle_users (env : Env) (cfg : Config) (msgs : Messages)
    (w : World) :
  users (res_world (conduct_raffle env cfg msgs w)) =
  users (res_world
           ((get_eligible_raffle_participants env
             ≫= check_participants env cfg) w)).
Proof.
  unfold conduct_raffle. mstep1. mstep1.
  rewrite !(bind_run (get_eligible_raffle_participants env)).
  cbn [res_val res_world res_trace].
  set (r1 := get_eligible_raffle_participants env w).
  destruct (res_val r1) as [|p ps]; [done|].
  generalize (p :: ps). intros participants.
  mstep1. rewrite !(bind_run (check_participants env cfg participants)).
  cbn [res_val res_world res_trace].
  set (r2 := check_participants env cfg participants (res_world r1)).
  mstep1.
  generalize (res_world r2) (res_val r2). intros w2 eligible.
  destruct (length eligible =? 0)%nat; [done|].
  revert w2.
  match goal with |- forall w2, users (res_world (?m w2)) = users w2 =>
    change (preserves users m) end.
  straight; [apply draw_winners_users|].
  match goal with a : option _ |- _ => destruct a as [data|] end; straight;
    [apply save_raffle_winners_users|].
  match goal with a : Outcome |- _ => destruct a end; straight.
  - apply preserves_tables_users, get_all_registered_users_tables.
  - apply preserves_tables_users, send_to_all_tables.
Qed.

Lemma get_eligible_raffle_participants_users (env : Env) :
  preserves users (get_eligible_raffle_participants env).
Proof.
  unfold get_eligible_raffle_participants. straight. destruct a; straight.
Qed.

(** X11. A raffle run creates and deletes no user and registers nobody: the
    users table afterwards has the same ids with the same names and
    registration times, and every flag is as before or went from 1 to 0
    (the candidates who failed the live re-check).  So whoever is registered
    after a raffle was registered before it. *)
Theorem X11_raffle_only_lowers_flags
    (env : Env) (cfg : Config) (msgs : Messages) (w : World) :
  let us' := users (res_world (conduct_raffle env cfg msgs w)) in
  flags_only_lowered (users w) us' /\
  (forall x, registered us' x -> registered (users w) x) /\
  (forall x, is_Some (us' !! x) <-> is_Some (users w !! x)).
Proof.
  intros us'.
  assert (flags_only_lowered (users w) us') as Hflags.
  { subst us'. rewrite conduct_raffle_users, bind_run. cbn [res_world].
    apply check_participants_flags.
    - apply Forall_forall. intros p Hp.
      rewrite get_eligible_raffle_participants_val in Hp.
      destruct (db_oracle env (n_db w)); [by apply elem_of_nil in Hp|].
      apply elem_of_select_participants in Hp
        as (row & Hrow & Hsub & _). by exists row.
    - rewrite get_eligible_raffle_participants_users.
      apply flags_only_lowered_refl. }
  split; [done|]. split.
  - intros x (r & Hr & Hsub). specialize (Hflags x). rewrite Hr in Hflags.
    destruct (users w !! x) as [r0|] eqn:Hr0; [|done].
    destruct Hflags as (_ & _ & _ & [Heq|[_ H0]]); [|congruence].
    exists r0. split; [done|congruence].
  - intros x. specialize (Hflags x).
    destruct (users w !! x), (us' !! x); try done;
      split; intros [? ?]; (done || by eexists).
Qed.

(** ** More on the scheduler *)

Lemma fan_out_job_cost (env : Env) (cfg : Config) (msgs : Messages)
    (user_ids : list Z) (job : FanoutJob) (w : World) :
  let r := fan_out_job env cfg msgs user_ids job w in
  (attempts (res_trace r) <= 3 * length user_ids)%nat /\
  clock w <= clock (res_world r) /\
  lookups (res_trace r) = [] /\
  beyond_transport (res_world r) = beyond_transport w.
Proof.
  cbn zeta. unfold fan_out_job. mstep1.
  destruct (send_to_all_cost env user_ids (job_message cfg msgs job) w)
    as ((_ & Ha) & Hc & Hl & Hb).
  rewrite attempts_app, lookups_app, Hl. unfold PACING in Hc.
  change (attempts [EvLog INFO]) with 0%nat.
  split; [lia|]. split; [lia|]. done.
Qed.

Lemma for_each_jobs_cost (env : Env) (cfg : Config) (msgs : Messages)
    (user_ids : list Z) (jobs : list FanoutJob) (w : World) :
  let r := for_each jobs (fan_out_job env cfg msgs user_ids) w in
  (attempts (res_trace r) <= 3 * length jobs * length user_ids)%nat /\
  clock w <= clock (res_world r) /\
  lookups (res_trace r) = [] /\
  beyond_transport (res_world r) = beyond_transport w /\
  (jobs = [] -> res_trace r = [] /\ res_world r = w).
Proof.
  cbn zeta. revert w. induction jobs as [|job jobs IH]; intros w.
  - cbn. repeat split; lia.
  - cbn [for_each]. mstep1.
    destruct (fan_out_job_cost env cfg msgs user_ids job w)
      as (Ha & Hc & Hl & Hb).
    destruct (IH (res_world (fan_out_job env cfg msgs user_ids job w)))
      as (Ha' & Hc' & Hl' & Hb' & _).
    rewrite attempts_app, lookups_app, Hl, Hl', Hb', Hb. cbn [length].
    split; [lia|]. split; [lia|]. done.
Qed.

Lemma tick_cost
    (env : Env) (cfg : Config) (msgs : Messages) (now : datetime)
    (w : World) :
  let r := check_and_send_reminders env cfg msgs now w in
  let jobs := due_jobs cfg (current_time_of now) in
  let user_ids := res_val (get_all_registered_users env w) in
  tables (res_world r) = tables w /\
  n_db (res_world r) = S (n_db w) /\
  lookups (res_trace r) = [] /\
  clock w <= clock (res_world r) /\
  (attempts (res_trace r) <= 3 * length jobs * length user_ids)%nat /\
  (jobs = [] ->
   attempts (res_trace r) = 0%nat /\ sleeps (res_trace r) = [] /\
   clock (res_world r) = clock w).
Proof.
  cbn zeta. rewrite tick_fan_out_jobs. unfold fan_out_jobs. mstep1.
  assert (exists w1 lvl,
            get_all_registered_users env w =
              mkRes (res_val (get_all_registered_users env w)) w1
                [EvLog lvl] /\
            tables w1 = tables w /\ n_db w1 = S (n_db w) /\
            clock w1 = clock w /\
            beyond_transport w1 =
              (users w, raffle_winners w, n_lookup w, S (n_db w), n_rand w))
    as (w1 & lvl & Hrun & Ht1 & Hn1 & Hc1 & Hb1).
  { unfold get_all_registered_users. mstep.
    cbn [db_raises res_val res_world res_trace].
    destruct (db_oracle env (n_db w)); mstep;
      cbn [get_world res_val res_world res_trace]; do 2 eexists; done. }
  rewrite Hrun. cbn [res_val res_world res_trace].
  destruct (res_val (get_all_registered_users env w)) as [|u ids].
  - cbn. rewrite Ht1, Hn1, Hc1. repeat split; lia.
  - mstep1.
    destruct (for_each_jobs_cost env cfg msgs (u :: ids)
                (due_jobs cfg (current_time_of now)) w1)
      as (Ha & Hc & Hl & Hb & Hnil).
    rewrite !attempts_app, !lookups_app, !sleeps_app, Hl.
    change (attempts [EvLog lvl]) with 0%nat.
    change (attempts [EvLog INFO]) with 0%nat.
    set (r2 := for_each (due_jobs cfg (current_time_of now))
                 (fan_out_job env cfg msgs (u :: ids)) w1) in *.
    rewrite Hb1 in Hb. unfold beyond_transport in Hb.
    assert (users (res_world r2) = users w /\
            raffle_winners (res_world r2) = raffle_winners w /\
            n_db (res_world r2) = S (n_db w)) as (Hu & Hr & Hd).
    { by injection Hb as -> -> _ -> _. }
    unfold tables. rewrite Hu, Hr, Hd.
    split; [done|]. split; [done|]. split; [done|]. split; [lia|].
    split; [lia|]. intros Hjobs. destruct (Hnil Hjobs) as [Htr Hw]. rewrite Htr, Hw, Hc1.
    done.
Qed.

(** X12. A reminder tick reads the users table once and writes to no table.
    It makes at most three transport calls per due job and registered user,
    and no membership lookup.  At a minute on which nothing is due it sends
    nothing, does not sleep and leaves the clock alone. *)
Theorem X12_tick_reads_once_and_writes_nothing
    (env : Env) (cfg : Config) (msgs : Messages) (now : datetime)
    (w : World) :
  let r := check_and_send_reminders env cfg msgs now w in
  let jobs := due_jobs cfg (current_time_of now) in
  let user_ids := res_val (get_all_registered_users env w) in
  tables (res_world r) = tables w /\
  n_db (res_world r) = S (n_db w) /\
  lookups (res_trace r) = [] /\
  (attempts (res_trace r) <= 3 * length jobs * length user_ids)%nat /\
  (jobs = [] ->
   attempts (res_trace r) = 0%nat /\ sleeps (res_trace r) = [] /\
   clock (res_world r) = clock w).
Proof.
  destruct (tick_cost env cfg msgs now w) as (H1 & H2 & H3 & _ & H4 & H5).
  done.
Qed.

Lemma X12_witness :
  let r := check_and_send_reminders (quiet_env (fun _ => SendOk))
             two_broadcasts plain_messages
             {| year := 2025; month := 3; day := 3; hour := 18; minute := 1;
                second := 0; microsecond := 0 |} (world_of two_users) in
  attempts (res_trace r) = 0%nat /\ sleeps (res_trace r) = [] /\
  clock (res_world r) = 1000.
Proof.
  intros r.
  destruct (X12_tick_reads_once_and_writes_nothing
              (quiet_env (fun _ => SendOk)) two_broadcasts plain_messages
              {| year := 2025; month := 3; day := 3; hour := 18; minute := 1;
                 second := 0; microsecond := 0 |} (world_of two_users))
    as (_ & _ & _ & _ & Hquiet).
  apply Hquiet. reflexivity.
Defined.

Lemma for_each_ext {A : Type} (xs : list A) (f g : A -> M unit) (w : World) :
  (forall x w', f x w' = g x w') -> for_each xs f w = for_each xs g w.
Proof.
  intros Hfg. revert w. induction xs as [|x xs IH]; intros w; [done|].
  cbn [for_each]. rewrite !bind_run, Hfg, IH. done.
Qed.

Lemma elem_of_due_jobs (cfg : Config) (ct : TimeTuple) (job : FanoutJob) :
  job ∈ due_jobs cfg ct -> job_date cfg job = ct.
Proof.
  unfold due_jobs. intros [Hin|Hin]%elem_of_app.
  - destruct job as [j b k|].
    + apply elem_of_due_reminders in Hin as (n & _ & _ & Hct). done.
    + exfalso. revert Hin. generalize 0%nat.
      induction (BROADCASTS cfg) as [|b bs IH]; intros i Hin;
        cbn [due_reminders] in Hin; [by apply elem_of_nil in Hin|].
      apply elem_of_app in Hin as [Hin|Hin]; [|by eapply IH].
      apply list_elem_of_fmap in Hin as (k & Hk & _). discriminate Hk.
  - destruct (bool_decide (ct = MARATHON_END_DATE cfg)) eqn:Hend;
      [|by apply elem_of_nil in Hin].
    apply bool_decide_eq_true in Hend.
    apply list_elem_of_singleton in Hin as ->. done.
Qed.

(** An explicit list of pairwise different elements. *)
Ltac explicit_NoDup :=
  repeat first
    [ apply NoDup_nil_2
    | apply NoDup_cons_2; [let H := fresh in intros H; no_member H|] ].

Lemma NoDup_due_reminders (ct : TimeTuple) (i0 : nat) (bs : list Broadcast) :
  NoDup (due_reminders ct i0 bs).
Proof.
  revert i0. induction bs as [|b bs IH]; intros i0; cbn [due_reminders];
    [constructor|].
  apply NoDup_app. split; [|split; [|apply IH]].
  - cbn [List.filter].
    destruct (bool_decide (ct = reminder_date DayBefore b));
      destruct (bool_decide (ct = reminder_date HourBefore b));
      destruct (bool_decide (ct = reminder_date AfterBroadcast b));
      cbn [map]; explicit_NoDup.
  - intros job Hjob Hrest.
    apply list_elem_of_fmap in Hjob as (k & -> & _).
    apply elem_of_due_reminders in Hrest as (n & Hn & _). lia.
Qed.

Lemma NoDup_due_jobs (cfg : Config) (ct : TimeTuple) :
  NoDup (due_jobs cfg ct).
Proof.
  unfold due_jobs. apply NoDup_app.
  split; [apply NoDup_due_reminders|]. split.
  - intros job Hjob Hend.
    destruct (bool_decide (ct = MARATHON_END_DATE cfg));
      [|by apply elem_of_nil in Hend].
    apply list_elem_of_singleton in Hend as ->.
    revert Hjob. generalize 0%nat.
    induction (BROADCASTS cfg) as [|b bs IH]; intros i Hin;
      cbn [due_reminders] in Hin; [by apply elem_of_nil in Hin|].
    apply elem_of_app in Hin as [Hin|Hin]; [|by eapply IH].
    apply list_elem_of_fmap in Hin as (k & Hk & _). discriminate Hk.
  - destruct (bool_decide (ct = MARATHON_END_DATE cfg));
      repeat constructor. by intros ?%elem_of_nil.
Qed.

Lemma scheduler_loop_frame (env : Env) (cfg : Config) (msgs : Messages)
    (nows : list datetime) (w : World) :
  let r := scheduler_loop env cfg msgs nows w in
  tables (res_world r) = tables w /\
  n_db (res_world r) = (n_db w + length nows)%nat /\
  clock w + TICK_PERIOD * Z.of_nat (length nows) <= clock (res_world r) /\
  lookups (res_trace r) = [].
Proof.
  cbn zeta. unfold scheduler_loop. revert w.
  induction nows as [|now nows IH]; intros w.
  - cbn. repeat split; lia.
  - cbn [for_each]. mstep.
    destruct (tick_cost env cfg msgs now w) as (Ht & Hn & Hl & Hc & _).
    set (r1 := check_and_send_reminders env cfg msgs now w) in *.
    match goal with |- context [for_each nows _ ?w'] =>
      destruct (IH w') as (Ht' & Hn' & Hc' & Hl') end.
    rewrite !lookups_app, Hl, Hl', Ht', Hn'.
    cbn [clock n_db length] in *. unfold TICK_PERIOD in *.
    split; [exact Ht|]. split; [lia|]. split; [lia|]. done.
Qed.

(** X13. The scheduler loop runs, iteration after iteration, the fan-outs of
    the jobs due at the minute it observes, then sleeps 60 s; it writes to no
    table and reads the users table once per iteration.  If the minutes it
    observes are pairwise different, no job is run twice: every reminder of
    every broadcast, and the end-of-marathon message, is fanned out at most
    once. *)
Theorem X13_no_job_runs_twice
    (env : Env) (cfg : Config) (msgs : Messages) (nows : list datetime)
    (w : World) :
  NoDup (map current_time_of nows) ->
  let jobs_at now := due_jobs cfg (current_time_of now) in
  let r := scheduler_loop env cfg msgs nows w in
  r = for_each nows (fun now =>
        fan_out_jobs env cfg msgs (jobs_at now);; sleep TICK_PERIOD) w /\
  NoDup (concat (map jobs_at nows)) /\
  tables (res_world r) = tables w /\
  n_db (res_world r) = (n_db w + length nows)%nat /\
  clock w + TICK_PERIOD * Z.of_nat (length nows) <= clock (res_world r).
Proof.
  intros Hnows jobs_at r. subst r jobs_at. split; [|split].
  - unfold scheduler_loop. apply for_each_ext. intros now w'.
    by rewrite !bind_run, tick_fan_out_jobs.
  - induction nows as [|now nows IH]; [constructor|].
    cbn [map concat] in *. apply NoDup_cons in Hnows as [Hnotin Hnows].
    apply NoDup_app. split; [apply NoDup_due_jobs|]. split; [|by apply IH].
    intros job Hjob Hrest. apply Hnotin.
    apply elem_of_due_jobs in Hjob.
    apply list_elem_of_In, in_concat in Hrest as (jobs & Hjobs & Hin).
    apply in_map_iff in Hjobs as (now' & <- & Hnow').
    apply list_elem_of_In, elem_of_due_jobs in Hin.
    rewrite <- Hjob, Hin. apply list_elem_of_In, in_map, Hnow'.
  - destruct (scheduler_loop_frame env cfg msgs nows w) as (? & ? & ? & _).
    done.
Qed.

(** 18:00 and 18:01: the two jobs of 18:00 run in the first iteration,
    nothing in the second. *)
Lemma X13_witness :
  let later := {| year := 2025; month := 3; day := 3; hour := 18;
                  minute := 1; second := 31; microsecond := 250 |} in
  let r := scheduler_loop (quiet_env (fun _ => SendOk)) two_broadcasts
             plain_messages [monday_six_pm; later] (world_of two_users) in
  NoDup (due_jobs two_broadcasts (current_time_of monday_six_pm) ++
         due_jobs two_broadcasts (current_time_of later) ++ []) /\
  recipients (res_trace r) = [1; 1].
Proof.
  intros later r.
  destruct (X13_no_job_runs_twice (quiet_env (fun _ => SendOk))
              two_broadcasts plain_messages [monday_six_pm; later]
              (world_of two_users)) as (_ & Hnodup & _).
  - cbn [map]. explicit_NoDup.
  - split; [exact Hnodup | reflexivity].
Defined.

(** ** The registration flow of bot.py *)

Lemma recipients_of_no_attempts (t : list Event) :
  attempts t = 0%nat -> recipients t = [].
Proof.
  unfold attempts, recipients. induction t as [|e t IH]; [done|].
  destruct e; cbn; intros H; try discriminate H; by apply IH.
Qed.

Lemma bot_check_channels_agrees (env : Env) (user_id : Z)
    (items : list (string * PyVal)) (w : World) :
  let r := bot_check_channels env user_id items w in
  let r' := check_channels env user_id items w in
  res_val r = res_val r' /\ res_world r = res_world r' /\
  lookups (res_trace r) = lookups (res_trace r') /\
  recipients (res_trace r) = [] /\ replies (res_trace r) = 0%nat.
Proof.
  cbn zeta. revert w. induction items as [|[name cid] rest IH]; intros w.
  - done.
  - cbn [bot_check_channels check_channels]. mstep.
    cbn [bot_get_chat_member res_trace res_val res_world].
    destruct (member_oracle env (n_lookup w) cid user_id) as [st|]; mstep;
      match goal with |- context [bot_check_channels _ _ rest ?w'] =>
        destruct (IH w') as (Hv & Hw & Hl & Hr & Hp) end;
      rewrite Hv, Hw; unfold replies in *;
      rewrite !lookups_app, !recipients_app, !List.filter_app, !length_app,
        Hl, Hr, Hp; done.
Qed.

Lemma bot_check_subscription_agrees
    (env : Env) (cfg : Config) (user_id : Z) (w : World) :
  let r := bot_check_subscription env cfg user_id w in
  let r' := check_subscription env cfg user_id w in
  res_val r = res_val r' /\
  res_world r = res_world r' /\
  lookups (res_trace r) = lookups (res_trace r') /\
  recipients (res_trace r) = [] /\
  recipients (res_trace r') = [].
Proof.
  cbn zeta. unfold bot_check_subscription, check_subscription.
  destruct (negb (forallb truthy (channel_ids cfg).*2)); [done|].
  generalize (channel_ids cfg). intros items.
  destruct (bot_check_channels_agrees env user_id items w)
    as (Hv & Hw & Hl & Hr & _).
  destruct (check_channels_spec env user_id items w) as (_ & _ & Ha).
  assert (recipients (res_trace (check_channels env user_id items w)) = [])
    as Hr'.
  { by apply recipients_of_no_attempts. }
  mstep. rewrite !lookups_app, !recipients_app, Hv, Hw, Hl, Hr, Hr'.
  done.
Qed.

(** X14. The two copies of the subscription checker agree: for every user,
    configuration and behaviour of the platform, [check_subscription] of
    bot.py returns the verdict of [check_subscription] of scheduler.py, after
    the same membership lookups and leaving the same state; they differ in
    log records only. *)
Theorem X14_both_checkers_agree
    (env : Env) (cfg : Config) (user_id : Z) (w : World) :
  let r := bot_check_subscription env cfg user_id w in
  let r' := check_subscription env cfg user_id w in
  res_val r = res_val r' /\
  res_world r = res_world r' /\
  lookups (res_trace r) = lookups (res_trace r') /\
  recipients (res_trace r) = [] /\
  recipients (res_trace r') = [].
Proof. apply bot_check_subscription_agrees. Qed.

Lemma replies_app (t1 t2 : list Event) :
  replies (t1 ++ t2) = (replies t1 + replies t2)%nat.
Proof. unfold replies. by rewrite List.filter_app, length_app. Qed.

Lemma add_user_quiet (env : Env) (user_id : Z) (uname fname : option string)
    (w : World) :
  let r := add_user env user_id uname fname w in
  n_send (res_world r) = n_send w /\ n_db (res_world r) = S (n_db w) /\
  recipients (res_trace r) = [] /\ replies (res_trace r) = 0%nat /\
  sleeps (res_trace r) = [].
Proof.
  cbn zeta. unfold add_user. mstep. cbn [db_raises res_val res_world res_trace].
  destruct (db_oracle env (n_db w)); mstep; [done|].
  cbn [get_world res_val res_world res_trace users].
  by destruct (users w !! user_id).
Qed.

(** X15. [/start] stores the user and greets: whatever the platform answers,
    the tables afterwards are those [add_user] leaves, so nobody's
    registration changes; the greeting is sent once, or twice with a sleep of
    two seconds in between when the first attempt fails with a network
    error; no other failure is retried, and nothing is sent to any other
    chat. *)
Theorem X15_start_stores_and_greets
    (env : Env) (user_id : Z) (uname fname : option string) (w : World) :
  let r := cmd_start env user_id uname fname w in
  let first := send_oracle env (n_send w) in
  tables (res_world r) =
    tables (res_world (add_user env user_id uname fname w)) /\
  (forall x, registered (users (res_world r)) x <-> registered (users w) x) /\
  replies (res_trace r) =
    match first with TelegramNetworkError => 2%nat | _ => 1%nat end /\
  sleeps (res_trace r) =
    match first with TelegramNetworkError => [2000] | _ => [] end /\
  recipients (res_trace r) = [].
Proof.
  cbn zeta.
  destruct (add_user_quiet env user_id uname fname w)
    as (Hn & _ & Hrec & Hrep & Hsl).
  assert (tables (res_world (cmd_start env user_id uname fname w)) =
          tables (res_world (add_user env user_id uname fname w))) as Htab.
  { unfold cmd_start. mstep. cbn [ui_call res_val res_world res_trace].
    destruct (send_oracle env _); mstep; try done.
    cbn [ui_call res_val res_world res_trace].
    by destruct (send_oracle env _). }
  split; [done|]. split.
  { intros x. apply (f_equal fst) in Htab. cbn [tables fst] in Htab.
    rewrite Htab. apply add_user_registered. }
  unfold cmd_start. mstep. cbn [ui_call res_val res_world res_trace].
  rewrite !replies_app, !sleeps_app, !recipients_app, Hn, Hrec, Hrep, Hsl.
  destruct (send_oracle env (n_send w)); mstep; try done.
  cbn [ui_call res_val res_world res_trace].
  by destruct (send_oracle env _).
Qed.

Lemma ui_tails_tables (env : Env) :
  preserves tables (ui_call env) /\
  preserves tables (handler_failed env) /\
  preserves tables (answer_then_notify env) /\
  preserves tables (remove_button env).
Proof.
  assert (preserves tables (ui_call env)) as H1 by (by intros w).
  assert (preserves tables (handler_failed env)) as H2
    by (unfold handler_failed; straight).
  split; [done|]. split; [done|]. split.
  - unfold answer_then_notify. straight.
    destruct a; straight. destruct a; straight.
  - unfold remove_button. straight. destruct a; straight.
Qed.

Lemma ui_tails_silent (env : Env) :
  silent (ui_call env) /\
  silent (handler_failed env) /\
  silent (answer_then_notify env) /\
  silent (remove_button env).
Proof.
  assert (silent (ui_call env)) as H1 by (by intros w).
  assert (silent (handler_failed env)) as H2
    by (unfold handler_failed; straight).
  split; [done|]. split; [done|]. split.
  - unfold answer_then_notify. straight.
    destruct a; straight. destruct a; straight.
  - unfold remove_button. straight. destruct a; straight.
Qed.

Lemma mark_subscribed_tables (env : Env) (user_id : Z) (w : World) :
  tables (res_world (mark_subscribed env user_id w)) =
  (if db_oracle env (n_db w) then users w
   else update_subscribed user_id 1 (users w), raffle_winners w).
Proof.
  unfold mark_subscribed, tables. mstep.
  cbn [db_raises res_val res_world]. by destruct (db_oracle env (n_db w)).
Qed.

(** What the two callback handlers leave in the tables: the flag of the user
    is set when the verdict is true, and that is all. *)
Lemma registration_handlers_tables (env : Env) (cfg : Config) (user_id : Z)
    (message_text message_caption : option string) (w : World) :
  let verdict := res_val (check_subscription env cfg user_id w) in
  let after :=
    (if verdict && negb (db_oracle env (n_db w))
     then update_subscribed user_id 1 (users w) else users w,
     raffle_winners w) in
  tables (res_world
            (process_participate env cfg user_id message_text
               message_caption w)) = after /\
  tables (res_world (process_check_subscription env cfg user_id w)) = after /\
  recipients (res_trace
                (process_participate env cfg user_id message_text
                   message_caption w)) = [] /\
  recipients (res_trace (process_check_subscription env cfg user_id w)) = [].
Proof.
  cbn zeta.
  destruct (bot_check_subscription_agrees env cfg user_id w)
    as (Hv & Hw & _ & Hr & _).
  destruct (check_subscription_quiet env cfg user_id) as (_ & Ht & _).
  pose proof (check_subscription_cursor env cfg user_id w) as Hc.
  specialize (Ht w). rewrite <- Hw in Ht, Hc. rewrite <- Hv.
  destruct (ui_tails_tables env) as (U1 & U2 & U3 & U4).
  destruct (ui_tails_silent env) as (S1 & S2 & S3 & S4).
  set (r0 := bot_check_subscription env cfg user_id w) in *.
  assert (users (res_world r0) = users w /\
          raffle_winners (res_world r0) = raffle_winners w) as [Hu Hrw].
  { unfold tables in Ht. by injection Ht. }
  unfold process_participate, process_check_subscription.
  rewrite !(bind_run (bot_check_subscription env cfg user_id)).
  fold r0. cbn [res_val res_world res_trace]. rewrite !recipients_app, Hr.
  destruct (res_val r0); cbn [andb].
  - rewrite !(bind_run (mark_subscribed env user_id)).
    cbn [res_val res_world res_trace].
    assert (recipients (res_trace (mark_subscribed env user_id (res_world r0)))
            = []) as Hm.
    { unfold mark_subscribed. mstep.
      cbn [db_raises res_val res_world res_trace].
      by destruct (db_oracle env _). }
    pose proof (mark_subscribed_tables env user_id (res_world r0)) as Hmt.
    rewrite Hc, Hu, Hrw in Hmt.
    assert ((if negb (db_oracle env (n_db w))
             then update_subscribed user_id 1 (users w) else users w) =
            (if db_oracle env (n_db w) then users w
             else update_subscribed user_id 1 (users w))) as ->
      by (by destruct (db_oracle env (n_db w))).
    rewrite <- Hmt.
    rewrite !recipients_app, Hm, U3, S3.
    split; [|split; [done|split; [|done]]].
    + rewrite bind_run. cbn [res_world]. rewrite U3.
      destruct (truthy_str message_text); [apply U4|].
      destruct (truthy_str message_caption); [apply U4|done].
    + rewrite bind_run. cbn [res_trace]. rewrite recipients_app, S3.
      destruct (truthy_str message_text); [by rewrite S4|].
      destruct (truthy_str message_caption); [by rewrite S4|done].
  - rewrite U3, S3. unfold tables. rewrite Hu, Hrw.
    split; [done|]. rewrite bind_run. cbn [res_world res_trace].
    rewrite recipients_app, S1.
    destruct (res_val (ui_call env (res_world r0))) eqn:Ha;
      rewrite ?ret_run; cbn [res_world res_trace];
      rewrite ?U2, ?S2, ?U1; unfold tables; rewrite ?Hu, ?Hrw; done.
Qed.

(** X16. The registration gate.  The handlers of the two buttons ("take
    part", "I have subscribed") leave the same tables: the flag of the
    pressing user is set when the subscription check passes, and nothing else
    changes, whatever the platform answers to the replies.  So a user becomes
    registered only by passing the check; a failed check changes nothing (it
    does not unregister either); nobody else is affected; and a user without
    a row (no [/start] stored) is not registered even by a passed check,
    because no row is created. *)
Theorem X16_registration_gate
    (env : Env) (cfg : Config) (user_id : Z)
    (message_text message_caption : option string) (w : World) :
  let verdict := res_val (bot_check_subscription env cfg user_id w) in
  let w' := res_world (process_participate env cfg user_id message_text
                         message_caption w) in
  let w'' := res_world (process_check_subscription env cfg user_id w) in
  tables w' = tables w'' /\
  (registered (users w') user_id <->
   registered (users w) user_id \/
   (verdict = true /\ is_Some (users w !! user_id) /\
    db_oracle env (n_db w) = false)) /\
  (forall x, x <> user_id ->
     (registered (users w') x <-> registered (users w) x)) /\
  (users w !! user_id = None -> users w' = users w) /\
  (verdict = false -> tables w' = tables w) /\
  recipients (res_trace (process_participate env cfg user_id message_text
                           message_caption w)) = [].
Proof.
  cbn zeta.
  destruct (registration_handlers_tables env cfg user_id message_text
              message_caption w) as (H1 & H2 & H3 & _).
  destruct (bot_check_subscription_agrees env cfg user_id w) as (Hv & _).
  rewrite Hv. rewrite H1, H2. split; [done|].
  set (v := res_val (check_subscription env cfg user_id w)) in *.
  assert (users (res_world (process_participate env cfg user_id message_text
                              message_caption w)) =
          if v && negb (db_oracle env (n_db w))
          then update_subscribed user_id 1 (users w) else users w) as Hu.
  { by apply (f_equal fst) in H1. }
  rewrite Hu. split; [|split; [|split; [|split; [|done]]]].
  - destruct v, (db_oracle env (n_db w)) eqn:Hdb; cbn [andb negb].
    + split; [by left|]. intros [Hr|(_ & _ & Hf)]; [done|discriminate Hf].
    + rewrite registered_update_subscribed. split.
      * intros [(_ & Hs & _)|(Hne & _)]; [|done]. right. done.
      * intros [(row & Hrow & Hsub)|(_ & Hs & _)]; left.
        -- split; [done|]. split; [by exists row|done].
        -- done.
    + split; [by left|]. intros [Hr|(Hf & _)]; [done|discriminate Hf].
    + split; [by left|]. intros [Hr|(Hf & _)]; [done|discriminate Hf].
  - intros x Hne. destruct (v && negb (db_oracle env (n_db w))); [|done].
    rewrite registered_update_subscribed. split.
    + by intros [[? _]|[_ ?]].
    + by right.
  - intros Hnone. destruct (v && negb (db_oracle env (n_db w))); [|done].
    unfold update_subscribed. by rewrite Hnone.
  - by intros ->.
Qed.

(** Bob has pressed /start (a row, flag 0) and passes the check (development
    mode): he is registered.  User 3 passes the check too, without a row: he
    is not. *)
Lemma X16_witness :
  let w_bob := res_world (process_participate bypass_env maria_unset 2
                            (Some "hello"%string) None (world_of two_users)) in
  let w_3 := res_world (process_participate bypass_env maria_unset 3
                          (Some "hello"%string) None (world_of two_users)) in
  registered (users w_bob) 2 /\ users w_3 = two_users.
Proof.
  intros w_bob w_3. split.
  - destruct (X16_registration_gate bypass_env maria_unset 2
                (Some "hello"%string) None (world_of two_users))
      as (_ & Hreg & _).
    apply Hreg. right. split; [reflexivity|]. split; [by exists bob|].
    reflexivity.
  - destruct (X16_registration_gate bypass_env maria_unset 3
                (Some "hello"%string) None (world_of two_users))
      as (_ & _ & _ & Hnone & _).
    apply Hnone. reflexivity.
Defined.

(** X17. From [/start] to the broadcasts.  A user who sends [/start] and then
    presses "take part" is, if the subscription check passes and the
    database answers, in the list that every broadcast iterates; if the user
    was not registered and the check fails, the user is not in that list. *)
Theorem X17_start_then_participate
    (env : Env) (cfg : Config) (user_id : Z) (uname fname : option string)
    (message_text message_caption : option string) (w : World) :
  let w1 := res_world (cmd_start env user_id uname fname w) in
  let verdict := res_val (bot_check_subscription env cfg user_id w1) in
  let w2 := res_world (process_participate env cfg user_id message_text
                         message_caption w1) in
  let user_ids := res_val (get_all_registered_users env w2) in
  (db_oracle env (n_db w) = false -> db_oracle env (n_db w1) = false ->
   db_oracle env (n_db w2) = false -> verdict = true ->
   user_id ∈ user_ids) /\
  (~ registered (users w) user_id -> verdict = false ->
   user_id ∉ user_ids).
Proof.
  cbn zeta.
  set (w1 := res_world (cmd_start env user_id uname fname w)).
  destruct (registration_handlers_tables env cfg user_id message_text
              message_caption w1) as (H1 & _).
  destruct (bot_check_subscription_agrees env cfg user_id w1) as (Hv & _).
  apply (f_equal fst) in H1. cbn [tables fst] in H1. rewrite Hv.
  set (w2 := res_world (process_participate env cfg user_id message_text
                          message_caption w1)) in *.
  assert (users w1 =
          users (res_world (add_user env user_id uname fname w))) as Hstart.
  { subst w1. unfold cmd_start. mstep.
    cbn [ui_call res_val res_world res_trace].
    destruct (send_oracle env _); mstep; try done.
    cbn [ui_call res_val res_world res_trace].
    by destruct (send_oracle env _). }
  rewrite get_all_registered_users_val. split.
  - intros Hdb Hdb1 Hdb2 Hver. rewrite Hdb2.
    apply elem_of_select_registered. rewrite H1, Hver, Hdb1. cbn [andb negb].
    apply registered_update_subscribed. left. split; [done|].
    split; [|done]. rewrite Hstart, add_user_users, Hdb.
    rewrite lookup_insert_eq. by eexists.
  - intros Hnot Hver. destruct (db_oracle env (n_db w2));
      [apply not_elem_of_nil|].
    rewrite elem_of_select_registered, H1, Hver. cbn [andb].
    rewrite Hstart, add_user_registered. done.
Qed.

Lemma X17_witness :
  let env := bypass_env in
  let w1 := res_world (cmd_start env 3 None (Some "Dan"%string)
                         (world_of two_users)) in
  let w2 := res_world (process_participate env maria_unset 3 None None w1) in
  3 ∈ res_val (get_all_registered_users env w2).
Proof.
  intros env w1 w2.
  destruct (X17_start_then_participate env maria_unset 3 None
              (Some "Dan"%string) None None (world_of two_users)) as (H & _).
  apply H; reflexivity.
Defined.

(** ** The dialogue of [/send] *)

Lemma get_fsm_insert (st : Store) (k k' : Z * Z) (f : FSM) :
  get_fsm (<[k := f]> st) k' = if decide (k' = k) then f else get_fsm st k'.
Proof.
  unfold get_fsm, Store. destruct (decide (k' = k)) as [->|Hne].
  - by rewrite lookup_insert_eq.
  - by rewrite lookup_insert_ne.
Qed.

Lemma cmd_send_val (env : Env) (ADMIN_IDS : list Z) (from_id : Z) (f : FSM)
    (w : World) :
  res_val (cmd_send env ADMIN_IDS from_id f w) =
  if bool_decide (from_id ∈ ADMIN_IDS) && is_ok (send_oracle env (n_send w))
  then set_state waiting_for_message f else f.
Proof.
  unfold cmd_send. destruct ADMIN_IDS as [|a ids].
  - rewrite bool_decide_eq_false_2 by apply not_elem_of_nil. by mstep.
  - destruct (bool_decide (from_id ∈ a :: ids)); cbn [negb andb]; mstep;
      [|done].
    cbn [ui_call res_val]. by destruct (send_oracle env (n_send w)).
Qed.

Lemma process_message_to_send_val (env : Env)
    (message_text message_caption : option string) (photo : list string)
    (f : FSM) (w : World) :
  let f1 :=
    update_data
      {| md_text := or_str message_text (or_str message_caption EmptyString);
         md_photo := last photo |} f in
  res_val (process_message_to_send env message_text message_caption photo f w) =
  if is_ok (send_oracle env (n_send w)) then set_state confirm_send f1 else f1.
Proof.
  cbn zeta. unfold process_message_to_send. mstep. cbn [ui_call res_val].
  assert (match photo with [] => None | _ => last photo end = last photo)
    as -> by (by destruct photo).
  by destruct (send_oracle env (n_send w)).
Qed.

(** [straight], with a case analysis at every branch on a value. *)
Ltac branches :=
  straight;
  repeat
    (match goal with
     | |- silent (match ?x with _ => _ end) => destruct x
     | |- preserves _ (match ?x with _ => _ end) => destruct x
     end; straight).

Lemma safe_edit_message_silent (env : Env)
    (message_text message_caption : option string) :
  silent (safe_edit_message env message_text message_caption).
Proof.
  assert (silent (ui_call env)) as Hui by (by intros w).
  unfold safe_edit_message. branches.
Qed.

Lemma safe_edit_message_tables (env : Env)
    (message_text message_caption : option string) :
  preserves tables (safe_edit_message env message_text message_caption).
Proof.
  assert (preserves tables (ui_call env)) as Hui by (by intros w).
  unfold safe_edit_message. branches.
Qed.

Lemma cancel_send_callback_spec (env : Env)
    (message_text message_caption : option string) (f : FSM) (w : World) :
  let r := cancel_send_callback env message_text message_caption f w in
  res_val r = fsm_clear /\ recipients (res_trace r) = [] /\
  tables (res_world r) = tables w.
Proof.
  cbn zeta. unfold cancel_send_callback. mstep.
  pose proof (safe_edit_message_silent env message_text message_caption w)
    as Hs.
  pose proof (safe_edit_message_tables env message_text message_caption w)
    as Ht.
  rewrite !recipients_app, Hs. cbn [ui_call res_val res_world res_trace].
  destruct (send_oracle env _); mstep; by cbn.
Qed.

Lemma dialogue_handlers_silent (env : Env) (ADMIN_IDS : list Z) (f : FSM) :
  (forall from_id, silent (cmd_stats env ADMIN_IDS from_id)) /\
  (forall from_id, silent (cmd_send env ADMIN_IDS from_id f)) /\
  silent (cancel_send env f) /\
  (forall message_text message_caption photo,
     silent (process_message_to_send env message_text message_caption photo f))
  /\
  (forall message_text message_caption,
     silent (cancel_send_callback env message_text message_caption f)).
Proof.
  assert (silent (ui_call env)) as Hui by (by intros w).
  pose proof (get_all_registered_users_silent env) as Hget.
  repeat apply conj.
  - intros from_id. unfold cmd_stats. destruct ADMIN_IDS; branches.
  - intros from_id. unfold cmd_send. destruct ADMIN_IDS; branches.
  - unfold cancel_send. branches.
  - intros. unfold process_message_to_send. branches.
  - intros t c w. by destruct (cancel_send_callback_spec env t c f w) as (_ & ? & _).
Qed.

Lemma registration_handlers_silent (env : Env) (cfg : Config) :
  (forall user_id uname fname, silent (cmd_start env user_id uname fname)) /\
  (forall user_id message_text message_caption,
     silent (process_participate env cfg user_id message_text message_caption))
  /\
  (forall user_id, silent (process_check_subscription env cfg user_id)).
Proof.
  repeat apply conj.
  - intros user_id uname fname.
    assert (silent (ui_call env)) as Hui by (by intros w).
    assert (silent (add_user env user_id uname fname)) as Hadd.
    { intros w. by destruct (add_user_quiet env user_id uname fname w)
        as (_ & _ & ? & _). }
    unfold cmd_start. branches.
  - intros user_id t c w.
    by destruct (registration_handlers_tables env cfg user_id t c w)
      as (_ & _ & ? & _).
  - intros user_id w.
    by destruct (registration_handlers_tables env cfg user_id None None w)
      as (_ & _ & _ & ?).
Qed.

Lemma elem_of_when {A : Type} (b : bool) (h x : A) :
  x ∈ (if b then [h] else []) -> b = true /\ x = h.
Proof.
  destruct b.
  - by intros ->%list_elem_of_singleton.
  - by intros ?%not_elem_of_nil.
Qed.

(** What a handler that accepts an update does to the contexts: it touches
    the context of the update only, and moves it along the dialogue; only the
    handler of the confirmation writes to other chats. *)
Lemma handlers_step (env : Env) (cfg : Config) (ADMIN_IDS : list Z)
    (up : Update) (st : Store) (h : M Store) (w : World) :
  h ∈ handlers env cfg ADMIN_IDS up st ->
  let k := update_key up in
  let f := get_fsm st k in
  let st' := res_val (h w) in
  let f' := get_fsm st' k in
  (forall k', k' <> k -> get_fsm st' k' = get_fsm st k') /\
  (f' = f \/ f' = fsm_clear \/
   (update_from up ∈ ADMIN_IDS /\ f' = set_state waiting_for_message f) \/
   (fsm_state f = Some waiting_for_message /\
    exists md, f' = update_data md f \/
               f' = set_state confirm_send (update_data md f))) /\
  (recipients (res_trace (h w)) = [] \/ fsm_state f = Some confirm_send).
Proof.
  cbn zeta.
  destruct (dialogue_handlers_silent env ADMIN_IDS (get_fsm st (update_key up)))
    as (Hstats & Hsend & Hcancel & Hcompose & Hcancel_cb).
  destruct (registration_handlers_silent env cfg) as (Hstart & Hpart & Hcheck).
  assert (forall m : M unit, silent m ->
            let r := (m;; mret st : M Store) w in
            (forall k', k' <> update_key up ->
               get_fsm (res_val r) k' = get_fsm st k') /\
            get_fsm (res_val r) (update_key up) = get_fsm st (update_key up) /\
            recipients (res_trace r) = []) as Hkeep.
  { intros m Hm. cbn zeta. mstep. rewrite recipients_app, Hm. done. }
  assert (forall m : M FSM,
            let r := (f' ← m; mret (<[update_key up := f']> st) : M Store) w in
            (forall k', k' <> update_key up ->
               get_fsm (res_val r) k' = get_fsm st k') /\
            get_fsm (res_val r) (update_key up) = res_val (m w) /\
            recipients (res_trace r) = recipients (res_trace (m w))) as Hput.
  { intros m. cbn zeta. mstep. rewrite recipients_app, app_nil_r.
    split; [|split; [|done]].
    - intros k' Hne. rewrite get_fsm_insert. by destruct (decide _).
    - rewrite get_fsm_insert. by destruct (decide _). }
  unfold handlers. cbn zeta. destruct up as [m|c].
  - rewrite !elem_of_app.
    intros [H|[H|[H|[H|H]]]]; apply elem_of_when in H as [Hb ->].
    + destruct (Hkeep _ (Hstart (msg_from_id m) (msg_from_username m)
                           (msg_from_first_name m))) as (H1 & H2 & H3).
      split; [done|]. split; [by left|by left].
    + destruct (Hkeep _ (Hstats (msg_from_id m))) as (H1 & H2 & H3).
      split; [done|]. split; [by left|by left].
    + destruct (Hput (cmd_send env ADMIN_IDS (msg_from_id m)
                        (get_fsm st (update_key (UMessage m)))))
        as (H1 & H2 & H3).
      split; [done|]. rewrite H2, H3, Hsend. split; [|by left].
      rewrite cmd_send_val.
      destruct (bool_decide (msg_from_id m ∈ ADMIN_IDS)) eqn:Hadm;
        cbn [andb]; [|by left].
      apply bool_decide_eq_true in Hadm.
      destruct (is_ok _); [|by left]. right. right. left. done.
    + destruct (Hput (cancel_send env (get_fsm st (update_key (UMessage m)))))
        as (H1 & H2 & H3).
      split; [done|]. rewrite H2, H3, Hcancel. split; [|by left].
      right. left. unfold cancel_send. by mstep.
    + destruct (Hput (process_message_to_send env (msg_text m) (msg_caption m)
                        (msg_photo m) (get_fsm st (update_key (UMessage m)))))
        as (H1 & H2 & H3).
      split; [done|]. rewrite H2, H3, Hcompose. split; [|by left].
      apply bool_decide_eq_true in Hb.
      right. right. right. split; [done|].
      rewrite process_message_to_send_val. eexists.
      destruct (is_ok _); [by right|by left].
  - rewrite !elem_of_app.
    intros [H|[H|[H|H]]]; apply elem_of_when in H as [Hb ->].
    + destruct (Hkeep _ (Hpart (cb_from_id c) (cb_message_text c)
                           (cb_message_caption c))) as (H1 & H2 & H3).
      split; [done|]. split; [by left|by left].
    + destruct (Hkeep _ (Hcheck (cb_from_id c))) as (H1 & H2 & H3).
      split; [done|]. split; [by left|by left].
    + destruct (Hput (cancel_send_callback env (cb_message_text c)
                        (cb_message_caption c)
                        (get_fsm st (update_key (UCallback c)))))
        as (H1 & H2 & H3).
      split; [done|]. rewrite H2, H3, Hcancel_cb. split; [|by left].
      right. left.
      by destruct (cancel_send_callback_spec env (cb_message_text c)
                     (cb_message_caption c)
                     (get_fsm st (update_key (UCallback c))) w) as (? & _).
    + destruct (Hput (confirm_send_handler env
                        (get_fsm st (update_key (UCallback c)))))
        as (H1 & H2 & H3).
      split; [done|]. rewrite H2. split.
      * right. left. unfold confirm_send_handler. by mstep.
      * right. apply andb_true_iff in Hb as [Hb _].
        by apply bool_decide_eq_true in Hb.
Qed.

Lemma update_key_from (up : Update) :
  update_key up = ((update_key up).1, update_from up).
Proof. by destruct up. Qed.

Lemma dispatch_cases (env : Env) (cfg : Config) (ADMIN_IDS : list Z)
    (up : Update) (st : Store) :
  dispatch env cfg ADMIN_IDS up st = mret st \/
  dispatch env cfg ADMIN_IDS up st ∈ handlers env cfg ADMIN_IDS up st.
Proof.
  unfold dispatch. destruct (handlers env cfg ADMIN_IDS up st) as [|h hs].
  - by left.
  - right. apply list_elem_of_here.
Qed.

(** A property of the store that every accepting handler keeps holds along
    every run. *)
Lemma run_invariant (env : Env) (cfg : Config) (ADMIN_IDS : list Z)
    (P : Store -> Prop) :
  (forall up st h w, P st -> h ∈ handlers env cfg ADMIN_IDS up st ->
     P (res_val (h w))) ->
  forall ups st w, P st -> P (res_val (run env cfg ADMIN_IDS ups st w)).
Proof.
  intros Hstep ups. induction ups as [|up ups IH]; intros st w HP; [done|].
  cbn [run]. mstep1. apply IH.
  destruct (dispatch_cases env cfg ADMIN_IDS up st) as [->| Hin]; [done|].
  by apply (Hstep up st).
Qed.

Lemma only_admins_step (env : Env) (cfg : Config) (ADMIN_IDS : list Z)
    (up : Update) (st : Store) (h : M Store) (w : World) :
  only_admins ADMIN_IDS st -> h ∈ handlers env cfg ADMIN_IDS up st ->
  only_admins ADMIN_IDS (res_val (h w)) /\
  (update_from up ∉ ADMIN_IDS -> recipients (res_trace (h w)) = []).
Proof.
  intros Hinv Hin.
  destruct (handlers_step env cfg ADMIN_IDS up st h w Hin)
    as (Hother & Hkey & Hrec).
  split.
  - intros chat user Hnot.
    destruct (decide ((chat, user) = update_key up)) as [Heq|Hne];
      [|rewrite Hother by done; by apply Hinv].
    pose proof (Hinv chat user Hnot) as Hnone. rewrite Heq in Hnone |- *.
    destruct Hkey as [->|[->|[[Hadm _]|[Hwait _]]]]; try done.
    + rewrite update_key_from in Heq. injection Heq as _ ->. done.
    + by rewrite Hnone in Hwait.
  - intros Hnot. destruct Hrec as [?|Hconf]; [done|].
    rewrite update_key_from, (Hinv _ _ Hnot) in Hconf. done.
Qed.

Lemma confirm_has_data_step (env : Env) (cfg : Config) (ADMIN_IDS : list Z)
    (up : Update) (st : Store) (h : M Store) (w : World) :
  confirm_has_data st -> h ∈ handlers env cfg ADMIN_IDS up st ->
  confirm_has_data (res_val (h w)).
Proof.
  intros Hinv Hin k.
  destruct (handlers_step env cfg ADMIN_IDS up st h w Hin)
    as (Hother & Hkey & _).
  destruct (decide (k = update_key up)) as [->|Hne];
    [|rewrite Hother by done; by apply Hinv].
  destruct Hkey as [->|[->|[[_ ->]|[Hwait [md [->| ->]]]]]].
  - apply Hinv.
  - discriminate.
  - discriminate.
  - cbn [update_data fsm_state]. by rewrite Hwait.
  - intros _. by eexists.
Qed.

(** X18. Only administrators broadcast.  The dialogue of [/send] is entered
    through [cmd_send], which tests [ADMIN_IDS]; the handler that broadcasts
    tests nothing but the state of the dialogue.  Along every run of updates
    handled one after the other, the chats of users outside [ADMIN_IDS] stay
    outside the dialogue; a run of updates none of which comes from an
    administrator writes to no user; and the same holds for every handler
    whose filters accept an update, not only for the first. *)
Theorem X18_only_administrators_broadcast
    (env : Env) (cfg : Config) (ADMIN_IDS : list Z) (ups : list Update)
    (st : Store) (w : World) :
  only_admins ADMIN_IDS st ->
  let r := run env cfg ADMIN_IDS ups st w in
  only_admins ADMIN_IDS (res_val r) /\
  ((forall up, up ∈ ups -> update_from up ∉ ADMIN_IDS) ->
   recipients (res_trace r) = []) /\
  (forall up h, h ∈ handlers env cfg ADMIN_IDS up st ->
     only_admins ADMIN_IDS (res_val (h w)) /\
     (update_from up ∉ ADMIN_IDS -> recipients (res_trace (h w)) = [])).
Proof.
  intros Hinv. cbn zeta. split; [|split].
  - apply run_invariant; [|done]. intros up st0 h w0 H0 Hin.
    by apply (only_admins_step env cfg ADMIN_IDS up st0 h w0).
  - revert st w Hinv. induction ups as [|up ups IH]; intros st w Hinv Hall;
      [done|].
    cbn [run]. mstep1. rewrite recipients_app.
    assert (update_from up ∉ ADMIN_IDS) as Hup
      by (apply Hall, list_elem_of_here).
    assert (only_admins ADMIN_IDS
              (res_val (dispatch env cfg ADMIN_IDS up st w)) /\
            recipients (res_trace (dispatch env cfg ADMIN_IDS up st w)) = [])
      as [Hinv' ->].
    { destruct (dispatch_cases env cfg ADMIN_IDS up st) as [->|Hin]; [done|].
      destruct (only_admins_step env cfg ADMIN_IDS up st _ w Hinv Hin)
        as (? & Hrec).
      split; [done|by apply Hrec]. }
    apply IH; [done|]. intros up' Hin'. apply Hall. by apply list_elem_of_further.
  - intros up h Hin. by apply (only_admins_step env cfg ADMIN_IDS up st).
Qed.

(** User 3, who is no administrator, goes through the whole dialogue:
    [/send], a text, the confirmation. *)
Lemma X18_witness :
  recipients
    (res_trace (run bypass_env maria_unset [7] (send_dialogue 3) ∅
                  (world_of two_users))) = [].
Proof.
  assert (only_admins [7] ∅) as Hinv by (by intros chat user _).
  destruct (X18_only_administrators_broadcast bypass_env maria_unset [7]
              (send_dialogue 3) ∅ (world_of two_users) Hinv) as (_ & H & _).
  apply H. intros up Hin Hadm.
  apply list_elem_of_singleton in Hadm.
  unfold send_dialogue in Hin.
  repeat (apply elem_of_cons in Hin as [->|Hin];
          [vm_compute in Hadm; discriminate Hadm|]).
  by apply not_elem_of_nil in Hin.
Defined.

(** X19. A chat that waits for the confirmation has a message stored: the
    property holds in the empty store of a fresh [MemoryStorage] and every
    handler keeps it, so along every run of updates handled one after the
    other the handler of the confirmation finds its [message_data], and its
    branch for missing data is not taken. *)
Theorem X19_confirmation_finds_its_message
    (env : Env) (cfg : Config) (ADMIN_IDS : list Z) (ups : list Update)
    (st : Store) (w : World) :
  confirm_has_data st ->
  confirm_has_data (res_val (run env cfg ADMIN_IDS ups st w)) /\
  confirm_has_data (res_val (run env cfg ADMIN_IDS ups ∅ w)).
Proof.
  intros Hinv. split.
  - apply run_invariant; [|done]. intros up st0 h w0 H0 Hin.
    by apply (confirm_has_data_step env cfg ADMIN_IDS up st0 h w0).
  - apply run_invariant; [|by intros k].
    intros up st0 h w0 H0 Hin.
    by apply (confirm_has_data_step env cfg ADMIN_IDS up st0 h w0).
Qed.

Lemma X19_witness :
  confirm_has_data
    (res_val (run bypass_env maria_unset [7] (send_dialogue 7) ∅
                (world_of two_users))).
Proof.
  apply (X19_confirmation_finds_its_message bypass_env maria_unset [7]
           (send_dialogue 7) ∅ (world_of two_users)).
  by intros k.
Defined.







Lemma dispatch_cancel_send (env : Env) (cfg : Config)
    (ADMIN_IDS : list Z) (m : Message) (st : Store) :
  msg_command m = None -> msg_text m = Some CANCEL_BUTTON ->
  fsm_state (get_fsm st (update_key (UMessage m))) = Some waiting_for_message ->
  dispatch env cfg ADMIN_IDS (UMessage m) st =
  (f' ← cancel_send env (get_fsm st (update_key (UMessage m)));
   mret (<[update_key (UMessage m) := f']> st)).
Proof.
  intros Hc Ht Hs. unfold dispatch, handlers. cbn zeta. rewrite Hc, Hs, Ht.
  rewrite !(bool_decide_eq_false_2 (None = _)) by done.
  by rewrite !bool_decide_eq_true_2 by done.
Qed.


Lemma dispatch_cancel_send_callback (env : Env) (cfg : Config)
    (ADMIN_IDS : list Z) (q : CallbackQuery) (st : Store) :
  cb_data q = Some "cancel_send"%string ->
  fsm_state (get_fsm st (update_key (UCallback q))) = Some confirm_send ->
  dispatch env cfg ADMIN_IDS (UCallback q) st =
  (f' ← cancel_send_callback env (cb_message_text q) (cb_message_caption q)
          (get_fsm st (update_key (UCallback q)));
   mret (<[update_key (UCallback q) := f']> st)).
Proof.
  intros Hd Hs. unfold dispatch, handlers. cbn zeta. rewrite Hd, Hs.
  rewrite !bool_decide_eq_false_2 by discriminate.
  by rewrite !bool_decide_eq_true_2 by done.
Qed.

(** Outside the state [confirm_send] no handler accepts the two buttons of
    the preview. *)
Lemma handlers_preview_buttons_dropped (env : Env) (cfg : Config)
    (ADMIN_IDS : list Z) (q : CallbackQuery) (st : Store) :
  cb_data q = Some "confirm_send"%string \/
  cb_data q = Some "cancel_send"%string ->
  fsm_state (get_fsm st (update_key (UCallback q))) <> Some confirm_send ->
  handlers env cfg ADMIN_IDS (UCallback q) st = [].
Proof.
  intros Hd Hs. unfold handlers. cbn zeta.
  rewrite (bool_decide_eq_false_2 (fsm_state _ = _)) by done.
  destruct Hd as [-> | ->]; by rewrite !bool_decide_eq_false_2 by discriminate.
Qed.



(** X21. Cancelling ends the dialogue, whatever the platform answers to the
    notices of the cancellation ([state.clear()] comes before them): the
    context of the chat is cleared, nothing is sent to any user, the tables
    are unchanged, and a later press of the confirmation in this chat finds
    no handler, so a cancelled message is never broadcast. *)
Theorem X21_cancel_ends_the_dialogue
    (env : Env) (cfg : Config) (ADMIN_IDS : list Z) (up : Update)
    (st : Store) (w : World) :
  cancels up st ->
  let r := dispatch env cfg ADMIN_IDS up st w in
  get_fsm (res_val r) (update_key up) = fsm_clear /\
  recipients (res_trace r) = [] /\
  tables (res_world r) = tables w /\
  forall q, update_key (UCallback q) = update_key up ->
    cb_data q = Some "confirm_send"%string ->
    handlers env cfg ADMIN_IDS (UCallback q) (res_val r) = [].
Proof.
  intros Hcancel. cbn zeta.
  assert (get_fsm (res_val (dispatch env cfg ADMIN_IDS up st w))
            (update_key up) = fsm_clear /\
          recipients (res_trace (dispatch env cfg ADMIN_IDS up st w)) = [] /\
          tables (res_world (dispatch env cfg ADMIN_IDS up st w)) = tables w)
    as (Hclear & Hrec & Htab).
  { destruct up as [m|q]; cbn [cancels] in Hcancel.
    - destruct Hcancel as (Hc & Ht & Hs).
      rewrite dispatch_cancel_send by done. unfold cancel_send. mstep.
      rewrite get_fsm_insert. by destruct (decide _).
    - destruct Hcancel as (Hd & Hs).
      rewrite dispatch_cancel_send_callback by done. mstep.
      destruct (cancel_send_callback_spec env (cb_message_text q)
                  (cb_message_caption q)
                  (get_fsm st (update_key (UCallback q))) w)
        as (Hv & Hr & Ht).
      rewrite Hv, recipients_app, Hr, get_fsm_insert.
      by destruct (decide _). }
  split; [done|]. split; [done|]. split; [done|].
  intros q Hk Hd. apply handlers_preview_buttons_dropped; [by left|].
  by rewrite Hk, Hclear.
Qed.

(** The administrator cancels at the preview, while the platform is down. *)
Lemma X21_witness :
  get_fsm
    (res_val (dispatch (quiet_env (fun _ => TelegramNetworkError)) maria_unset
                [7] (UCallback (button_press 7 "cancel_send")) preview_shown
                (world_of two_users)))
    (7, 7) = fsm_clear.
Proof.
  apply (X21_cancel_ends_the_dialogue
           (quiet_env (fun _ => TelegramNetworkError)) maria_unset [7]
           (UCallback (button_press 7 "cancel_send")) preview_shown
           (world_of two_users)).
  split; reflexivity.
Defined.

(** X22. [/stats] is for administrators: for a user outside [ADMIN_IDS], and
    for everybody when [ADMIN_IDS] is empty, the command does not read the
    table (the world changes by the one answer only); for an administrator
    the table is read once; in every case exactly one answer is sent, to no
    other chat, and the tables are unchanged. *)
Theorem X22_stats_is_for_administrators
    (env : Env) (ADMIN_IDS : list Z) (from_id : Z) (w : World) :
  let r := cmd_stats env ADMIN_IDS from_id w in
  n_db (res_world r) =
    (if bool_decide (from_id ∈ ADMIN_IDS) then S (n_db w) else n_db w) /\
  (from_id ∉ ADMIN_IDS -> res_trace r = [EvReply]) /\
  replies (res_trace r) = 1%nat /\
  recipients (res_trace r) = [] /\
  tables (res_world r) = tables w.
Proof.
  cbn zeta. unfold cmd_stats. destruct ADMIN_IDS as [|a ids].
  - rewrite bool_decide_eq_false_2 by apply not_elem_of_nil. by mstep.
  - destruct (bool_decide (from_id ∈ a :: ids)) eqn:Hadm; cbn [negb]; mstep.
    + apply bool_decide_eq_true in Hadm.
      unfold get_all_registered_users. mstep.
      cbn [db_raises res_val res_world res_trace ui_call n_db].
      split; [by destruct (db_oracle env (n_db w))|]. split; [done|].
      by destruct (db_oracle env (n_db w)).
    + by apply bool_decide_eq_false in Hadm.
Qed.

Lemma X22_witness :
  res_trace (cmd_stats bypass_env [7] 3 (world_of two_users)) = [EvReply].
Proof.
  destruct (X22_stats_is_for_administrators bypass_env [7] 3
              (world_of two_users)) as (_ & H & _).
  apply H. intros Hin. apply list_elem_of_singleton in Hin. discriminate Hin.
Defined.
